(** * rgb75: row-scan engine of the HUB75 LED matrix driver

    A shallow embedding of [rgb75/rgb75.go] (package [rgb75] of
    ardnew/drivers) and the verification of its scan state machine,
    framebuffer accessors and configuration step.

    Conventions of the embedding:
    - Go's [int] is the 32-bit signed integer of the TinyGo targets that
      provide package [machine]; [uint32] and [uint8] are unsigned.  All of
      them are carried by [Z], every wrap-around is written out.
    - A method with a pointer receiver takes the device and returns the
      updated device.  Hardware accesses (GPIO, hub, timer) are recorded in
      the order they are issued as a list of [Event]s.
    - A run-time panic (index out of range, a [make] length out of range,
      negative shift count) is the outcome [Panic].

    After the driver come three smaller embeddings, each in a module of its
    own: the SPI transport of the flash driver and the SPI driver of the
    ILI9341 display ([flash/transport_spi.go]), over a bus or peripheral
    taken as a parameter, and the coordinate arithmetic of the gravity
    example ([examples/rgb75/gravity/particle.go]). *)

From Stdlib Require Import ZArith Lia Bool List.
From stdpp Require Import base tactics option list.
Import ListNotations.

Local Open Scope Z_scope.

(** ** Outcomes of fallible code *)

Inductive result (A : Type) : Type :=
| Done (a : A)
| Panic.
Arguments Done {A} a.
Arguments Panic {A}.

#[global] Instance result_ret : MRet result := fun A a => Done a.
#[global] Instance result_bind : MBind result := fun A B f m =>
  match m with
  | Done a => f a
  | Panic => Panic
  end.

(** ** Go integer arithmetic *)

Module GoInt.

(** Two's complement reduction to [int] (32 bits). *)
Definition wrap_int (z : Z) : Z :=
  let m := z mod 2 ^ 32 in
  if m <? 2 ^ 31 then m else m - 2 ^ 32.

(** Reduction to [uint32]. *)
Definition wrap_u32 (z : Z) : Z := z mod 2 ^ 32.

Definition int_range (z : Z) : Prop := - 2 ^ 31 <= z < 2 ^ 31.
Definition u32_range (z : Z) : Prop := 0 <= z < 2 ^ 32.
Definition u8_range (z : Z) : Prop := 0 <= z < 2 ^ 8.

(** [a << n] at type [int], for a shift count [n >= 0]: bits shifted past
    the width are lost, a count of 32 or more gives 0. *)
Definition shl_int (a n : Z) : Z :=
  if 32 <=? n then 0 else wrap_int (Z.shiftl a n).

(** [a << n] at type [uint32], for a shift count [n >= 0]. *)
Definition shl_u32 (a n : Z) : Z :=
  if 32 <=? n then 0 else wrap_u32 (Z.shiftl a n).

(** Bit [i] of the 32-bit representation of an [int]. *)
Definition int_testbit (z : Z) (i : Z) : bool := Z.testbit (z mod 2 ^ 32) i.

End GoInt.
Import GoInt.

(** ** Data model *)

(** [machine.Pin] *)
Definition Pin : Type := Z.

(** [color.RGBA]: four 8-bit channels. *)
Record RGBA : Type := mkRGBA { R : Z; G : Z; B : Z; A : Z }.

(** [color.RGBA.RGBA]: every channel widened to 16 bits by repeating its
    byte ([r = uint32(c.R); r |= r << 8]). *)
Definition widen (c : Z) : Z := Z.lor c (wrap_u32 (Z.shiftl c 8)).
Definition RGBA_RGBA (c : RGBA) : Z * Z * Z * Z :=
  (widen (R c), widen (G c), widen (B c), widen (A c)).

Inductive Error : Type :=
| ErrInvalidDataPins
| ErrInvalidHeight.

Definition DefaultWidth : Z := 64.
Definition DefaultHeight : Z := 32.
Definition DefaultColorDepth : Z := 4.
Definition bitPeriod : Z := 2000.

Record Config : Type := mkConfig {
  Width : Z;
  Height : Z;
  ColorDepth : Z;        (* uint8 *)
  oneAddrPort : bool;
  clkDataPort : bool;
  numAddrRows : Z;
  maxHeight : Z
}.

Record rgbPins : Type := mkRgbPins { pin_r : Pin; pin_g : Pin; pin_b : Pin }.
Record dataPins : Type := mkDataPins { up : rgbPins; lo : rgbPins }.

Record rowPlane : Type := mkRowPlane {
  frame : Z;
  yPr : Z;
  yUp : Z;
  yLo : Z;
  bit : Z;
  cyc : Z                (* uint32 *)
}.

(** [native.Hub75].  Package [rgb75/native] is hardware specific and lies
    outside this development.  Its port-alignment query is a function of
    the board's pin topology and is kept abstract; its write-only
    operations appear as [Event]s. *)
Record Hub75 : Type := mkHub75 {
  GetPinGroupAlignment : list Pin -> bool * Z
}.

Record Device : Type := mkDevice {
  cfg : Config;
  hub : Hub75;
  oen : Pin;
  lat : Pin;
  clk : Pin;
  rgb : dataPins;
  row : list Pin;
  buf : list (list RGBA);
  pos : rowPlane;
  val : Z                (* uint32 *)
}.

(** Hardware accesses, in the order the driver issues them. *)
Inductive Event : Type :=
| EvPinConfigure (p : Pin)                      (* p.Configure(PinOutput) *)
| EvPinSet (p : Pin) (level : bool)             (* p.High / p.Low / p.Set *)
| EvSetRow (r : Z)                              (* hub.SetRow *)
| EvClkRgb (r1 g1 b1 r2 g2 b2 : bool)           (* hub.ClkRgb *)
| EvSetRgb (r1 g1 b1 r2 g2 b2 : bool)           (* hub.SetRgb *)
| EvSetRgbMask (m : Z)                          (* hub.SetRgbMask *)
| EvInitTimer                                   (* hub.InitTimer(handleRow) *)
| EvPauseTimer                                  (* hub.PauseTimer *)
| EvResumeTimer (value period : Z).             (* hub.ResumeTimer *)

(** Field updates of the receiver. *)
Definition set_cfg (c : Config) (d : Device) : Device :=
  mkDevice c (hub d) (oen d) (lat d) (clk d) (rgb d) (row d) (buf d) (pos d) (val d).
Definition set_buf (b : list (list RGBA)) (d : Device) : Device :=
  mkDevice (cfg d) (hub d) (oen d) (lat d) (clk d) (rgb d) (row d) b (pos d) (val d).
Definition set_pos (p : rowPlane) (d : Device) : Device :=
  mkDevice (cfg d) (hub d) (oen d) (lat d) (clk d) (rgb d) (row d) (buf d) p (val d).

Definition set_Width (w : Z) (c : Config) : Config :=
  mkConfig w (Height c) (ColorDepth c) (oneAddrPort c) (clkDataPort c)
    (numAddrRows c) (maxHeight c).
Definition set_Height (h : Z) (c : Config) : Config :=
  mkConfig (Width c) h (ColorDepth c) (oneAddrPort c) (clkDataPort c)
    (numAddrRows c) (maxHeight c).
Definition set_ColorDepth (n : Z) (c : Config) : Config :=
  mkConfig (Width c) (Height c) n (oneAddrPort c) (clkDataPort c)
    (numAddrRows c) (maxHeight c).
Definition set_oneAddrPort (b : bool) (c : Config) : Config :=
  mkConfig (Width c) (Height c) (ColorDepth c) b (clkDataPort c)
    (numAddrRows c) (maxHeight c).
Definition set_clkDataPort (b : bool) (c : Config) : Config :=
  mkConfig (Width c) (Height c) (ColorDepth c) (oneAddrPort c) b
    (numAddrRows c) (maxHeight c).
Definition set_numAddrRows (n : Z) (c : Config) : Config :=
  mkConfig (Width c) (Height c) (ColorDepth c) (oneAddrPort c) (clkDataPort c)
    n (maxHeight c).
Definition set_yPr (y : Z) (p : rowPlane) : rowPlane :=
  mkRowPlane (frame p) y (yUp p) (yLo p) (bit p) (cyc p).

(** The six RGB data pins in connector order. *)
Definition rgb_pins (d : Device) : list Pin :=
  [ pin_r (up (rgb d)); pin_g (up (rgb d)); pin_b (up (rgb d));
    pin_r (lo (rgb d)); pin_g (lo (rgb d)); pin_b (lo (rgb d)) ].

(** ** Slices *)

(** [s[i]]: panics outside [0, len(s)). *)
Definition index {T : Type} (s : list T) (i : Z) : result T :=
  if i <? 0 then Panic
  else match s !! Z.to_nat i with
       | Some a => Done a
       | None => Panic
       end.

(** The largest number of bytes a slice may take on a target with 32-bit
    addresses ([maxAlloc] of the runtime). *)
Definition maxAlloc : Z := 2 ^ 32 - 1.

(** The size in bytes of a [color.RGBA] (four [uint8]) and of a slice
    header (pointer, length and capacity, one 32-bit word each). *)
Definition sizeof_RGBA : Z := 4.
Definition sizeof_slice : Z := 12.

(** [make([]T, n)] for an element type of [size] bytes: [n] zero values.  It
    panics with "len out of range" on a negative length and on a length
    whose [size * n] bytes exceed [maxAlloc] (the check of the runtime's
    [makeslice]).  A slice that passes the check is taken to be allocated:
    the heap is not modelled. *)
Definition make {T : Type} (zero : T) (size n : Z) : result (list T) :=
  if (n <? 0) || (maxAlloc <? size * n) then Panic
  else Done (replicate (Z.to_nat n) zero).

Definition black : RGBA := mkRGBA 0 0 0 0.

(** ** The driver *)

(** [New] (the hub [h] stands for the package-level [native.HUB75], whose
    [SetPins] only records the pins inside the hub). *)
Definition New (h : Hub75) (oen lat clk : Pin)
    (rgb : Pin * Pin * Pin * Pin * Pin * Pin) (row : list Pin) : Device :=
  let '(ur, ug, ub, lr, lg, lb) := rgb in
  {| cfg := {| Width := DefaultWidth;
               Height := DefaultHeight;
               ColorDepth := DefaultColorDepth;
               oneAddrPort := false;
               clkDataPort := false;
               numAddrRows := 0;
               maxHeight := shl_int 1 (Z.of_nat (length row) + 1) |};
     hub := h;
     oen := oen;
     lat := lat;
     clk := clk;
     rgb := {| up := mkRgbPins ur ug ub; lo := mkRgbPins lr lg lb |};
     row := row;
     buf := [];
     pos := mkRowPlane 0 0 0 0 0 0;
     val := 0 |}.

(** [SetPixel] *)
Definition SetPixel (d : Device) (x y : Z) (c : RGBA) : result Device :=
  if (0 <=? y) && (y <? Z.of_nat (length (buf d))) then
    line ← index (buf d) y;
    if (0 <=? x) && (x <? Z.of_nat (length line)) then
      Done (set_buf (<[Z.to_nat y := <[Z.to_nat x := c]> line]> (buf d)) d)
    else Done d
  else Done d.

(** [ClearDisplay] *)
Definition ClearDisplay (d : Device) : Device :=
  set_buf (map (map (fun _ => mkRGBA 0 0 0 0)) (buf d)) d.

(** [rgbBit]: unchecked indexing; a negative shift count panics. *)
Definition rgbBit (d : Device) (x y n : Z) : result (bool * bool * bool) :=
  line ← index (buf d) y;
  px ← index line x;
  let '(cr, cg, cb, _) := RGBA_RGBA px in
  if n <? 0 then Panic
  else
    let m := shl_u32 1 n in
    Done (negb (0 =? Z.land cr m), negb (0 =? Z.land cg m), negb (0 =? Z.land cb m)).

(** [increment] *)
Definition increment (d : Device) : Device :=
  let p := pos d in
  let bit1 := wrap_int (bit p + 1) in
  let cyc1 := wrap_u32 (cyc p * 2) in
  if ColorDepth (cfg d) <=? bit1 then
    let yUp1 := wrap_int (yUp p + 1) in
    let yLo1 := wrap_int (yLo p + 1) in
    if numAddrRows (cfg d) <=? yUp1 then
      set_pos (mkRowPlane (wrap_int (frame p + 1)) (yPr p)
                 0 (numAddrRows (cfg d)) 0 bitPeriod) d
    else
      set_pos (mkRowPlane (frame p) (yPr p) yUp1 yLo1 0 bitPeriod) d
  else
    set_pos (mkRowPlane (frame p) (yPr p) (yUp p) (yLo p) bit1 cyc1) d.

(** [selectRow] *)
Definition selectRow (d : Device) (r : Z) : Device * list Event :=
  if Height (cfg d) <=? r then (d, [])
  else
    let r := if numAddrRows (cfg d) <=? r
             then wrap_int (r - numAddrRows (cfg d)) else r in
    if r =? yPr (pos d) then (d, [])
    else
      let d := set_pos (set_yPr r (pos d)) d in
      if oneAddrPort (cfg d) then (d, [EvSetRow r])
      else
        (d, imap (fun i p =>
                    EvPinSet p (negb (Z.land r (shl_int 1 (Z.of_nat i)) =? 0)))
                 (row d)).

(** One column of the shift-out loop of [handleRow]. *)
Definition shiftColumn (d : Device) (x : Z) : result (list Event) :=
  '(r1, g1, b1) ← rgbBit d x (yUp (pos d)) (bit (pos d));
  '(r2, g2, b2) ← rgbBit d x (yLo (pos d)) (bit (pos d));
  if clkDataPort (cfg d) then
    Done [EvClkRgb r1 g1 b1 r2 g2 b2]
  else
    Done [EvSetRgb r1 g1 b1 r2 g2 b2;
          EvPinSet (clk d) true; EvPinSet (clk d) false;
          EvSetRgbMask 0].

(** [for x := 0; x < d.cfg.Width; x++ { ... }] over the columns [xs]. *)
Fixpoint shiftColumns (d : Device) (xs : list Z) : result (list Event) :=
  match xs with
  | [] => Done []
  | x :: xs' =>
      e ← shiftColumn d x;
      es ← shiftColumns d xs';
      Done (e ++ es)
  end.

(** [handleRow], the timer interrupt service routine. *)
Definition handleRow (d : Device) : result (Device * list Event) :=
  let ev_timer := [EvPauseTimer; EvResumeTimer 0 (cyc (pos d))] in
  let ev_open := [EvPinSet (oen d) true; EvPinSet (lat d) true] in
  let '(d1, ev_row) := selectRow d (yUp (pos d)) in
  let d2 := increment d1 in
  let ev_close := [EvPinSet (lat d2) false; EvPinSet (oen d2) false] in
  ev_data ← shiftColumns d2 (seqZ 0 (Width (cfg d2)));
  Done (d2, ev_timer ++ ev_open ++ ev_row ++ ev_close ++ ev_data).

(** [initialize] *)
Definition initialize (d : Device) : Device * option Error * list Event :=
  let ev_pins :=
    [EvPinSet (oen d) true; EvPinSet (lat d) false; EvPinSet (clk d) false]
    ++ map (fun p => EvPinSet p false) (rgb_pins d)
    ++ map (fun p => EvPinSet p false) (row d) in
  let ev_flush :=
    flat_map (fun _ => [EvPinSet (clk d) true; EvPinSet (clk d) false])
             (seqZ 0 (Width (cfg d)))
    ++ [EvPinSet (lat d) true; EvPinSet (lat d) false] in
  let d := set_pos {| frame := 0;
                      yPr := 1;
                      yUp := numAddrRows (cfg d);
                      yLo := Height (cfg d);
                      bit := ColorDepth (cfg d);
                      cyc := bitPeriod |} d in
  let d := ClearDisplay d in
  (d, None, ev_pins ++ ev_flush ++ [EvInitTimer]).

(** The framebuffer allocation of [Configure]:
    [for i := range d.buf { d.buf[i] = make([]color.RGBA, d.cfg.Width) }]. *)
Fixpoint makeRows (rows : list (list RGBA)) (w : Z) : result (list (list RGBA)) :=
  match rows with
  | [] => Done []
  | _ :: rows' =>
      line ← make black sizeof_RGBA w;
      rest ← makeRows rows' w;
      Done (line :: rest)
  end.

(** [Configure] *)
Definition Configure (d : Device) (c : Config)
    : result (Device * option Error * list Event) :=
  let d := set_cfg (set_Width (if negb (0 =? Width c) then Width c
                               else DefaultWidth) (cfg d)) d in
  if negb (0 =? Height c) && (maxHeight (cfg d) <? Height c) then
    Done (d, Some ErrInvalidHeight, [])
  else
    let d := set_cfg (set_Height (if negb (0 =? Height c) then Height c
                                  else maxHeight (cfg d)) (cfg d)) d in
    let d := set_cfg (set_numAddrRows (Z.quot (Height (cfg d)) 2) (cfg d)) d in
    let d := set_cfg (set_ColorDepth (if negb (0 =? ColorDepth c)
                                      then ColorDepth c
                                      else DefaultColorDepth) (cfg d)) d in
    let d := set_cfg (set_oneAddrPort
                        (fst (GetPinGroupAlignment (hub d) (row d))) (cfg d)) d in
    let '(same, align) := GetPinGroupAlignment (hub d) (rgb_pins d) in
    if negb same || (align =? 0) then
      Done (d, Some ErrInvalidDataPins, [])
    else
      let d := set_cfg (set_clkDataPort
                          (fst (GetPinGroupAlignment (hub d)
                                  [pin_r (up (rgb d)); clk d])) (cfg d)) d in
      let ev_cfg :=
        map EvPinConfigure ([oen d; lat d; clk d] ++ rgb_pins d ++ row d) in
      rows ← make [] sizeof_slice (Height (cfg d));
      b ← makeRows rows (Width (cfg d));
      let d := set_buf b d in
      let '(d, err, ev_init) := initialize d in
      Done (d, err, ev_cfg ++ ev_init).

(** ** Specification vocabulary *)

(** The framebuffer has [Height] lines of [Width] pixels. *)
Definition buf_shape (d : Device) : Prop :=
  length (buf d) = Z.to_nat (Height (cfg d)) /\
  Forall (fun line => length line = Z.to_nat (Width (cfg d))) (buf d).

(** What a successful [Configure] establishes about a panel that has at
    least one row pair, and what the interrupt and the pixel writes keep. *)
Record configured (d : Device) : Prop := mkConfigured {
  conf_height : 2 <= Height (cfg d) < 2 ^ 31;
  conf_rows : numAddrRows (cfg d) = Z.quot (Height (cfg d)) 2;
  conf_depth : 1 <= ColorDepth (cfg d) <= 255;
  conf_shape : buf_shape d
}.

(** Go types of the fields of a configuration: [Height] is an [int],
    [numAddrRows] is half of it, [ColorDepth] is a [uint8]. *)
Definition cfg_typed (c : Config) : Prop :=
  int_range (Height c) /\
  numAddrRows c = Z.quot (Height c) 2 /\
  u8_range (ColorDepth c).

(** The Scan State invariants, with the period taken literally ... *)
Definition scan_inv (d : Device) : Prop :=
  0 <= yUp (pos d) < numAddrRows (cfg d) /\
  yLo (pos d) = yUp (pos d) + numAddrRows (cfg d) /\
  0 <= bit (pos d) < ColorDepth (cfg d) /\
  cyc (pos d) = bitPeriod * 2 ^ bit (pos d).

(** ... and with the period as the [uint32] field holds it. *)
Definition scan_inv32 (d : Device) : Prop :=
  0 <= yUp (pos d) < numAddrRows (cfg d) /\
  yLo (pos d) = yUp (pos d) + numAddrRows (cfg d) /\
  0 <= bit (pos d) < ColorDepth (cfg d) /\
  cyc (pos d) = wrap_u32 (bitPeriod * 2 ^ bit (pos d)).


(** What [Configure] establishes when it returns nil for a panel of at
    least one line. *)
Record scannable (d : Device) : Prop := mkScannable {
  scan_height : 1 <= Height (cfg d) < 2 ^ 31;
  scan_pairs : numAddrRows (cfg d) = Z.quot (Height (cfg d)) 2;
  scan_depth : 1 <= ColorDepth (cfg d) <= 255;
  scan_shape : buf_shape d
}.


(** The next [increment] takes both roll-over branches, that is, it
    increments the frame counter (lines 362 and 368). *)
Definition rolls_over (d : Device) : Prop :=
  ColorDepth (cfg d) <= wrap_int (bit (pos d) + 1) /\
  numAddrRows (cfg d) <= wrap_int (yUp (pos d) + 1).

(** The period an interrupt programs the timer with (line 308). *)
Fixpoint timer_period (ev : list Event) : option Z :=
  match ev with
  | [] => None
  | EvResumeTimer _ p :: _ => Some p
  | _ :: ev' => timer_period ev'
  end.

(** What is observed of one interrupt: the period it programs, the rows and
    the bitplane its shift-out loop reads (lines 334-335, the state after
    [increment]), and the frame counter it leaves. *)
Record Step : Type := mkStep {
  st_period : option Z;
  st_upper : Z;
  st_lower : Z;
  st_plane : Z;
  st_frame : Z
}.

(** [n] consecutive timer interrupts. *)
Fixpoint run (n : nat) (d : Device) : result (Device * list Step) :=
  match n with
  | O => Done (d, [])
  | S n' =>
      '(d1, ev) ← handleRow d;
      '(d2, steps) ← run n' d1;
      Done (d2, mkStep (timer_period ev) (yUp (pos d1)) (yLo (pos d1))
                       (bit (pos d1)) (frame (pos d1)) :: steps)
  end.






(** The period of bitplane [k] as the [uint32] field [cyc] holds it. *)
Definition bcm_period (k : Z) : Z := wrap_u32 (bitPeriod * 2 ^ k).




(** The address [selectRow] drives for row [r] (lines 390-392). *)
Definition normalized_row (d : Device) (r : Z) : Z :=
  if numAddrRows (cfg d) <=? r then r - numAddrRows (cfg d) else r.

(** Binary-coded write of address [n] (lines 399-408): one register write
    when the address lines share a port, otherwise line [i] is driven to
    bit [i] of [n]. *)
Definition address_writes (d : Device) (n : Z) : list Event :=
  if oneAddrPort (cfg d) then [EvSetRow n]
  else imap (fun i p => EvPinSet p (int_testbit n (Z.of_nat i))) (row d).

(** A length [make] accepts for elements of [size] bytes. *)
Definition slice_fits (size n : Z) : Prop := 0 <= n /\ size * n <= maxAlloc.

(** A framebuffer of [h] lines of [w] pixels passes the checks of [make]
    (lines 199-202): the slice of lines, and, when there is a line, the
    slice of pixels. *)
Definition allocatable (h w : Z) : Prop :=
  slice_fits sizeof_slice h /\ (0 < h -> slice_fits sizeof_RGBA w).

(** The settings [Configure] selects: a given value, or the default of
    lines 136, 152 and 162 where the field is zero. *)
Definition chosen_Width (c : Config) : Z :=
  if Width c =? 0 then DefaultWidth else Width c.
Definition chosen_Height (d : Device) (c : Config) : Z :=
  if Height c =? 0 then maxHeight (cfg d) else Height c.
Definition chosen_ColorDepth (c : Config) : Z :=
  if ColorDepth c =? 0 then DefaultColorDepth else ColorDepth c.



(** The settings of the device when [Configure] reaches the data-pin check
    (line 174). *)
Definition chosen_config (d : Device) (c : Config) : Config :=
  {| Width := chosen_Width c;
     Height := chosen_Height d c;
     ColorDepth := chosen_ColorDepth c;
     oneAddrPort := fst (GetPinGroupAlignment (hub d) (row d));
     clkDataPort := clkDataPort (cfg d);
     numAddrRows := Z.quot (chosen_Height d c) 2;
     maxHeight := maxHeight (cfg d) |}.

(** The scan position [initialize] seeds (lines 275-282). *)
Definition seed_pos (c : Config) : rowPlane :=
  {| frame := 0; yPr := 1; yUp := numAddrRows c; yLo := Height c;
     bit := ColorDepth c; cyc := bitPeriod |}.

(** The port-alignment query over the six RGB data lines rejects them. *)
Definition data_pins_rejected (d : Device) : Prop :=
  fst (GetPinGroupAlignment (hub d) (rgb_pins d)) = false \/
  snd (GetPinGroupAlignment (hub d) (rgb_pins d)) = 0.

(** [Configure] does not take the invalid-height exit (lines 143-149). *)
Definition height_accepted (d : Device) (c : Config) : Prop :=
  Height c = 0 \/ Height c <= maxHeight (cfg d).

(** ** Sample boards *)

(** Every pin group shares a port, at bit offset 1. *)
Definition hub_aligned : Hub75 := mkHub75 (fun _ => (true, 1)).
(** No pin group shares a port. *)
Definition hub_scattered : Hub75 := mkHub75 (fun _ => (false, 0)).

(** The six data pins share a port, no other pin group does. *)
Definition hub_data_only : Hub75 :=
  mkHub75 (fun pins => if (length pins =? 6)%nat then (true, 1) else (false, 0)).

Definition user_config (w h depth : Z) : Config :=
  mkConfig w h depth false false 0 0.

(** A device with four row-address lines (maximum height 32). *)
Definition board (h : Hub75) : Device :=
  New h 1 2 3 (4, 5, 6, 7, 8, 9) [10; 11; 12; 13].


(** The device left by a call of [Configure], whatever it returns. *)
Definition after_Configure (d : Device) (c : Config) : Device :=
  match Configure d c with
  | Done (d', _, _) => d'
  | Panic => d
  end.

(** The device left by [n] interrupts. *)
Definition after_run (n : nat) (d : Device) : Device :=
  match run n d with
  | Done (d', _) => d'
  | Panic => d
  end.

(** A 64x32 panel at depth 4, a 2x4 panel at depth 2 and a 1x4 panel at
    depth 23. *)
Definition panel_64x32 : Device :=
  after_Configure (board hub_aligned) (user_config 64 32 4).
Definition panel_2x4 : Device :=
  after_Configure (board hub_aligned) (user_config 2 4 2).
Definition panel_depth23 : Device :=
  after_Configure (board hub_aligned) (user_config 1 4 23).
(** A 2x32 panel whose row-address lines are written pin by pin. *)
Definition panel_per_pin : Device :=
  after_Configure (board hub_data_only) (user_config 2 32 2).

(** ** The remaining methods of the driver *)

(** Conversion of an [int] to [int16]: the low 16 bits, sign extended. *)
Definition wrap_i16 (z : Z) : Z :=
  let m := z mod 2 ^ 16 in
  if m <? 2 ^ 15 then m else m - 2 ^ 16.

Definition set_val (v : Z) (d : Device) : Device :=
  mkDevice (cfg d) (hub d) (oen d) (lat d) (clk d) (rgb d) (row d) (buf d)
    (pos d) v.

(** [Size] *)
Definition Size (d : Device) : Z * Z :=
  (wrap_i16 (Width (cfg d)), wrap_i16 (Height (cfg d))).

(** [Resume] *)
Definition Resume (d : Device) : Device * list Event :=
  (d, [EvResumeTimer (val d) (cyc (pos d))]).

(** [Pause]; [elapsed] is the count [hub.PauseTimer] returns. *)
Definition Pause (d : Device) (elapsed : Z) : Device * list Event :=
  (set_val elapsed d, [EvPauseTimer]).


(** The three tests of [rgbBit] on one pixel (lines 296-299), for a shift
    count [n >= 0]. *)
Definition pixel_bits (px : RGBA) (n : Z) : bool * bool * bool :=
  let '(cr, cg, cb, _) := RGBA_RGBA px in
  let m := shl_u32 1 n in
  (negb (0 =? Z.land cr m), negb (0 =? Z.land cg m), negb (0 =? Z.land cb m)).

(** The pixel of column [x] in line [y] of the framebuffer, if there is one. *)
Definition pixel (d : Device) (x y : Z) : option RGBA :=
  if (x <? 0) || (y <? 0) then None
  else line ← buf d !! Z.to_nat y; line !! Z.to_nat x.

(** The hardware accesses of one column of the shift-out loop (lines
    338-353) for the bits of the upper and of the lower pixel. *)
Definition column_events (d : Device) (upper lower : bool * bool * bool)
    : list Event :=
  let '(r1, g1, b1) := upper in
  let '(r2, g2, b2) := lower in
  if clkDataPort (cfg d) then [EvClkRgb r1 g1 b1 r2 g2 b2]
  else [EvSetRgb r1 g1 b1 r2 g2 b2;
        EvPinSet (clk d) true; EvPinSet (clk d) false; EvSetRgbMask 0].

(** The bits [rgbBit] reads at column [x] of line [y] for bitplane [n],
    where that pixel exists ([black] stands in for a missing pixel, on
    which [rgbBit] faults). *)
Definition slot_bits (d : Device) (x y n : Z) : bool * bool * bool :=
  pixel_bits (default black (pixel d x y)) n.

(** Two devices with the same pins, hub, timer position and height limit:
    all that [New] fixes and [Configure] never changes. *)
Definition same_wiring (d e : Device) : Prop :=
  hub d = hub e /\ oen d = oen e /\ lat d = lat e /\ clk d = clk e /\
  rgb d = rgb e /\ row d = row e /\ val d = val e /\
  maxHeight (cfg d) = maxHeight (cfg e).

(** The device left by a pixel write. *)
Definition after_SetPixel (d : Device) (x y : Z) (c : RGBA) : Device :=
  match SetPixel d x y c with
  | Done d' => d'
  | Panic => d
  end.

(** What happens to a device between two moments: the timer interrupt
    fires, or the application calls a method.  One step is atomic. *)
Inductive Activity : Type :=
| DoInterrupt
| DoSetPixel (x y : Z) (c : RGBA)
| DoClearDisplay
| DoPause (elapsed : Z)
| DoResume.

Definition perform1 (a : Activity) (d : Device) : result Device :=
  match a with
  | DoInterrupt => '(d1, _) ← handleRow d; Done d1
  | DoSetPixel x y c => SetPixel d x y c
  | DoClearDisplay => Done (ClearDisplay d)
  | DoPause elapsed => Done (fst (Pause d elapsed))
  | DoResume => Done (fst (Resume d))
  end.

Fixpoint perform (acts : list Activity) (d : Device) : result Device :=
  match acts with
  | [] => Done d
  | a :: rest => d1 ← perform1 a d; perform rest d1
  end.





(** * The SPI transport of the flash driver ([flash/transport_spi.go]) *)

Module Flash.

(** Accesses to the chip-select pin [tr.ss] and to the bus [tr.spi], in the
    order they are issued. *)
Inductive BusEvent : Type :=
| CsConfigure
| CsLow
| CsHigh
| BusTransfer (w : Z).

Section Transport.

(** [Bus] is the state of the bus and of the chip behind it, [E] the type of
    the error values of the bus. *)
Context {Bus E : Type}.

(** [drivers.SPI.Transfer]: the byte sent gives the byte received and an
    [error], [None] for nil. *)
Variable Transfer : Bus -> Z -> Bus * Z * option E.

(** The command bytes of the package, declared outside this file. *)
Variables cmdRead cmdPageProgram : Z.

(** A method of the transport runs from a bus state, and gives its results,
    the bus state it leaves and the accesses it made. *)
Definition io (A : Type) : Type := Bus -> A * Bus * list BusEvent.

#[export] Instance io_ret : MRet io := fun A a s => (a, s, []).
#[export] Instance io_bind : MBind io := fun A B f m s =>
  let '(a, s1, ev1) := m s in
  let '(b, s2, ev2) := f a s1 in
  (b, s2, ev1 ++ ev2).

Definition ss_Configure : io unit := fun s => (tt, s, [CsConfigure]).
Definition ss_Low : io unit := fun s => (tt, s, [CsLow]).
Definition ss_High : io unit := fun s => (tt, s, [CsHigh]).
Definition spi_Transfer (w : Z) : io (Z * option E) := fun s =>
  let '(s1, r, err) := Transfer s w in ((r, err), s1, [BusTransfer w]).

(** [configure] *)
Definition configure : io unit := ss_Configure;; ss_High.

(** [supportQuadMode] *)
Definition supportQuadMode : bool := false.

(** [if err == nil { _, err = tr.spi.Transfer(w) }] *)
Definition transfer_if_nil (err : option E) (w : Z) : io (option E) :=
  match err with
  | None => '(_, err) ← spi_Transfer w; mret err
  | Some _ => mret err
  end.

(** [sendAddress]; [addr] is a [uint32]. *)
Definition sendAddress (cmd addr : Z) : io (option E) :=
  '(_, err) ← spi_Transfer cmd;
  err ← transfer_if_nil err (Z.land (Z.shiftr addr 16) 255);
  err ← transfer_if_nil err (Z.land (Z.shiftr addr 8) 255);
  err ← transfer_if_nil err (Z.land addr 255);
  mret err.

(** The loop of [readInto], about to test its condition [i < c && err == nil]
    with [c = len(rsp)]; it runs its body at most [n] more times.  Started
    at [i = 0] with [n = c], the condition fails when [n] is used up. *)
Fixpoint readInto_loop (n i : nat) (rsp : list Z) (err : option E)
  : io (list Z * option E) :=
  match n with
  | O => mret (rsp, err)
  | S n' =>
      match bool_decide (i < length rsp)%nat, err with
      | true, None =>
          '(r, err) ← spi_Transfer 255;
          readInto_loop n' (S i) (<[i := r]> rsp) err
      | _, _ => mret (rsp, err)
      end
  end.

(** [readInto]: the slice [rsp] is written in place; its contents after the
    call are returned beside the error. *)
Definition readInto (rsp : list Z) : io (list Z * option E) :=
  readInto_loop (length rsp) 0 rsp None.

(** The loop of [writeFrom]; [data !! i] is [Some] exactly when [i < c]. *)
Fixpoint writeFrom_loop (n i : nat) (data : list Z) (err : option E)
  : io (option E) :=
  match n with
  | O => mret err
  | S n' =>
      match data !! i, err with
      | Some w, None =>
          '(_, err) ← spi_Transfer w;
          writeFrom_loop n' (S i) data err
      | _, _ => mret err
      end
  end.

(** [writeFrom] *)
Definition writeFrom (data : list Z) : io (option E) :=
  writeFrom_loop (length data) 0 data None.

(** [runCommand] *)
Definition runCommand (cmd : Z) : io (option E) :=
  ss_Low;;
  '(_, err) ← spi_Transfer cmd;
  ss_High;;
  mret err.

(** [readCommand].  The [err] tested and assigned inside the [if] statement
    is the one its [:=] declares ([err_if] below); the result parameter
    [err] is never assigned, and is what the bare [return] returns. *)
Definition readCommand (cmd : Z) (rsp : list Z) : io (list Z * option E) :=
  let err : option E := None in
  ss_Low;;
  '(_, err_if) ← spi_Transfer cmd;
  '(rsp, err_if) ← match err_if with
                   | None => readInto rsp
                   | Some _ => mret (rsp, err_if)
                   end;
  ss_High;;
  mret (rsp, err).

(** [readCommandByte]: as in [readCommand], the [if] statement declares an
    [err] of its own; [rsp] is the result parameter, zero at first. *)
Definition readCommandByte (cmd : Z) : io (Z * option E) :=
  let rsp := 0 in
  let err : option E := None in
  ss_Low;;
  '(_, err_if) ← spi_Transfer cmd;
  '(rsp, err_if) ← match err_if with
                   | None => spi_Transfer 255
                   | Some _ => mret (rsp, err_if)
                   end;
  ss_High;;
  mret (rsp, err).

(** [writeCommand]: the [if] statement declares an [err] of its own. *)
Definition writeCommand (cmd : Z) (data : list Z) : io (option E) :=
  let err : option E := None in
  ss_Low;;
  '(_, err_if) ← spi_Transfer cmd;
  err_if ← match err_if with
           | None => writeFrom data
           | Some _ => mret err_if
           end;
  ss_High;;
  mret err.

(** [eraseCommand] *)
Definition eraseCommand (cmd address : Z) : io (option E) :=
  ss_Low;;
  err ← sendAddress cmd address;
  ss_High;;
  mret err.

(** [readMemory]: here the [if] statement assigns the result parameter. *)
Definition readMemory (addr : Z) (rsp : list Z) : io (list Z * option E) :=
  ss_Low;;
  err ← sendAddress cmdRead addr;
  '(rsp, err) ← match err with
                | None => readInto rsp
                | Some _ => mret (rsp, err)
                end;
  ss_High;;
  mret (rsp, err).

(** [writeMemory] *)
Definition writeMemory (addr : Z) (data : list Z) : io (option E) :=
  ss_Low;;
  err ← sendAddress cmdPageProgram addr;
  err ← match err with
        | None => writeFrom data
        | Some _ => mret err
        end;
  ss_High;;
  mret err.

(** *** Vocabulary *)

(** The bytes [ws] are offered to the bus one after the other, up to and
    including the first transfer that fails: the bus state left, the bytes
    sent, the bytes received and the error of the last transfer. *)
Fixpoint exchange (s : Bus) (ws : list Z)
  : Bus * list Z * list Z * option E :=
  match ws with
  | [] => (s, [], [], None)
  | w :: rest =>
      let '(s1, r, err) := Transfer s w in
      match err with
      | Some _ => (s1, [w], [r], err)
      | None =>
          let '(s2, sent, got, err) := exchange s1 rest in
          (s2, w :: sent, r :: got, err)
      end
  end.

End Transport.

(** The three address bytes of a command, most significant first. *)
Definition address_bytes (addr : Z) : list Z :=
  [addr / 2 ^ 16 mod 2 ^ 8; addr / 2 ^ 8 mod 2 ^ 8; addr mod 2 ^ 8].

(** The accesses of one command that sent the bytes [sent]. *)
Definition selected (sent : list Z) : list BusEvent :=
  [CsLow] ++ map BusTransfer sent ++ [CsHigh].

(** The value of address bytes sent most significant first. *)
Definition address_value (bs : list Z) : Z :=
  foldl (fun acc b => acc * 2 ^ 8 + b) 0 bs.

(** Two chips for the examples.  Each answers with the number of bytes it
    has seen so far; the first one never fails, the second one fails every
    transfer from its [limit]-th byte on. *)
Definition counting_chip (s w : Z) : Z * Z * option unit :=
  (s + 1, s mod 2 ^ 8, None).
Definition failing_chip (limit : Z) (s w : Z) : Z * Z * option unit :=
  (s + 1, s mod 2 ^ 8, if limit <=? s + 1 then Some tt else None).

End Flash.

(** * Coordinates of the gravity example
      ([examples/rgb75/gravity/particle.go]) *)

Module Gravity.

(** [Dimension] is a [uint16]; [Position] and [Velocity] are [int32], of the
    width of [int]. *)
Definition wrap_u16 (z : Z) : Z := z mod 2 ^ 16.
Definition wrap_i32 (z : Z) : Z := wrap_int z.

Definition velocityMax : Z := 256.
Definition dimensionMax : Z := 32767.
Definition positionMax : Z := wrap_i32 (wrap_i32 velocityMax * wrap_i32 dimensionMax).

(** [Dimension.Position] *)
Definition Dimension_Position (d : Z) : Z :=
  wrap_i32 (wrap_int (d * velocityMax)).

(** [Position.Dimension]; Go's [/] truncates toward zero. *)
Definition Position_Dimension (p : Z) : Z :=
  wrap_u16 (Z.quot p velocityMax).

(** [Position.Move] *)
Definition Position_Move (p v : Z) : Z * Z :=
  let pos := wrap_i32 (wrap_int (p + v)) in
  (pos, Position_Dimension pos).

(** [Velocity.Reverse] *)
Definition Velocity_Reverse (v elasticity : Z) : Z :=
  wrap_i32 (Z.quot (wrap_int (wrap_i32 (- v) * elasticity)) velocityMax).

(** [Velocity.Abs] *)
Definition Velocity_Abs (v : Z) : Z :=
  if v <? 0 then wrap_i32 (- v) else v.

End Gravity.

(** * The SPI driver of the ILI9341 display on STM32F4
      ([ili9341], second part of [flash/transport_spi.go]) *)

Module Ili9341.

(** Writes to the registers of the SPI peripheral, in the order they are
    issued: [CR1.SetBits], [CR1.ClearBits] and [DR.Set]. *)
Inductive RegWrite : Type :=
| CR1_SetBits (mask : Z)
| CR1_ClearBits (mask : Z)
| DR_Set (word : Z).

Section Driver.

(** [Hw] is the state of the peripheral.  A read of a status bit may find it
    changed, and changes it; a register write acts on it. *)
Context {Hw : Type}.
Variable SR_HasBits : Hw -> Z -> Hw * bool.
Variable CR1_HasBits : Hw -> Z -> Hw * bool.
Variable reg_write : Hw -> RegWrite -> Hw.

(** The bit masks of package [stm32]. *)
Variables SPI_CR1_SPE SPI_SR_TXE SPI_SR_BSY : Z.

Definition hw (A : Type) : Type := Hw -> A * Hw * list RegWrite.

#[export] Instance hw_ret : MRet hw := fun A a h => (a, h, []).
#[export] Instance hw_bind : MBind hw := fun A B f m h =>
  let '(a, h1, ev1) := m h in
  let '(b, h2, ev2) := f a h1 in
  (b, h2, ev1 ++ ev2).

Definition sr_HasBits (mask : Z) : hw bool := fun h =>
  let '(h1, b) := SR_HasBits h mask in (b, h1, []).
Definition cr1_HasBits (mask : Z) : hw bool := fun h =>
  let '(h1, b) := CR1_HasBits h mask in (b, h1, []).
Definition write (w : RegWrite) : hw unit := fun h =>
  (tt, reg_write h w, [w]).

(** [!pd.bus.Bus.SR.HasBits(stm32.SPI_SR_BSY)] *)
Definition sr_idle : hw bool :=
  busy ← sr_HasBits SPI_SR_BSY; mret (negb busy).

Definition tryMax : Z := 10000.

(** [for i := 0; (!can) && (i < tryMax); i++ { can = test }], about to test
    its condition; it runs its body at most [fuel] more times.  Started at
    [i = 0] with [tryMax] for [fuel], the condition fails when the fuel is
    used up. *)
Fixpoint poll (fuel : nat) (i : Z) (can : bool) (test : hw bool) : hw bool :=
  match fuel with
  | O => mret can
  | S fuel' =>
      if negb can && (i <? tryMax) then
        can ← test; poll fuel' (i + 1) can test
      else mret can
  end.

(** [setWord] *)
Definition setWord (word : Z) (first last : bool) : hw bool :=
  canWrite ← poll (Z.to_nat tryMax) 0 first (sr_HasBits SPI_SR_TXE);
  if negb canWrite then mret false
  else
    write (DR_Set word);;
    if last then
      canReturn ← poll (Z.to_nat tryMax) 0 false (sr_HasBits SPI_SR_TXE);
      if negb canReturn then mret false
      else
        canReturn ← poll (Z.to_nat tryMax) 0 false sr_idle;
        if negb canReturn then mret false else mret true
    else mret true.

(** The lazy enabling of the interface at the head of every write. *)
Definition enable : hw unit :=
  on ← cr1_HasBits SPI_CR1_SPE;
  if negb on then write (CR1_SetBits SPI_CR1_SPE) else mret tt.

Definition disable : hw unit := write (CR1_ClearBits SPI_CR1_SPE).

(** A [for] loop over the values [l] of its variables. *)
Fixpoint for_each {A : Type} (l : list A) (body : A -> hw unit) : hw unit :=
  match l with
  | [] => mret tt
  | a :: rest => body a;; for_each rest body
  end.

(** [uint8(x)] *)
Definition uint8 (x : Z) : Z := x mod 2 ^ 8.

(** [configure] *)
Definition configure : hw unit := mret tt.

(** [write8] *)
Definition write8 (b : Z) : hw unit :=
  enable;;
  setWord b true true;;
  disable.

(** [write8n]: the loop runs for [i] from 0 while [i < n-1]. *)
Definition write8n (b n : Z) : hw unit :=
  enable;;
  for_each (seqZ 0 (wrap_int (n - 1)))
    (fun i => setWord b (i =? 0) (wrap_int (i + 1) =? n);; mret tt);;
  disable.

(** [write8sl] *)
Definition write8sl (b : list Z) : hw unit :=
  enable;;
  for_each (imap (fun i w => (Z.of_nat i, w)) b)
    (fun '(i, w) =>
       setWord w (i =? 0) (wrap_int (i + 1) =? Z.of_nat (length b));;
       mret tt);;
  disable.

(** [write16]; [data] is a [uint16]. *)
Definition write16 (data : Z) : hw unit :=
  enable;;
  setWord (uint8 (Z.shiftr data 8)) true false;;
  setWord (uint8 data) false true;;
  disable.

(** [write16n] *)
Definition write16n (data n : Z) : hw unit :=
  enable;;
  for_each (seqZ 0 n)
    (fun i =>
       setWord (uint8 (Z.shiftr data 8)) (i =? 0) false;;
       setWord (uint8 data) false (wrap_int (i + 1) =? n);;
       mret tt);;
  disable.

(** [write16sl] *)
Definition write16sl (data : list Z) : hw unit :=
  enable;;
  for_each (imap (fun i w => (Z.of_nat i, w)) data)
    (fun '(i, w) =>
       setWord (uint8 (Z.shiftr w 8)) (i =? 0) false;;
       setWord (uint8 w) false (wrap_int (i + 1) =? Z.of_nat (length data));;
       mret tt);;
  disable.

(** *** Vocabulary *)

(** The transmit buffer is always found empty and the bus never busy. *)
Definition always_ready : Prop :=
  forall h, snd (SR_HasBits h SPI_SR_TXE) = true /\
            snd (SR_HasBits h SPI_SR_BSY) = false.

(** The transmit buffer is never found empty. *)
Definition never_ready : Prop :=
  forall h, snd (SR_HasBits h SPI_SR_TXE) = false.

(** The register writes that enable the interface, if it is not enabled. *)
Definition enabling (h : Hw) : list RegWrite :=
  if snd (CR1_HasBits h SPI_CR1_SPE) then [] else [CR1_SetBits SPI_CR1_SPE].

End Driver.

(** The two bytes of a 16-bit word, high byte first. *)
Definition bytes16 (w : Z) : list Z := [uint8 (Z.shiftr w 8); uint8 w].

(** Two peripherals for the examples, with the masks of the STM32F4: the
    state counts the reads of the status register.  The first one is
    always ready, the second one never. *)
Definition ready_SR (h : Z) (mask : Z) : Z * bool := (h + 1, mask =? 2).
Definition stuck_SR (h : Z) (mask : Z) : Z * bool := (h + 1, false).
Definition plain_CR1 (h : Z) (mask : Z) : Z * bool := (h, false).
Definition plain_write (h : Z) (w : RegWrite) : Z := h.

End Ili9341.

(** * Verification *)

(** ** Integer arithmetic *)

Section GoIntFacts.

Lemma wrap_int_id (z : Z) : int_range z -> wrap_int z = z.
Proof.
  unfold int_range, wrap_int. intros Hz.
  destruct (Z_lt_le_dec z 0) as [Hneg | Hpos].
  - replace (z mod 2 ^ 32) with (z + 2 ^ 32).
    + destruct (Z.ltb_spec (z + 2 ^ 32) (2 ^ 31)); lia.
    + apply Z.mod_unique with (q := -1); lia.
  - rewrite Z.mod_small by lia.
    destruct (Z.ltb_spec z (2 ^ 31)); lia.
Qed.

Lemma wrap_u32_id (z : Z) : u32_range z -> wrap_u32 z = z.
Proof. unfold u32_range, wrap_u32. intros Hz. apply Z.mod_small. lia. Qed.

Lemma wrap_u32_range (z : Z) : u32_range (wrap_u32 z).
Proof. unfold u32_range, wrap_u32. apply Z.mod_pos_bound. lia. Qed.

(** Doubling a period that has already wrapped: [cyc *= 2]. *)
Lemma wrap_u32_double (k : Z) :
  0 <= k ->
  wrap_u32 (wrap_u32 (bitPeriod * 2 ^ k) * 2) = wrap_u32 (bitPeriod * 2 ^ (k + 1)).
Proof.
  intros Hk. unfold wrap_u32.
  rewrite Z.mul_mod_idemp_l by lia.
  f_equal. rewrite Z.pow_add_r by lia. lia.
Qed.

(** Below bitplane 22 the period has not wrapped. *)
Lemma period_exact (k : Z) :
  0 <= k < 22 -> wrap_u32 (bitPeriod * 2 ^ k) = bitPeriod * 2 ^ k.
Proof.
  intros Hk. apply wrap_u32_id. unfold u32_range, bitPeriod.
  assert (0 < 2 ^ k) by (apply Z.pow_pos_nonneg; lia).
  assert (2 ^ k <= 2 ^ 21) by (apply Z.pow_le_mono_r; lia).
  change (2 ^ 21) with 2097152 in *. change (2 ^ 32) with 4294967296. lia.
Qed.

Lemma land_pow2 (a n : Z) :
  0 <= n -> Z.land a (2 ^ n) = if Z.testbit a n then 2 ^ n else 0.
Proof.
  intros Hn. apply Z.bits_inj'. intros m Hm.
  rewrite Z.land_spec, Z.pow2_bits_eqb by lia.
  destruct (Z.eqb_spec n m) as [-> | Hne].
  - destruct (Z.testbit a m) eqn:E; simpl.
    + now rewrite Z.pow2_bits_true by lia.
    + now rewrite Z.bits_0.
  - rewrite andb_false_r.
    destruct (Z.testbit a n).
    + rewrite Z.pow2_bits_false by lia. reflexivity.
    + now rewrite Z.bits_0.
Qed.

Lemma land_pow2_nonzero (a n : Z) :
  0 <= n -> negb (Z.land a (2 ^ n) =? 0) = Z.testbit a n.
Proof.
  intros Hn. rewrite land_pow2 by lia.
  assert (0 < 2 ^ n) by (apply Z.pow_pos_nonneg; lia).
  destruct (Z.testbit a n); simpl.
  - destruct (Z.eqb_spec (2 ^ n) 0); [lia | reflexivity].
  - reflexivity.
Qed.

Lemma shl_u32_one (n : Z) : 0 <= n < 32 -> shl_u32 1 n = 2 ^ n.
Proof.
  intros Hn. unfold shl_u32.
  destruct (Z.leb_spec 32 n); [lia |].
  rewrite Z.shiftl_1_l. apply wrap_u32_id. unfold u32_range.
  split; [apply Z.pow_nonneg; lia | apply Z.pow_lt_mono_r; lia].
Qed.

Lemma shl_int_one (n : Z) : 0 <= n < 31 -> shl_int 1 n = 2 ^ n.
Proof.
  intros Hn. unfold shl_int.
  destruct (Z.leb_spec 32 n); [lia |].
  rewrite Z.shiftl_1_l. apply wrap_int_id. unfold int_range.
  assert (0 < 2 ^ n) by (apply Z.pow_pos_nonneg; lia).
  assert (2 ^ n < 2 ^ 31) by (apply Z.pow_lt_mono_r; lia).
  lia.
Qed.

(** A widened channel keeps the channel's byte in its low eight bits. *)
Lemma widen_low_bits (c n : Z) :
  0 <= n < 8 -> Z.testbit (widen c) n = Z.testbit c n.
Proof.
  intros Hn. unfold widen, wrap_u32.
  rewrite Z.lor_spec, Z.mod_pow2_bits_low by lia.
  rewrite Z.shiftl_spec_low by lia. apply orb_false_r.
Qed.

(** The test [0 != (cr & (1 << n))] of [rgbBit] for a bit of the byte. *)
Lemma channel_bit (c n : Z) :
  0 <= n < 8 ->
  negb (0 =? Z.land (widen c) (shl_u32 1 n)) = Z.testbit c n.
Proof.
  intros Hn. rewrite shl_u32_one by lia.
  rewrite Z.eqb_sym, land_pow2_nonzero by lia.
  apply widen_low_bits; lia.
Qed.

(** The test [row&(1<<i) != 0] of [selectRow] for a row index. *)
Lemma address_bit (r : Z) (i : nat) :
  0 <= r < 2 ^ 31 ->
  negb (Z.land r (shl_int 1 (Z.of_nat i)) =? 0) = Z.testbit r (Z.of_nat i).
Proof.
  intros Hr.
  destruct (Z_lt_le_dec (Z.of_nat i) 31) as [Hlt | Hge].
  - rewrite shl_int_one by lia. apply land_pow2_nonzero; lia.
  - assert (Hbit : Z.testbit r (Z.of_nat i) = false).
    { destruct (Z.eq_dec r 0) as [-> | Hnz]; [apply Z.bits_0 |].
      apply Z.bits_above_log2; [lia |].
      apply Z.lt_le_trans with 31; [| lia].
      apply Z.log2_lt_pow2; lia. }
    rewrite Hbit. unfold shl_int.
    destruct (Z.leb_spec 32 (Z.of_nat i)) as [_ | Hlt32].
    + now rewrite Z.land_0_r.
    + assert (Hi : Z.of_nat i = 31) by lia. rewrite Hi.
      change (wrap_int (Z.shiftl 1 31)) with (- 2 ^ 31).
      replace (Z.land r (- 2 ^ 31)) with 0; [reflexivity |].
      symmetry. apply Z.bits_inj'. intros m Hm.
      rewrite Z.land_spec, Z.bits_0.
      destruct (Z_lt_le_dec m 31) as [Hm31 | Hm31].
      * replace (- 2 ^ 31) with (Z.shiftl (-1) 31) by reflexivity.
        rewrite Z.shiftl_spec_low by lia. apply andb_false_r.
      * destruct (Z.eq_dec r 0) as [-> | Hnz]; [now rewrite Z.bits_0 |].
        rewrite Z.bits_above_log2; [reflexivity | lia |].
        apply Z.lt_le_trans with 31; [| lia].
        apply Z.log2_lt_pow2; lia.
Qed.

Lemma int_testbit_nonneg (r i : Z) :
  0 <= r < 2 ^ 31 -> int_testbit r i = Z.testbit r i.
Proof.
  intros Hr. unfold int_testbit. rewrite Z.mod_small by lia. reflexivity.
Qed.

(** The same test for any [int], negative ones included. *)
Lemma address_bit_int (r : Z) (i : nat) :
  int_range r ->
  negb (Z.land r (shl_int 1 (Z.of_nat i)) =? 0) = int_testbit r (Z.of_nat i).
Proof.
  intros Hr. unfold int_range in Hr.
  destruct (Z_lt_le_dec r 0) as [Hneg | Hpos];
    [| rewrite int_testbit_nonneg by lia; apply address_bit; lia].
  unfold int_testbit.
  destruct (Z_lt_le_dec (Z.of_nat i) 32) as [Hlt | Hge].
  - rewrite Z.mod_pow2_bits_low by lia.
    assert (Hhigh : forall m, 31 <= m -> Z.testbit r m = true).
    { intros m Hm. apply Z.bits_above_log2_neg; [lia |].
      destruct (Z.eq_dec r (-1)) as [-> | Hne]; [simpl; lia |].
      apply Z.lt_le_trans with 31; [| lia].
      apply Z.log2_lt_pow2; lia. }
    destruct (Z_lt_le_dec (Z.of_nat i) 31) as [Hlt31 | Hge31].
    + rewrite shl_int_one by lia. apply land_pow2_nonzero; lia.
    + assert (Hi : Z.of_nat i = 31) by lia. rewrite Hi.
      unfold shl_int. change (wrap_int (Z.shiftl 1 31)) with (- 2 ^ 31).
      change (32 <=? 31) with false. cbv iota.
      replace (Z.land r (- 2 ^ 31)) with (- 2 ^ 31).
      * rewrite Hhigh by lia. reflexivity.
      * symmetry. apply Z.bits_inj'. intros m Hm.
        rewrite Z.land_spec.
        destruct (Z_lt_le_dec m 31) as [Hm31 | Hm31].
        -- replace (- 2 ^ 31) with (Z.shiftl (-1) 31) by reflexivity.
           rewrite Z.shiftl_spec_low by lia. apply andb_false_r.
        -- rewrite Hhigh by lia. reflexivity.
  - rewrite Z.mod_pow2_bits_high by lia.
    unfold shl_int. destruct (Z.leb_spec 32 (Z.of_nat i)); [| lia].
    now rewrite Z.land_0_r.
Qed.

End GoIntFacts.

(** ** Framebuffer *)

Section Framebuffer.

Lemma index_Done {T : Type} (s : list T) (i : Z) (a : T) :
  0 <= i -> s !! Z.to_nat i = Some a -> index s i = Done a.
Proof.
  intros Hi Hs. unfold index.
  destruct (Z.ltb_spec i 0); [lia |]. now rewrite Hs.
Qed.

Lemma buf_shape_line (d : Device) (y : Z) :
  buf_shape d -> 0 <= y < Height (cfg d) ->
  exists line, buf d !! Z.to_nat y = Some line /\
               length line = Z.to_nat (Width (cfg d)).
Proof.
  intros [Hlen Hall] Hy.
  destruct (lookup_lt_is_Some_2 (buf d) (Z.to_nat y)) as [line Hline]; [lia |].
  exists line. split; [exact Hline |].
  rewrite Forall_forall in Hall. apply Hall.
  eapply list_elem_of_lookup_2. exact Hline.
Qed.

Lemma buf_shape_pixel (d : Device) (x y : Z) :
  buf_shape d -> 0 <= x < Width (cfg d) -> 0 <= y < Height (cfg d) ->
  exists line px, index (buf d) y = Done line /\ index line x = Done px.
Proof.
  intros Hshape Hx Hy.
  destruct (buf_shape_line d y Hshape Hy) as (line & Hline & Hlen).
  destruct (lookup_lt_is_Some_2 line (Z.to_nat x)) as [px Hpx]; [lia |].
  exists line, px. split; apply index_Done; auto; lia.
Qed.

(** [rgbBit] cannot fault on a pixel of the framebuffer. *)
Lemma rgbBit_Done (d : Device) (x y n : Z) :
  buf_shape d -> 0 <= x < Width (cfg d) -> 0 <= y < Height (cfg d) -> 0 <= n ->
  exists bits, rgbBit d x y n = Done bits.
Proof.
  intros Hshape Hx Hy Hn.
  destruct (buf_shape_pixel d x y Hshape Hx Hy) as (line & px & Hl & Hp).
  unfold rgbBit. rewrite Hl. simpl. rewrite Hp. simpl.
  destruct (Z.ltb_spec n 0); [lia |]. eauto.
Qed.

Lemma SetPixel_inside (d : Device) (x y : Z) (c : RGBA) :
  buf_shape d -> 0 <= x < Width (cfg d) -> 0 <= y < Height (cfg d) ->
  exists line,
    buf d !! Z.to_nat y = Some line /\
    length line = Z.to_nat (Width (cfg d)) /\
    SetPixel d x y c =
      Done (set_buf (<[Z.to_nat y := <[Z.to_nat x := c]> line]> (buf d)) d).
Proof.
  intros Hshape Hx Hy.
  destruct (buf_shape_line d y Hshape Hy) as (line & Hline & Hlen).
  exists line. split; [exact Hline |]. split; [exact Hlen |].
  unfold SetPixel. destruct Hshape as [Hrows _].
  destruct (Z.leb_spec 0 y); [| lia].
  destruct (Z.ltb_spec y (Z.of_nat (length (buf d)))); [| lia].
  simpl. rewrite (index_Done _ _ _ (proj1 Hy) Hline). simpl.
  destruct (Z.leb_spec 0 x); [| lia].
  destruct (Z.ltb_spec x (Z.of_nat (length line))); [| lia].
  reflexivity.
Qed.

(** A pixel write keeps the dimensions of the framebuffer. *)
Lemma SetPixel_shape (d d' : Device) (x y : Z) (c : RGBA) :
  buf_shape d -> SetPixel d x y c = Done d' ->
  buf_shape d' /\ cfg d' = cfg d /\ pos d' = pos d.
Proof.
  intros Hshape. unfold SetPixel.
  destruct ((0 <=? y) && (y <? Z.of_nat (length (buf d)))) eqn:Ey;
    [| intros [= <-]; auto].
  unfold index. destruct (y <? 0); [discriminate |].
  destruct (buf d !! Z.to_nat y) as [line |] eqn:Hline; [| discriminate].
  simpl.
  destruct ((0 <=? x) && (x <? Z.of_nat (length line))) eqn:Ex;
    intros [= <-]; auto.
  split; [| auto]. destruct Hshape as [Hrows Hcols].
  split; simpl.
  - now rewrite length_insert.
  - apply Forall_insert; [exact Hcols |].
    rewrite length_insert. rewrite Forall_forall in Hcols. apply Hcols.
    eapply list_elem_of_lookup_2. exact Hline.
Qed.

Lemma ClearDisplay_shape (d : Device) :
  buf_shape d -> buf_shape (ClearDisplay d).
Proof.
  intros [Hrows Hcols]. split; simpl.
  - now rewrite length_map.
  - rewrite Forall_map. eapply Forall_impl; [exact Hcols |].
    intros line Hl. simpl. now rewrite length_map.
Qed.

End Framebuffer.

Section PixelAccess.

(** C4.  Round trip of a pixel write: on a framebuffer of [Height] lines of
    [Width] pixels, for every in-range coordinate [(x, y)], every colour [c]
    (whatever its alpha channel) and every bit index [n] in [0, 8),
    [SetPixel d x y c] returns without fault and a following [rgbBit x y n]
    returns exactly bit [n] of the R, G and B channels of [c].  The colour
    depth of the device plays no part. *)
Theorem SetPixel_rgbBit_roundtrip (d : Device) (x y n : Z) (c : RGBA) :
  buf_shape d ->
  0 <= x < Width (cfg d) ->
  0 <= y < Height (cfg d) ->
  0 <= n < 8 ->
  exists d',
    SetPixel d x y c = Done d' /\
    rgbBit d' x y n =
      Done (Z.testbit (R c) n, Z.testbit (G c) n, Z.testbit (B c) n).
Proof.
  intros Hshape Hx Hy Hn.
  destruct (SetPixel_inside d x y c Hshape Hx Hy) as (line & Hline & Hlen & Hset).
  eexists. split; [exact Hset |].
  unfold rgbBit. simpl.
  rewrite (index_Done _ y (<[Z.to_nat x := c]> line)).
  - simpl. rewrite (index_Done _ x c).
    + simpl. destruct (Z.ltb_spec n 0); [lia |].
      rewrite <- (channel_bit (R c) n), <- (channel_bit (G c) n),
        <- (channel_bit (B c) n) by lia.
      reflexivity.
    + lia.
    + apply list_lookup_insert_eq. lia.
  - lia.
  - apply list_lookup_insert_eq. eapply lookup_lt_Some. exact Hline.
Qed.

(** C4 at pixel (1, 3) of a 2x4 panel, bit 7 of an opaque colour. *)
Lemma SetPixel_rgbBit_roundtrip_witness :
  exists d',
    SetPixel panel_2x4 1 3 (mkRGBA 200 100 50 255) = Done d' /\
    rgbBit d' 1 3 7 = Done (true, false, false).
Proof.
  apply (SetPixel_rgbBit_roundtrip panel_2x4 1 3 7 (mkRGBA 200 100 50 255)).
  - split; vm_compute; [reflexivity | repeat constructor].
  - vm_compute. split; [discriminate | reflexivity].
  - vm_compute. split; [discriminate | reflexivity].
  - lia.
Defined.

(** C8.  A pixel write outside [0, Width) x [0, Height), negative
    coordinates included, returns without fault and leaves the device, hence
    every pixel of the framebuffer, as it was. *)
Theorem SetPixel_out_of_range (d : Device) (x y : Z) (c : RGBA) :
  buf_shape d ->
  ~ (0 <= x < Width (cfg d) /\ 0 <= y < Height (cfg d)) ->
  SetPixel d x y c = Done d.
Proof.
  intros Hshape Hout. unfold SetPixel.
  destruct (Z.leb_spec 0 y) as [Hy0 |]; [| reflexivity].
  destruct (Z.ltb_spec y (Z.of_nat (length (buf d)))) as [Hy1 |]; [| reflexivity].
  simpl.
  assert (Hy : 0 <= y < Height (cfg d)) by (destruct Hshape; lia).
  destruct (buf_shape_line d y Hshape Hy) as (line & Hline & Hlen).
  rewrite (index_Done _ _ _ Hy0 Hline). simpl.
  destruct (Z.leb_spec 0 x); [| reflexivity].
  destruct (Z.ltb_spec x (Z.of_nat (length line))); [| reflexivity].
  exfalso. apply Hout. lia.
Qed.

(** C8 at column -1 and at line 4 of a 2x4 panel. *)
Lemma SetPixel_out_of_range_witness :
  SetPixel panel_2x4 (-1) 0 (mkRGBA 255 255 255 255) = Done panel_2x4 /\
  SetPixel panel_2x4 0 4 (mkRGBA 255 255 255 255) = Done panel_2x4.
Proof.
  split.
  - apply (SetPixel_out_of_range panel_2x4 (-1) 0).
    + split; vm_compute; [reflexivity | repeat constructor].
    + vm_compute. intros [[H _] _]. apply H. reflexivity.
  - apply (SetPixel_out_of_range panel_2x4 0 4).
    + split; vm_compute; [reflexivity | repeat constructor].
    + vm_compute. intros [_ [_ H]]. discriminate H.
Defined.

End PixelAccess.

(** ** Configuration *)

Section Configuration.

Lemma make_Done {T : Type} (zero : T) (size n : Z) :
  slice_fits size n -> make zero size n = Done (replicate (Z.to_nat n) zero).
Proof.
  intros [Hn Hsize]. unfold make.
  destruct (Z.ltb_spec n 0); [lia |].
  destruct (Z.ltb_spec maxAlloc (size * n)); [lia | reflexivity].
Qed.

Lemma make_Panic {T : Type} (zero : T) (size n : Z) :
  ~ slice_fits size n -> make zero size n = Panic.
Proof.
  intros Hnot. unfold make, slice_fits in *.
  destruct (Z.ltb_spec n 0); [reflexivity |].
  destruct (Z.ltb_spec maxAlloc (size * n)); [reflexivity | lia].
Qed.

Lemma slice_fits_dec (size n : Z) : slice_fits size n \/ ~ slice_fits size n.
Proof. unfold slice_fits. lia. Qed.

Lemma makeRows_Done (rows : list (list RGBA)) (w : Z) :
  slice_fits sizeof_RGBA w ->
  makeRows rows w = Done (replicate (length rows) (replicate (Z.to_nat w) black)).
Proof.
  intros Hw. induction rows as [| r rows IH]; simpl; [reflexivity |].
  rewrite (make_Done black _ _ Hw).
  simpl. rewrite IH. reflexivity.
Qed.

Lemma makeRows_Panic (rows : list (list RGBA)) (w : Z) :
  ~ slice_fits sizeof_RGBA w -> rows <> [] -> makeRows rows w = Panic.
Proof.
  intros Hw Hrows. destruct rows as [| r rows]; [congruence |].
  simpl. now rewrite (make_Panic black _ _ Hw).
Qed.

(** The framebuffer allocation of [Configure] succeeds exactly on the
    lengths [make] accepts. *)
Lemma alloc_allocatable (h w : Z) :
  allocatable h w ->
  (rows ← make [] sizeof_slice h; makeRows rows w)
  = Done (replicate (Z.to_nat h) (replicate (Z.to_nat w) black)).
Proof.
  intros [Hh Hw]. rewrite (make_Done _ _ _ Hh). cbn [mbind result_bind].
  destruct (Z.eq_dec h 0) as [-> | Hnz]; [reflexivity |].
  rewrite makeRows_Done by (apply Hw; destruct Hh; lia).
  now rewrite length_replicate.
Qed.

Lemma alloc_not_allocatable (h w : Z) :
  ~ allocatable h w ->
  (rows ← make [] sizeof_slice h; makeRows rows w) = Panic.
Proof.
  intros Hnot.
  destruct (slice_fits_dec sizeof_slice h) as [Hh | Hh];
    [| now rewrite (make_Panic _ _ _ Hh)].
  rewrite (make_Done _ _ _ Hh). cbn [mbind result_bind].
  apply makeRows_Panic.
  - intros Hw. apply Hnot. split; [exact Hh | intros _; exact Hw].
  - destruct (Z.eq_dec h 0) as [-> | Hnz].
    + exfalso. apply Hnot. split; [exact Hh | lia].
    + destruct Hh. destruct (Z.to_nat h) eqn:E; [lia | discriminate].
Qed.

Lemma allocatable_dec (h w : Z) : allocatable h w \/ ~ allocatable h w.
Proof. unfold allocatable, slice_fits. lia. Qed.

(** The framebuffer that [Configure] allocates. *)
Lemma alloc_Done (h w : Z) (b : list (list RGBA)) :
  (rows ← make [] sizeof_slice h; makeRows rows w) = Done b ->
  0 <= h /\ (0 < h -> 0 <= w) /\
  b = replicate (Z.to_nat h) (replicate (Z.to_nat w) black).
Proof.
  intros Hb. destruct (allocatable_dec h w) as [Ha | Hn].
  - rewrite (alloc_allocatable h w Ha) in Hb. injection Hb as <-.
    destruct Ha as [[Hh _] Hw]. split; [exact Hh |].
    split; [intros Hpos; apply (Hw Hpos) | reflexivity].
  - rewrite (alloc_not_allocatable h w Hn) in Hb. discriminate.
Qed.

(** [Configure] by its three exits: invalid height (line 148), invalid data
    pins (line 175), and the allocation followed by [initialize]. *)
Lemma Configure_eq (d : Device) (c : Config) :
  Configure d c =
  if negb (Height c =? 0) && (maxHeight (cfg d) <? Height c) then
    Done (set_cfg (set_Width (chosen_Width c) (cfg d)) d,
          Some ErrInvalidHeight, [])
  else if negb (fst (GetPinGroupAlignment (hub d) (rgb_pins d)))
          || (snd (GetPinGroupAlignment (hub d) (rgb_pins d)) =? 0) then
    Done (set_cfg (chosen_config d c) d, Some ErrInvalidDataPins, [])
  else
    let cf := set_clkDataPort
                (fst (GetPinGroupAlignment (hub d) [pin_r (up (rgb d)); clk d]))
                (chosen_config d c) in
    b ← (rows ← make [] sizeof_slice (chosen_Height d c);
         makeRows rows (chosen_Width c));
    Done (ClearDisplay (set_pos (seed_pos cf) (set_buf b (set_cfg cf d))),
          None,
          map EvPinConfigure ([oen d; lat d; clk d] ++ rgb_pins d ++ row d)
          ++ snd (initialize (set_buf b (set_cfg cf d)))).
Proof.
  unfold Configure, chosen_config, chosen_Width, chosen_Height, chosen_ColorDepth.
  rewrite !(Z.eqb_sym 0).
  destruct (Z.eqb_spec (Width c) 0), (Z.eqb_spec (Height c) 0),
    (Z.eqb_spec (ColorDepth c) 0); cbn [negb andb].
  all: try destruct (maxHeight _ <? Height c); cbn [negb andb]; try reflexivity.
  all: cbn [cfg set_cfg set_Width set_Height set_ColorDepth set_numAddrRows
         set_oneAddrPort set_clkDataPort Width Height ColorDepth numAddrRows
         maxHeight hub rgb row rgb_pins oen lat clk buf].
  all: destruct (GetPinGroupAlignment (hub d) _) as [same align]; cbn [fst snd].
  all: destruct (negb same || (align =? 0)); try reflexivity.
  all: unfold make; destruct ((_ <? 0) || _); try reflexivity;
    cbn [mbind result_bind].
  all: destruct (makeRows _ _); reflexivity.
Qed.

Lemma height_accepted_spec (d : Device) (c : Config) :
  negb (Height c =? 0) && (maxHeight (cfg d) <? Height c) = false <->
  height_accepted d c.
Proof.
  unfold height_accepted.
  destruct (Z.eqb_spec (Height c) 0), (Z.ltb_spec (maxHeight (cfg d)) (Height c));
    simpl; intuition (discriminate || lia).
Qed.

Lemma data_pins_rejected_spec (d : Device) :
  negb (fst (GetPinGroupAlignment (hub d) (rgb_pins d)))
  || (snd (GetPinGroupAlignment (hub d) (rgb_pins d)) =? 0) = true <->
  data_pins_rejected d.
Proof.
  unfold data_pins_rejected.
  destruct (fst (GetPinGroupAlignment (hub d) (rgb_pins d)));
    destruct (Z.eqb_spec (snd (GetPinGroupAlignment (hub d) (rgb_pins d))) 0);
    simpl; intuition (discriminate || lia).
Qed.

(** The invalid-height exit returns before anything but the width is
    assigned (lines 133-149). *)
Lemma Configure_invalid_height (d : Device) (c : Config) :
  Height c <> 0 -> maxHeight (cfg d) < Height c ->
  Configure d c =
    Done (set_cfg (set_Width (chosen_Width c) (cfg d)) d,
          Some ErrInvalidHeight, []).
Proof.
  intros Hnz Hgt. rewrite Configure_eq.
  destruct (Z.eqb_spec (Height c) 0); [contradiction |].
  destruct (Z.ltb_spec (maxHeight (cfg d)) (Height c)); [reflexivity | lia].
Qed.

Lemma clear_replicate (h w : nat) :
  map (map (fun _ : RGBA => mkRGBA 0 0 0 0)) (replicate h (replicate w black))
  = replicate h (replicate w black).
Proof.
  induction h as [| h IH]; simpl; [reflexivity |]. rewrite IH. f_equal.
  clear IH. induction w as [| w IH]; simpl; [reflexivity |]. now rewrite IH.
Qed.

(** What a call of [Configure] that returns nil has done. *)
Lemma Configure_success (d : Device) (c : Config) (d' : Device) (ev : list Event) :
  Configure d c = Done (d', None, ev) ->
  height_accepted d c /\ ~ data_pins_rejected d /\
  0 <= chosen_Height d c /\
  (0 < chosen_Height d c -> 0 <= chosen_Width c) /\
  cfg d' = set_clkDataPort
             (fst (GetPinGroupAlignment (hub d) [pin_r (up (rgb d)); clk d]))
             (chosen_config d c) /\
  buf d' = replicate (Z.to_nat (chosen_Height d c))
             (replicate (Z.to_nat (chosen_Width c)) black) /\
  pos d' = seed_pos (chosen_config d c) /\
  In EvInitTimer ev.
Proof.
  rewrite Configure_eq.
  destruct (negb (Height c =? 0) && (maxHeight (cfg d) <? Height c)) eqn:Eh;
    [discriminate |].
  destruct (negb (fst (GetPinGroupAlignment (hub d) (rgb_pins d)))
            || (snd (GetPinGroupAlignment (hub d) (rgb_pins d)) =? 0)) eqn:Ep;
    [discriminate |].
  cbv zeta.
  destruct (rows ← make [] sizeof_slice (chosen_Height d c);
            makeRows rows (chosen_Width c))
    as [b |] eqn:Eb; [| discriminate].
  apply alloc_Done in Eb. destruct Eb as (Hh & Hw & ->).
  cbn [mbind result_bind]. intros [= <- <-].
  split; [now apply height_accepted_spec |].
  split; [rewrite <- data_pins_rejected_spec; congruence |].
  split; [exact Hh |]. split; [exact Hw |].
  split; [reflexivity |].
  split; [cbn [ClearDisplay buf set_buf set_pos]; apply clear_replicate |].
  split; [reflexivity |].
  repeat first [ left; reflexivity | apply in_cons | apply in_or_app; right ].
Qed.

(** A successful [Configure] leaves a framebuffer of the configured size. *)
Lemma Configure_buf_shape (d : Device) (c : Config) (d' : Device) (ev : list Event) :
  Configure d c = Done (d', None, ev) -> buf_shape d'.
Proof.
  intros Hconf.
  destruct (Configure_success d c d' ev Hconf)
    as (_ & _ & _ & _ & Hcfg & Hbuf & _).
  unfold buf_shape. rewrite Hbuf, Hcfg.
  cbn [Width Height set_clkDataPort chosen_config]. split.
  - apply length_replicate.
  - apply Forall_replicate. apply length_replicate.
Qed.

(** A successful [Configure] leaves the scan state [initialize] seeds. *)
Lemma Configure_seeds_scan_state
    (d : Device) (c : Config) (d' : Device) (ev : list Event) :
  Configure d c = Done (d', None, ev) -> pos d' = seed_pos (cfg d').
Proof.
  intros Hconf.
  destruct (Configure_success d c d' ev Hconf)
    as (_ & _ & _ & _ & Hcfg & _ & Hpos & _).
  rewrite Hpos, Hcfg. reflexivity.
Qed.

(** A successful [Configure] of a panel with at least one row pair. *)
Lemma Configure_configured (d : Device) (c : Config) (d' : Device) (ev : list Event) :
  int_range (maxHeight (cfg d)) -> int_range (Height c) ->
  u8_range (ColorDepth c) ->
  Configure d c = Done (d', None, ev) ->
  2 <= Height (cfg d') ->
  configured d' /\ rolls_over d'.
Proof.
  intros Hmax Hint Hdepth Hconf H2.
  destruct (Configure_success d c d' ev Hconf)
    as (_ & _ & Hh & Hw & Hcfg & Hbuf & Hpos & _).
  assert (HH : Height (cfg d') = chosen_Height d c) by now rewrite Hcfg.
  assert (HW : Width (cfg d') = chosen_Width c) by now rewrite Hcfg.
  assert (HD : ColorDepth (cfg d') = chosen_ColorDepth c) by now rewrite Hcfg.
  assert (HR : numAddrRows (cfg d') = Z.quot (Height (cfg d')) 2)
    by now rewrite Hcfg.
  assert (Hrange : Height (cfg d') < 2 ^ 31).
  { rewrite HH. unfold chosen_Height, int_range in *.
    destruct (Height c =? 0); lia. }
  assert (Hd : 1 <= ColorDepth (cfg d') <= 255).
  { rewrite HD. unfold chosen_ColorDepth, u8_range, DefaultColorDepth in *.
    change (2 ^ 8) with 256 in Hdepth.
    destruct (Z.eqb_spec (ColorDepth c) 0); lia. }
  split.
  - constructor; [lia | exact HR | exact Hd |].
    unfold buf_shape. rewrite Hbuf, HH, HW. split.
    + apply length_replicate.
    + apply Forall_replicate. apply length_replicate.
  - unfold rolls_over. rewrite Hpos. cbn [seed_pos bit yUp].
    change (numAddrRows (chosen_config d c)) with (numAddrRows (cfg (set_cfg (chosen_config d c) d))).
    assert (HR' : numAddrRows (chosen_config d c) = numAddrRows (cfg d'))
      by now rewrite Hcfg.
    assert (HD' : ColorDepth (chosen_config d c) = ColorDepth (cfg d'))
      by now rewrite Hcfg.
    cbn [cfg set_cfg]. rewrite HR', HD'.
    assert (0 <= numAddrRows (cfg d') < 2 ^ 30).
    { rewrite HR. split; [apply Z.quot_pos; lia |].
      apply Z.quot_lt_upper_bound; lia. }
    rewrite !wrap_int_id by (unfold int_range; lia). lia.
Qed.

End Configuration.

Section ConfigureResults.

(** C10.  After every call of [Configure] that returns nil the framebuffer
    has exactly [Height] lines of [Width] pixels and every pixel is the
    transparent black {R:0, G:0, B:0, A:0}, whatever the framebuffer held
    before the call. *)
Theorem Configure_clears_framebuffer
    (d : Device) (c : Config) (d' : Device) (ev : list Event) :
  Configure d c = Done (d', None, ev) ->
  Z.of_nat (length (buf d')) = Height (cfg d') /\
  Forall (fun line =>
            Z.of_nat (length line) = Width (cfg d') /\
            Forall (fun px => px = mkRGBA 0 0 0 0) line)
         (buf d').
Proof.
  intros Hconf.
  destruct (Configure_success d c d' ev Hconf)
    as (_ & _ & Hh & Hw & Hcfg & Hbuf & _).
  assert (HH : Height (cfg d') = chosen_Height d c) by now rewrite Hcfg.
  assert (HW : Width (cfg d') = chosen_Width c) by now rewrite Hcfg.
  rewrite Hbuf, HH, HW, length_replicate. split; [lia |].
  destruct (Z.eq_dec (chosen_Height d c) 0) as [-> | Hnz]; [constructor |].
  apply Forall_replicate. rewrite length_replicate. split; [lia |].
  apply Forall_replicate. reflexivity.
Qed.

(** C10 on a device whose framebuffer holds a white pixel before the call. *)
Lemma Configure_clears_framebuffer_witness :
  Z.of_nat (length (buf panel_2x4)) = Height (cfg panel_2x4) /\
  Forall (fun line =>
            Z.of_nat (length line) = Width (cfg panel_2x4) /\
            Forall (fun px => px = mkRGBA 0 0 0 0) line)
         (buf panel_2x4).
Proof.
  eapply (Configure_clears_framebuffer
            (set_buf [[mkRGBA 255 255 255 255]] (board hub_aligned))
            (user_config 2 4 2)).
  vm_compute. reflexivity.
Defined.





(** C5 as stated fails: on a board whose data pins are rejected by the
    alignment query, a height above the maximum makes [Configure] return
    the invalid-height error, not the invalid-data-pins error. *)
Lemma Configure_invalid_data_pins_counterexample :
  data_pins_rejected (board hub_scattered) /\
  (exists d', Configure (board hub_scattered) (user_config 64 34 4)
              = Done (d', Some ErrInvalidHeight, [])) /\
  ~ (exists d' ev, Configure (board hub_scattered) (user_config 64 34 4)
                   = Done (d', Some ErrInvalidDataPins, ev)).
Proof.
  split; [left; reflexivity |].
  split.
  - eexists. vm_compute. reflexivity.
  - intros (d' & ev & H). vm_compute in H. discriminate H.
Qed.

(** C5, amended.  [Configure] returns the invalid-data-pins error if and
    only if the requested height is accepted (it is zero or at most
    [maxHeight]) and the alignment query over the six RGB data lines reports
    that they do not share one port or that the offset of the first line is
    zero.  On that return the engine has not started: no pin and no timer
    has been touched, and the framebuffer and the scan state are those from
    before the call. *)
Theorem Configure_invalid_data_pins (d : Device) (c : Config) :
  ((exists d' ev, Configure d c = Done (d', Some ErrInvalidDataPins, ev)) <->
   height_accepted d c /\ data_pins_rejected d) /\
  (forall d' ev,
     Configure d c = Done (d', Some ErrInvalidDataPins, ev) ->
     ev = [] /\ buf d' = buf d /\ pos d' = pos d).
Proof.
  rewrite <- height_accepted_spec, <- data_pins_rejected_spec.
  rewrite Configure_eq.
  destruct (negb (Height c =? 0) && (maxHeight (cfg d) <? Height c)).
  - split.
    + split; [intros (d' & ev & H); discriminate H | intros [H _]; discriminate H].
    + intros d' ev H. discriminate H.
  - destruct (negb (fst (GetPinGroupAlignment (hub d) (rgb_pins d)))
              || (snd (GetPinGroupAlignment (hub d) (rgb_pins d)) =? 0)).
    + split.
      * split; [auto | intros _; eauto].
      * intros d' ev [= <- <-]. auto.
    + cbv zeta.
      destruct (rows ← make [] sizeof_slice (chosen_Height d c);
            makeRows rows (chosen_Width c));
        cbn [mbind result_bind].
      * split; [| intros d' ev H; discriminate H].
        split; [intros (d' & ev & H); discriminate H | intros [_ H]; discriminate H].
      * split; [| intros d' ev H; discriminate H].
        split; [intros (d' & ev & H); discriminate H | intros [_ H]; discriminate H].
Qed.

(** C5, amended, on a board with scattered data pins and a valid height. *)
Lemma Configure_invalid_data_pins_witness :
  exists d' ev,
    Configure (board hub_scattered) (user_config 64 32 4)
    = Done (d', Some ErrInvalidDataPins, ev).
Proof.
  apply (proj1 (Configure_invalid_data_pins (board hub_scattered)
                  (user_config 64 32 4))).
  split.
  - right. vm_compute. discriminate.
  - left. reflexivity.
Defined.

(** C3.  The code at height [maxHeight + 2] on a configured 64x32 panel:
    [Configure] returns the invalid-height error, but it has already stored
    the requested width 128 (line 134 precedes the check of line 144) while
    the framebuffer keeps its 64 columns; the next interrupt then indexes
    column 64 of a 64-pixel line and faults. *)
Theorem Configure_invalid_height_overwrites_width :
  maxHeight (cfg panel_64x32) = 32 /\
  Width (cfg panel_64x32) = 64 /\
  exists d',
    Configure panel_64x32 (user_config 128 34 4)
    = Done (d', Some ErrInvalidHeight, []) /\
    Width (cfg d') = 128 /\
    buf d' = buf panel_64x32 /\
    pos d' = pos panel_64x32 /\
    Forall (fun line => length line = 64%nat) (buf d') /\
    (exists d1 ev, handleRow panel_64x32 = Done (d1, ev)) /\
    handleRow d' = Panic.
Proof.
  split; [reflexivity |]. split; [reflexivity |].
  eexists. split; [vm_compute; reflexivity |].
  split; [reflexivity |]. split; [reflexivity |]. split; [reflexivity |].
  split; [vm_compute; repeat constructor |].
  split; [eexists; eexists; vm_compute; reflexivity |].
  vm_compute. reflexivity.
Qed.

End ConfigureResults.

(** ** Row addressing *)

Section RowAddress.

Lemma selectRow_eq (d : Device) (r : Z) :
  int_range r -> r < Height (cfg d) -> 0 <= numAddrRows (cfg d) ->
  selectRow d r =
    if normalized_row d r =? yPr (pos d) then (d, [])
    else (set_pos (set_yPr (normalized_row d r) (pos d)) d,
          address_writes d (normalized_row d r)).
Proof.
  intros Hint Hr Hrows. unfold selectRow, normalized_row, address_writes.
  destruct (Z.leb_spec (Height (cfg d)) r); [lia |].
  assert (Hn : (if numAddrRows (cfg d) <=? r
                then wrap_int (r - numAddrRows (cfg d)) else r)
               = (if numAddrRows (cfg d) <=? r
                  then r - numAddrRows (cfg d) else r)).
  { destruct (Z.leb_spec (numAddrRows (cfg d)) r); [| reflexivity].
    apply wrap_int_id. unfold int_range in *. lia. }
  rewrite Hn.
  set (n := if numAddrRows (cfg d) <=? r then r - numAddrRows (cfg d) else r).
  assert (Hnr : int_range n).
  { subst n. unfold int_range in *.
    destruct (Z.leb_spec (numAddrRows (cfg d)) r); lia. }
  destruct (n =? yPr (pos d)); [reflexivity |].
  cbn [cfg set_pos row]. destruct (oneAddrPort (cfg d)); [reflexivity |].
  f_equal. apply imap_ext. intros i p _. simpl.
  now rewrite address_bit_int.
Qed.

(** C7.  For every row index [r] below the height, [selectRow] writes the
    row-address lines if and only if the normalized row ([r], or
    [r - numAddrRows] from [numAddrRows] on) differs from [yPr].  When it
    writes, [yPr] becomes the normalized row and the address is driven
    binary coded, line [i] to bit [i] of the normalized row in the per-pin
    path; when the normalized row equals [yPr] nothing is written and the
    device is unchanged.  Rows [numAddrRows] apart select one address. *)
Theorem selectRow_writes_on_change (d : Device) (r : Z) :
  int_range r -> r < Height (cfg d) -> 0 <= numAddrRows (cfg d) ->
  (normalized_row d r <> yPr (pos d) ->
   selectRow d r = (set_pos (set_yPr (normalized_row d r) (pos d)) d,
                    address_writes d (normalized_row d r))) /\
  (normalized_row d r = yPr (pos d) -> selectRow d r = (d, [])) /\
  (oneAddrPort (cfg d) = true \/ row d <> [] ->
   (snd (selectRow d r) <> [] <-> normalized_row d r <> yPr (pos d))) /\
  (oneAddrPort (cfg d) = false ->
   forall (i : nat) (p : Pin),
     row d !! i = Some p ->
     address_writes d (normalized_row d r) !! i
     = Some (EvPinSet p (int_testbit (normalized_row d r) (Z.of_nat i)))) /\
  (0 <= r < numAddrRows (cfg d) ->
   normalized_row d (r + numAddrRows (cfg d)) = normalized_row d r).
Proof.
  intros Hint Hr Hrows. rewrite (selectRow_eq d r Hint Hr Hrows).
  destruct (Z.eqb_spec (normalized_row d r) (yPr (pos d))) as [Heq | Hne].
  - split; [contradiction |]. split; [reflexivity |].
    split; [intros _; simpl; tauto |].
    split.
    + intros Hport i p Hp. unfold address_writes. rewrite Hport.
      rewrite list_lookup_imap, Hp. reflexivity.
    + intros Hlow. unfold normalized_row.
      destruct (Z.leb_spec (numAddrRows (cfg d)) (r + numAddrRows (cfg d)));
        destruct (Z.leb_spec (numAddrRows (cfg d)) r); lia.
  - split; [reflexivity |]. split; [contradiction |].
    split.
    + intros Hlines. cbn [snd]. split; [intros _; exact Hne | intros _].
      unfold address_writes. destruct Hlines as [-> | Hlines]; [discriminate |].
      destruct (oneAddrPort (cfg d)); [discriminate |].
      destruct (row d); [contradiction | discriminate].
    + split.
      * intros Hport i p Hp. unfold address_writes. rewrite Hport.
        rewrite list_lookup_imap, Hp. reflexivity.
      * intros Hlow. unfold normalized_row.
        destruct (Z.leb_spec (numAddrRows (cfg d)) (r + numAddrRows (cfg d)));
          destruct (Z.leb_spec (numAddrRows (cfg d)) r); lia.
Qed.

(** C7 on a 32-line panel with per-pin addressing and [yPr = 1]: row 21
    selects address 5 = 0b0101, row 17 selects the address already driven. *)
Lemma selectRow_writes_on_change_witness :
  selectRow panel_per_pin 21
  = (set_pos (set_yPr 5 (pos panel_per_pin)) panel_per_pin,
     [EvPinSet 10 true; EvPinSet 11 false; EvPinSet 12 true; EvPinSet 13 false])
  /\ selectRow panel_per_pin 17 = (panel_per_pin, []).
Proof.
  split.
  - apply (proj1 (selectRow_writes_on_change panel_per_pin 21
                    ltac:(unfold int_range; lia)
                    ltac:(vm_compute; reflexivity)
                    ltac:(vm_compute; discriminate))).
    vm_compute. discriminate.
  - apply (proj1 (proj2 (selectRow_writes_on_change panel_per_pin 17
                           ltac:(unfold int_range; lia)
                           ltac:(vm_compute; reflexivity)
                           ltac:(vm_compute; discriminate)))).
    vm_compute. reflexivity.
Defined.

Lemma increment_yPr (d : Device) : yPr (pos (increment d)) = yPr (pos d).
Proof.
  unfold increment.
  destruct (ColorDepth (cfg d) <=? wrap_int (bit (pos d) + 1)); [| reflexivity].
  destruct (numAddrRows (cfg d) <=? wrap_int (yUp (pos d) + 1)); reflexivity.
Qed.

Lemma increment_frame_data (d : Device) :
  cfg (increment d) = cfg d /\ buf (increment d) = buf d /\
  oen (increment d) = oen d /\ lat (increment d) = lat d.
Proof.
  unfold increment.
  destruct (ColorDepth (cfg d) <=? wrap_int (bit (pos d) + 1)); [| auto].
  destruct (numAddrRows (cfg d) <=? wrap_int (yUp (pos d) + 1)); auto.
Qed.

(** [selectRow] only ever changes [yPr]. *)
Lemma selectRow_frame (d : Device) (r : Z) :
  cfg (fst (selectRow d r)) = cfg d /\ buf (fst (selectRow d r)) = buf d /\
  oen (fst (selectRow d r)) = oen d /\ lat (fst (selectRow d r)) = lat d /\
  frame (pos (fst (selectRow d r))) = frame (pos d) /\
  yUp (pos (fst (selectRow d r))) = yUp (pos d) /\
  yLo (pos (fst (selectRow d r))) = yLo (pos d) /\
  bit (pos (fst (selectRow d r))) = bit (pos d) /\
  cyc (pos (fst (selectRow d r))) = cyc (pos d).
Proof.
  unfold selectRow.
  destruct (Height (cfg d) <=? r); [cbn [fst]; tauto |].
  destruct (_ =? yPr (pos d)); [cbn [fst]; tauto |].
  cbn [cfg set_pos]. destruct (oneAddrPort (cfg d)); cbn [fst]; tauto.
Qed.

(** C6.  The code on a 64x32 panel (sixteen row pairs, the address lines
    10 to 13 on one port).  [initialize] drives every row-address line low,
    so that the lines hold address 0, and then stores 1 in [yPr] (line 277,
    whose comment calls it an invalid row).  But 1 is the address of the
    row pair (1, 17), inside [0, numAddrRows): on the freshly initialized
    device a [selectRow] of row 1 or of row 17 finds its address in [yPr]
    and writes nothing, while the lines still hold 0; any other row is
    written.  The first interrupt does return and does write the address
    lines, because it selects address 0, which differs from 1. *)
Theorem initialize_seeds_real_row :
  numAddrRows (cfg panel_64x32) = 16 /\
  fst (fst (initialize panel_64x32)) = panel_64x32 /\
  take 13 (snd (initialize panel_64x32))
  = [EvPinSet 1 true; EvPinSet 2 false; EvPinSet 3 false;
     EvPinSet 4 false; EvPinSet 5 false; EvPinSet 6 false;
     EvPinSet 7 false; EvPinSet 8 false; EvPinSet 9 false;
     EvPinSet 10 false; EvPinSet 11 false; EvPinSet 12 false;
     EvPinSet 13 false] /\
  yPr (pos panel_64x32) = 1 /\
  0 <= yPr (pos panel_64x32) < numAddrRows (cfg panel_64x32) /\
  selectRow panel_64x32 1 = (panel_64x32, []) /\
  selectRow panel_64x32 17 = (panel_64x32, []) /\
  selectRow panel_64x32 2
  = (set_pos (set_yPr 2 (pos panel_64x32)) panel_64x32, [EvSetRow 2]) /\
  exists d1 rest,
    handleRow panel_64x32
    = Done (d1, [EvPauseTimer; EvResumeTimer 0 2000;
                 EvPinSet 1 true; EvPinSet 2 true; EvSetRow 0] ++ rest) /\
    yPr (pos d1) = 0.
Proof.
  split; [reflexivity |]. split; [vm_compute; reflexivity |].
  split; [vm_compute; reflexivity |]. split; [reflexivity |].
  split; [vm_compute; split; [discriminate | reflexivity] |].
  split; [vm_compute; reflexivity |]. split; [vm_compute; reflexivity |].
  split; [vm_compute; reflexivity |].
  eexists. eexists. split; [vm_compute; reflexivity | reflexivity].
Qed.

End RowAddress.

(** ** The scan state machine *)

Section ScanState.

Lemma configured_typed (d : Device) : configured d -> cfg_typed (cfg d).
Proof.
  intros [Hh Hr Hd _]. unfold cfg_typed, int_range, u8_range.
  change (2 ^ 8) with 256. repeat split; (exact Hr || lia).
Qed.

Lemma typed_rows_bound (c : Config) :
  cfg_typed c -> 0 < numAddrRows c -> 2 * numAddrRows c <= Height c < 2 ^ 31.
Proof.
  intros (Hh & Hr & _) Hpos. unfold int_range in Hh.
  assert (0 <= Height c).
  { destruct (Z_lt_le_dec (Height c) 0) as [Hneg |]; [| assumption].
    assert (Z.quot (Height c) 2 <= 0) by (apply Z.quot_le_upper_bound; lia).
    lia. }
  rewrite Hr. pose proof (Z.mul_quot_le (Height c) 2). lia.
Qed.

(** [increment] in the three cases of lines 359-373, on a state inside a
    frame. *)
Lemma increment_in_frame (d : Device) :
  cfg_typed (cfg d) -> scan_inv32 d ->
  pos (increment d) =
    if bit (pos d) + 1 <? ColorDepth (cfg d) then
      mkRowPlane (frame (pos d)) (yPr (pos d)) (yUp (pos d)) (yLo (pos d))
        (bit (pos d) + 1) (wrap_u32 (bitPeriod * 2 ^ (bit (pos d) + 1)))
    else if yUp (pos d) + 1 <? numAddrRows (cfg d) then
      mkRowPlane (frame (pos d)) (yPr (pos d)) (yUp (pos d) + 1)
        (yLo (pos d) + 1) 0 bitPeriod
    else
      mkRowPlane (wrap_int (frame (pos d) + 1)) (yPr (pos d)) 0
        (numAddrRows (cfg d)) 0 bitPeriod.
Proof.
  intros Htyped (Hup & Hlo & Hbit & Hcyc).
  pose proof (typed_rows_bound _ Htyped ltac:(lia)) as Hrows.
  destruct Htyped as (_ & _ & Hdepth). unfold u8_range in Hdepth.
  change (2 ^ 8) with 256 in Hdepth.
  unfold increment.
  rewrite (wrap_int_id (bit (pos d) + 1)) by (unfold int_range; lia).
  rewrite (wrap_int_id (yUp (pos d) + 1)) by (unfold int_range; lia).
  destruct (Z.leb_spec (ColorDepth (cfg d)) (bit (pos d) + 1)) as [Hroll | Hstay];
    destruct (Z.ltb_spec (bit (pos d) + 1) (ColorDepth (cfg d))); try lia.
  - destruct (Z.leb_spec (numAddrRows (cfg d)) (yUp (pos d) + 1));
      destruct (Z.ltb_spec (yUp (pos d) + 1) (numAddrRows (cfg d))); try lia.
    + reflexivity.
    + rewrite (wrap_int_id (yLo (pos d) + 1)) by (unfold int_range; lia).
      reflexivity.
  - cbn [pos set_pos]. rewrite Hcyc, wrap_u32_double by lia. reflexivity.
Qed.

Lemma increment_inv32 (d : Device) :
  cfg_typed (cfg d) -> scan_inv32 d -> scan_inv32 (increment d).
Proof.
  intros Htyped Hinv. pose proof (increment_in_frame d Htyped Hinv) as Hpos.
  destruct Hinv as (Hup & Hlo & Hbit & Hcyc).
  destruct (increment_frame_data d) as (Hcfg & _).
  unfold scan_inv32. rewrite Hcfg, Hpos.
  destruct (Z.ltb_spec (bit (pos d) + 1) (ColorDepth (cfg d)));
    [| destruct (Z.ltb_spec (yUp (pos d) + 1) (numAddrRows (cfg d)))];
    cbn [yUp yLo bit cyc]; repeat split; try lia; reflexivity.
Qed.

Lemma scan_inv_inv32 (d : Device) :
  ColorDepth (cfg d) <= 22 -> (scan_inv d <-> scan_inv32 d).
Proof.
  intros Hd. unfold scan_inv, scan_inv32.
  split; intros (Hup & Hlo & Hbit & Hcyc); repeat split; try lia.
  - rewrite period_exact by lia. exact Hcyc.
  - rewrite period_exact in Hcyc by lia. exact Hcyc.
Qed.

(** C2 as stated fails: at depth 23 the state reached 22 interrupts after
    [Configure] satisfies the four conditions with bitplane 21 and period
    2000 * 2^21, and one advance leaves bitplane 22 with the period
    4093640704, which is 2000 * 2^22 reduced modulo 2^32. *)
Lemma increment_scan_inv_counterexample :
  ColorDepth (cfg (after_run 22 panel_depth23)) = 23 /\
  scan_inv (after_run 22 panel_depth23) /\
  bit (pos (increment (after_run 22 panel_depth23))) = 22 /\
  cyc (pos (increment (after_run 22 panel_depth23))) = 4093640704 /\
  ~ scan_inv (increment (after_run 22 panel_depth23)).
Proof.
  assert (Hpos : pos (after_run 22 panel_depth23)
                 = mkRowPlane 1 0 0 2 21 4194304000)
    by (vm_compute; reflexivity).
  assert (Hcfg : cfg (after_run 22 panel_depth23)
                 = mkConfig 1 4 23 true true 2 32)
    by (vm_compute; reflexivity).
  assert (Hnext : pos (increment (after_run 22 panel_depth23))
                  = mkRowPlane 1 0 0 2 22 4093640704)
    by (vm_compute; reflexivity).
  split; [now rewrite Hcfg |].
  split; [unfold scan_inv; rewrite Hpos, Hcfg; cbn; unfold bitPeriod; lia |].
  split; [now rewrite Hnext |]. split; [now rewrite Hnext |].
  unfold scan_inv. rewrite Hnext. cbn [cyc bit]. unfold bitPeriod.
  intros (_ & _ & _ & H). lia.
Qed.

(** C2, amended.  For every state of a device whose configuration has the
    types of the code ([Height] an [int], [numAddrRows] half of it,
    [ColorDepth] a [uint8]), one advance preserves the Scan State
    invariants with the period as the 32-bit field holds it:
    [0 <= yUp < numAddrRows], [yLo = yUp + numAddrRows],
    [0 <= bit < ColorDepth] and [cyc = bitPeriod * 2^bit mod 2^32].  For a
    colour depth of at most 22 the period never wraps and the invariants
    are preserved as stated, with [cyc = bitPeriod * 2^bit]. *)
Theorem increment_preserves_scan_inv (d : Device) :
  cfg_typed (cfg d) ->
  (scan_inv32 d -> scan_inv32 (increment d)) /\
  (ColorDepth (cfg d) <= 22 -> scan_inv d -> scan_inv (increment d)).
Proof.
  intros Htyped. split; [apply increment_inv32; exact Htyped |].
  intros Hd Hinv.
  destruct (increment_frame_data d) as (Hcfg & _).
  apply scan_inv_inv32; [rewrite Hcfg; exact Hd |].
  apply increment_inv32; [exact Htyped |].
  apply scan_inv_inv32; assumption.
Qed.

(** C2, amended, at the last bitplane of the last row pair of a 2x4 panel
    (two row pairs, depth 2): the advance rolls over to row pair 0. *)
Lemma increment_preserves_scan_inv_witness :
  scan_inv (after_run 4 panel_2x4) /\
  scan_inv (increment (after_run 4 panel_2x4)).
Proof.
  assert (Hinv : scan_inv (after_run 4 panel_2x4)).
  { unfold scan_inv. vm_compute.
    repeat split; (discriminate || reflexivity). }
  split; [exact Hinv |].
  apply (proj2 (increment_preserves_scan_inv (after_run 4 panel_2x4)
                  ltac:(unfold cfg_typed, int_range, u8_range; vm_compute;
                        repeat split; (discriminate || reflexivity)))).
  - vm_compute. discriminate.
  - exact Hinv.
Defined.

End ScanState.

(** ** The interrupt service routine *)

Section Interrupt.

Lemma shiftColumns_Done (d : Device) (xs : list Z) :
  buf_shape d ->
  0 <= yUp (pos d) < Height (cfg d) ->
  0 <= yLo (pos d) < Height (cfg d) ->
  0 <= bit (pos d) ->
  Forall (fun x => 0 <= x < Width (cfg d)) xs ->
  exists data, shiftColumns d xs = Done data.
Proof.
  intros Hshape Hup Hlo Hbit Hxs.
  induction Hxs as [| x xs Hx _ IH]; [eexists; reflexivity |].
  destruct IH as [data IH].
  destruct (rgbBit_Done d x (yUp (pos d)) (bit (pos d)) Hshape Hx Hup Hbit)
    as [[[r1 g1] b1] H1].
  destruct (rgbBit_Done d x (yLo (pos d)) (bit (pos d)) Hshape Hx Hlo Hbit)
    as [[[r2 g2] b2] H2].
  cbn [shiftColumns]. unfold shiftColumn. rewrite H1, H2, IH.
  cbn [mbind result_bind].
  destruct (clkDataPort (cfg d)); cbn [mbind result_bind]; eexists; reflexivity.
Qed.

(** [increment] reads the configuration and every field of the scan state
    but [yPr]. *)
Lemma increment_congr (d e : Device) :
  cfg e = cfg d -> frame (pos e) = frame (pos d) ->
  yUp (pos e) = yUp (pos d) -> yLo (pos e) = yLo (pos d) ->
  bit (pos e) = bit (pos d) -> cyc (pos e) = cyc (pos d) ->
  frame (pos (increment e)) = frame (pos (increment d)) /\
  yUp (pos (increment e)) = yUp (pos (increment d)) /\
  yLo (pos (increment e)) = yLo (pos (increment d)) /\
  bit (pos (increment e)) = bit (pos (increment d)) /\
  cyc (pos (increment e)) = cyc (pos (increment d)).
Proof.
  intros Hcfg Hf Hup Hlo Hbit Hcyc. unfold increment.
  rewrite Hcfg, Hf, Hup, Hlo, Hbit, Hcyc.
  destruct (ColorDepth (cfg d) <=? wrap_int (bit (pos d) + 1)); [| cbn; tauto].
  destruct (numAddrRows (cfg d) <=? wrap_int (yUp (pos d) + 1)); cbn; tauto.
Qed.

(** One interrupt from a state whose successor lies inside a frame: it
    returns, programs the timer with the period of the state it is entered
    with, and advances the scan state as [increment] does. *)
Lemma handleRow_Done (d : Device) :
  configured d -> scan_inv32 (increment d) ->
  exists d1 ev,
    handleRow d = Done (d1, ev) /\
    timer_period ev = Some (cyc (pos d)) /\
    cfg d1 = cfg d /\ buf d1 = buf d /\
    frame (pos d1) = frame (pos (increment d)) /\
    yUp (pos d1) = yUp (pos (increment d)) /\
    yLo (pos d1) = yLo (pos (increment d)) /\
    bit (pos d1) = bit (pos (increment d)) /\
    cyc (pos d1) = cyc (pos (increment d)).
Proof.
  intros Hconf Hinv. unfold handleRow.
  destruct (selectRow_frame d (yUp (pos d)))
    as (Scfg & Sbuf & _ & _ & Sf & Sup & Slo & Sbit & Scyc).
  destruct (selectRow d (yUp (pos d))) as [ds ev_row]. cbn [fst] in *.
  destruct (increment_congr d ds Scfg Sf Sup Slo Sbit Scyc)
    as (If & Iup & Ilo & Ibit & Icyc).
  destruct (increment_frame_data ds) as (Icfg & Ibuf & _).
  destruct (increment_frame_data d) as (Dcfg & _).
  destruct Hinv as (Hup & Hlo & Hbit & _). rewrite Dcfg in Hup, Hlo, Hbit.
  pose proof (typed_rows_bound _ (configured_typed d Hconf) ltac:(lia)) as Hrows.
  destruct (shiftColumns_Done (increment ds) (seqZ 0 (Width (cfg (increment ds)))))
    as [data Hdata].
  - destruct Hconf as [_ _ _ [Hlen Hcols]].
    unfold buf_shape. rewrite Icfg, Ibuf, Scfg, Sbuf. split; assumption.
  - rewrite Iup, Icfg, Scfg. lia.
  - rewrite Ilo, Icfg, Scfg. lia.
  - rewrite Ibit. lia.
  - apply Forall_forall. intros x Hx. apply elem_of_seqZ in Hx. lia.
  - rewrite Hdata. cbn [mbind result_bind].
    exists (increment ds). eexists. split; [reflexivity |].
    split; [reflexivity |].
    rewrite Icfg, Ibuf, Scfg, Sbuf. tauto.
Qed.

(** The order of the hardware accesses of one interrupt: the timer is
    reprogrammed with the period of the state the interrupt is entered
    with, the output is disabled and the latch opened (which shows what the
    previous interrupt shifted out), the row address is selected, and, after
    [increment], the latch is closed, the output enabled and the bits of
    the new position are shifted out. *)
Lemma handleRow_sequence (d d1 : Device) (ev : list Event) :
  handleRow d = Done (d1, ev) ->
  exists data,
    ev = [EvPauseTimer; EvResumeTimer 0 (cyc (pos d));
          EvPinSet (oen d) true; EvPinSet (lat d) true]
         ++ snd (selectRow d (yUp (pos d)))
         ++ [EvPinSet (lat d) false; EvPinSet (oen d) false]
         ++ data /\
    shiftColumns d1 (seqZ 0 (Width (cfg d1))) = Done data.
Proof.
  unfold handleRow.
  destruct (selectRow_frame d (yUp (pos d))) as (_ & _ & Soen & Slat & _).
  destruct (selectRow d (yUp (pos d))) as [ds ev_row]. cbn [fst snd] in *.
  destruct (increment_frame_data ds) as (_ & _ & Ioen & Ilat).
  destruct (shiftColumns (increment ds) _) as [data |] eqn:Hdata;
    cbn [mbind result_bind]; [| discriminate].
  intros [= <- <-]. exists data. rewrite Ioen, Ilat, Soen, Slat.
  split; [reflexivity | exact Hdata].
Qed.

(** Pixel writes between two interrupts leave the scan state alone. *)
Lemma SetPixel_keeps_boundary (d d' : Device) (x y : Z) (c : RGBA) :
  configured d -> rolls_over d -> SetPixel d x y c = Done d' ->
  configured d' /\ rolls_over d'.
Proof.
  intros [Hh Hr Hd Hshape] Hroll Hset.
  destruct (SetPixel_shape d d' x y c Hshape Hset) as (Hshape' & Hcfg & Hpos).
  split.
  - constructor; rewrite ?Hcfg; assumption.
  - unfold rolls_over. rewrite Hcfg, Hpos. exact Hroll.
Qed.

Lemma ClearDisplay_keeps_boundary (d : Device) :
  configured d -> rolls_over d ->
  configured (ClearDisplay d) /\ rolls_over (ClearDisplay d).
Proof.
  intros [Hh Hr Hd Hshape] Hroll. split.
  - constructor; try assumption. apply ClearDisplay_shape. exact Hshape.
  - exact Hroll.
Qed.

(** The advance at the boundary of a frame (both roll-over branches). *)
Lemma increment_rolls_over (d : Device) :
  rolls_over d ->
  pos (increment d) =
    mkRowPlane (wrap_int (frame (pos d) + 1)) (yPr (pos d)) 0
      (numAddrRows (cfg d)) 0 bitPeriod.
Proof.
  intros [Hbit Hup]. unfold increment.
  destruct (Z.leb_spec (ColorDepth (cfg d)) (wrap_int (bit (pos d) + 1)));
    [| lia].
  destruct (Z.leb_spec (numAddrRows (cfg d)) (wrap_int (yUp (pos d) + 1)));
    [reflexivity | lia].
Qed.

Lemma configured_rows_depth (d : Device) :
  configured d ->
  1 <= numAddrRows (cfg d) /\ 1 <= ColorDepth (cfg d) <= 255.
Proof.
  intros [Hh Hr Hd _]. split; [| exact Hd].
  rewrite Hr. apply Z.quot_le_lower_bound; lia.
Qed.

Lemma rolls_over_inv32 (d : Device) :
  configured d -> rolls_over d -> scan_inv32 (increment d).
Proof.
  intros Hconf Hroll. destruct (configured_rows_depth d Hconf) as [HR HD].
  destruct (increment_frame_data d) as (Hcfg & _).
  unfold scan_inv32. rewrite Hcfg, (increment_rolls_over d Hroll).
  cbn [yUp yLo bit cyc]. repeat split; lia || reflexivity.
Qed.

Lemma configured_step (d d1 : Device) :
  configured d -> cfg d1 = cfg d -> buf d1 = buf d -> configured d1.
Proof.
  intros [Hh Hr Hd [Hlen Hcols]] Hcfg Hbuf.
  constructor; unfold buf_shape; rewrite ?Hcfg, ?Hbuf; auto.
Qed.

End Interrupt.

(** ** One frame of binary code modulation *)

Section Frame.

Variables (pairs rows depth : Z) (period : Z -> Z).








End Frame.

Section FrameTime.



End FrameTime.

(** ** Scanning a panel of any positive height *)

Section ScanRows.

Lemma configured_scannable (d : Device) : configured d -> scannable d.
Proof.
  intros [Hh Hr Hd Hs]. constructor; [lia | exact Hr | exact Hd | exact Hs].
Qed.












(** [Configure] leaves a panel of at least one line ready for its first
    frame. *)
Lemma Configure_scannable
    (d : Device) (c : Config) (d' : Device) (ev : list Event) :
  int_range (maxHeight (cfg d)) -> int_range (Height c) ->
  u8_range (ColorDepth c) ->
  Configure d c = Done (d', None, ev) ->
  1 <= Height (cfg d') ->
  scannable d' /\ rolls_over d'.
Proof.
  intros Hmax Hint Hdepth Hconf H1.
  destruct (Configure_success d c d' ev Hconf)
    as (_ & _ & Hh & Hw & Hcfg & Hbuf & Hpos & _).
  assert (HH : Height (cfg d') = chosen_Height d c) by now rewrite Hcfg.
  assert (HD : ColorDepth (cfg d') = chosen_ColorDepth c) by now rewrite Hcfg.
  assert (HR : numAddrRows (cfg d') = Z.quot (Height (cfg d')) 2)
    by now rewrite Hcfg.
  assert (Hrange : Height (cfg d') < 2 ^ 31).
  { rewrite HH. unfold chosen_Height, int_range in *.
    destruct (Height c =? 0); lia. }
  assert (Hd : 1 <= ColorDepth (cfg d') <= 255).
  { rewrite HD. unfold chosen_ColorDepth, u8_range, DefaultColorDepth in *.
    change (2 ^ 8) with 256 in Hdepth.
    destruct (Z.eqb_spec (ColorDepth c) 0); lia. }
  split.
  - constructor; [lia | exact HR | exact Hd |].
    exact (Configure_buf_shape d c d' ev Hconf).
  - unfold rolls_over. rewrite Hpos. cbn [seed_pos bit yUp].
    assert (HR' : numAddrRows (chosen_config d c) = numAddrRows (cfg d'))
      by now rewrite Hcfg.
    assert (HD' : ColorDepth (chosen_config d c) = ColorDepth (cfg d'))
      by now rewrite Hcfg.
    cbn [cfg set_cfg]. rewrite HR', HD'.
    assert (0 <= numAddrRows (cfg d') < 2 ^ 30).
    { rewrite HR. split; [apply Z.quot_pos; lia |].
      apply Z.quot_lt_upper_bound; lia. }
    rewrite !wrap_int_id by (unfold int_range; lia). lia.
Qed.

End ScanRows.

Section FrameRun.


(** Every state reached by at least one interrupt from a configured device
    (freshly configured, or inside a frame) lies inside a frame, and no
    interrupt on the way faults. *)
Lemma run_scan_inv32 (n : nat) :
  forall d : Device,
    configured d -> scan_inv32 d \/ rolls_over d ->
    exists d' steps,
      run (S n) d = Done (d', steps) /\ configured d' /\ scan_inv32 d'.
Proof.
  induction n as [| n IH]; intros d Hconf Hstate.
  all: assert (Hinv1 : scan_inv32 (increment d))
    by (destruct Hstate as [Hinv | Hroll];
        [apply increment_inv32; [apply configured_typed |]; assumption
        | apply rolls_over_inv32; assumption]).
  all: destruct (handleRow_Done d Hconf Hinv1)
    as (d1 & ev & Hrow & _ & Hcfg & Hbuf & _ & Hup & Hlo & Hbit & Hcyc).
  all: pose proof (configured_step d d1 Hconf Hcfg Hbuf) as Hconf1.
  all: assert (Hinv1' : scan_inv32 d1)
    by (destruct (increment_frame_data d) as (Icfg & _);
        unfold scan_inv32 in *; rewrite Hup, Hlo, Hbit, Hcyc, Hcfg;
        rewrite Icfg in Hinv1; exact Hinv1).
  - eexists. eexists. cbn [run]. rewrite Hrow. cbn [mbind result_bind].
    split; [reflexivity |]. split; assumption.
  - destruct (IH d1 Hconf1 (or_introl Hinv1')) as (d' & steps & Hrun & Hd').
    eexists. eexists. change (run (S (S n)) d)
      with ('(d1, ev) ← handleRow d;
            '(d2, steps) ← run (S n) d1;
            Done (d2, mkStep (timer_period ev) (yUp (pos d1)) (yLo (pos d1))
                             (bit (pos d1)) (frame (pos d1)) :: steps)).
    rewrite Hrow. cbn [mbind result_bind]. rewrite Hrun.
    cbn [mbind result_bind]. split; [reflexivity | exact Hd'].
Qed.







End FrameRun.

Section FrameSchedule.




End FrameSchedule.

(** * Further properties of the driver *)

(** ** Pixel writes *)

Section PixelWrites.

Lemma SetPixel_written (d : Device) (x y : Z) (c : RGBA) (line : list RGBA) :
  0 <= x -> 0 <= y ->
  buf d !! Z.to_nat y = Some line ->
  (Z.to_nat x < length line)%nat ->
  SetPixel d x y c
  = Done (set_buf (<[Z.to_nat y := <[Z.to_nat x := c]> line]> (buf d)) d).
Proof.
  intros Hx Hy Hline Hlen. unfold SetPixel.
  pose proof (lookup_lt_Some _ _ _ Hline) as Hrows.
  destruct (Z.leb_spec 0 y); [| lia].
  destruct (Z.ltb_spec y (Z.of_nat (length (buf d)))); [| lia].
  cbn [andb]. rewrite (index_Done _ _ _ Hy Hline). cbn [mbind result_bind].
  destruct (Z.leb_spec 0 x); [| lia].
  destruct (Z.ltb_spec x (Z.of_nat (length line))); [| lia].
  reflexivity.
Qed.

Lemma SetPixel_cases (d : Device) (x y : Z) (c : RGBA) :
  SetPixel d x y c = Done d \/
  exists line,
    0 <= x /\ 0 <= y /\
    buf d !! Z.to_nat y = Some line /\
    (Z.to_nat x < length line)%nat /\
    SetPixel d x y c
    = Done (set_buf (<[Z.to_nat y := <[Z.to_nat x := c]> line]> (buf d)) d).
Proof.
  unfold SetPixel.
  destruct (Z.leb_spec 0 y) as [Hy0 |]; [| left; reflexivity].
  destruct (Z.ltb_spec y (Z.of_nat (length (buf d)))) as [Hy1 |];
    [| left; reflexivity].
  cbn [andb].
  destruct (lookup_lt_is_Some_2 (buf d) (Z.to_nat y)) as [line Hline]; [lia |].
  rewrite (index_Done _ _ _ Hy0 Hline). cbn [mbind result_bind].
  destruct (Z.leb_spec 0 x) as [Hx0 |]; [| left; reflexivity].
  destruct (Z.ltb_spec x (Z.of_nat (length line))) as [Hx1 |];
    [| left; reflexivity].
  right. exists line. repeat split; try assumption; lia.
Qed.

Lemma lengths_insert (b : list (list RGBA)) (i j : nat) (c : RGBA)
    (line : list RGBA) :
  b !! i = Some line ->
  map length (<[i := <[j := c]> line]> b) = map length b.
Proof.
  intros Hline.
  change (map length (<[i := <[j := c]> line]> b))
    with (length <$> <[i := <[j := c]> line]> b).
  rewrite list_fmap_insert, length_insert.
  apply list_insert_id. rewrite list_lookup_fmap, Hline. reflexivity.
Qed.

(** X1.  [SetPixel] never faults, whatever the framebuffer looks like
    (empty before [Configure], or of any shape), and it changes nothing but
    pixels: configuration, scan state, timer position and the length of
    every line stay as they are. *)
Theorem SetPixel_never_faults (d : Device) (x y : Z) (c : RGBA) :
  exists d',
    SetPixel d x y c = Done d' /\
    cfg d' = cfg d /\ pos d' = pos d /\ val d' = val d /\
    map length (buf d') = map length (buf d).
Proof.
  destruct (SetPixel_cases d x y c) as [H | (line & _ & _ & Hline & _ & H)];
    rewrite H; eexists; (split; [reflexivity |]); cbn [cfg pos val buf set_buf];
    repeat split.
  now apply lengths_insert.
Qed.

(** X2.  A pixel write leaves every other pixel as it was: for every
    coordinate other than the written one, a read gives the same bits (or
    faults in the same way) before and after. *)
Theorem SetPixel_keeps_other_pixels
    (d d' : Device) (x y : Z) (c : RGBA) (x' y' n : Z) :
  SetPixel d x y c = Done d' ->
  (x', y') <> (x, y) ->
  rgbBit d' x' y' n = rgbBit d x' y' n.
Proof.
  intros Hset Hne.
  destruct (SetPixel_cases d x y c) as [H | (line & Hx & Hy & Hline & Hlen & H)];
    rewrite H in Hset; injection Hset as <-; [reflexivity |].
  unfold rgbBit, index. cbn [buf set_buf].
  destruct (Z.ltb_spec y' 0); [reflexivity |].
  destruct (Nat.eq_dec (Z.to_nat y') (Z.to_nat y)) as [Heq | Hny].
  - rewrite Heq, list_lookup_insert_eq, Hline
      by (eapply lookup_lt_Some; exact Hline).
    cbn [mbind result_bind].
    destruct (Z.ltb_spec x' 0); [reflexivity |].
    rewrite list_lookup_insert_ne; [reflexivity |].
    intros Hxx. apply Hne. f_equal; lia.
  - rewrite list_lookup_insert_ne by congruence. reflexivity.
Qed.

(** X2 on a 2x4 panel: writing (1, 3) leaves (0, 3) black. *)
Lemma SetPixel_keeps_other_pixels_witness :
  rgbBit (after_SetPixel panel_2x4 1 3 (mkRGBA 255 255 255 255)) 0 3 7
  = rgbBit panel_2x4 0 3 7.
Proof.
  apply (SetPixel_keeps_other_pixels panel_2x4 _ 1 3
           (mkRGBA 255 255 255 255) 0 3 7).
  - vm_compute. reflexivity.
  - discriminate.
Defined.

(** X3.  The last write wins: two writes to one coordinate leave the device
    exactly as the second write alone does. *)
Theorem SetPixel_last_write_wins (d d1 : Device) (x y : Z) (c1 c2 : RGBA) :
  SetPixel d x y c1 = Done d1 ->
  SetPixel d1 x y c2 = SetPixel d x y c2.
Proof.
  intros Hset.
  destruct (SetPixel_cases d x y c1) as [H | (line & Hx & Hy & Hline & Hlen & H)];
    rewrite H in Hset; injection Hset as <-; [reflexivity |].
  rewrite (SetPixel_written d x y c2 line Hx Hy Hline Hlen).
  pose proof (lookup_lt_Some _ _ _ Hline) as Hrows.
  rewrite (SetPixel_written _ x y c2 (<[Z.to_nat x := c1]> line) Hx Hy).
  - cbn [buf set_buf]. rewrite !list_insert_insert_eq. reflexivity.
  - cbn [buf set_buf]. now apply list_lookup_insert_eq.
  - now rewrite length_insert.
Qed.

(** X3 on a 2x4 panel: red, then blue, is blue. *)
Lemma SetPixel_last_write_wins_witness :
  SetPixel (after_SetPixel panel_2x4 1 3 (mkRGBA 255 0 0 0)) 1 3
    (mkRGBA 0 0 255 0)
  = SetPixel panel_2x4 1 3 (mkRGBA 0 0 255 0).
Proof.
  apply (SetPixel_last_write_wins panel_2x4 _ 1 3 (mkRGBA 255 0 0 0)).
  vm_compute. reflexivity.
Defined.

End PixelWrites.

(** ** Clearing and reading the framebuffer *)

Section ClearAndRead.

Lemma clear_line (line : list RGBA) :
  map (fun _ : RGBA => mkRGBA 0 0 0 0) line = replicate (length line) black.
Proof. induction line as [| px line IH]; simpl; [reflexivity | now rewrite IH]. Qed.

Lemma clear_by_lengths (b : list (list RGBA)) :
  map (map (fun _ : RGBA => mkRGBA 0 0 0 0)) b
  = map (fun n => replicate n black) (map length b).
Proof.
  rewrite map_map. apply map_ext. intros line. apply clear_line.
Qed.

Lemma pixel_bits_black (n : Z) : pixel_bits black n = (false, false, false).
Proof.
  unfold pixel_bits, black, RGBA_RGBA, widen. cbn [R G B A].
  change (Z.lor 0 (wrap_u32 (Z.shiftl 0 8))) with 0.
  rewrite Z.land_0_l. reflexivity.
Qed.

Lemma rgbBit_pixel (d : Device) (x y n : Z) (px : RGBA) :
  pixel d x y = Some px -> 0 <= n ->
  rgbBit d x y n = Done (pixel_bits px n).
Proof.
  unfold pixel, rgbBit, index. intros Hpx Hn.
  destruct (Z.ltb_spec x 0); [discriminate |].
  destruct (Z.ltb_spec y 0); [discriminate |]. cbn [orb] in Hpx.
  destruct (buf d !! Z.to_nat y) as [line |]; [| discriminate].
  cbn [mbind option_bind] in Hpx. cbn [mbind result_bind].
  rewrite Hpx. cbn [mbind result_bind].
  unfold pixel_bits. destruct (RGBA_RGBA px) as [[[cr cg] cb] ca].
  destruct (Z.ltb_spec n 0); [lia | reflexivity].
Qed.

Lemma pixel_in_range (d : Device) (x y : Z) :
  buf_shape d -> 0 <= x < Width (cfg d) -> 0 <= y < Height (cfg d) ->
  exists px, pixel d x y = Some px.
Proof.
  intros Hshape Hx Hy.
  destruct (buf_shape_line d y Hshape Hy) as (line & Hline & Hlen).
  destruct (lookup_lt_is_Some_2 line (Z.to_nat x)) as [px Hpx]; [lia |].
  exists px. unfold pixel.
  destruct (Z.ltb_spec x 0); [lia |]. destruct (Z.ltb_spec y 0); [lia |].
  cbn [orb]. rewrite Hline. exact Hpx.
Qed.

(** X4.  After [ClearDisplay] every pixel of the framebuffer reads back as
    black on every bitplane: [rgbBit] returns (false, false, false) for
    every in-range coordinate and every bit index [n >= 0]. *)
Theorem ClearDisplay_reads_black (d : Device) (x y n : Z) :
  buf_shape d ->
  0 <= x < Width (cfg d) -> 0 <= y < Height (cfg d) -> 0 <= n ->
  rgbBit (ClearDisplay d) x y n = Done (false, false, false).
Proof.
  intros Hshape Hx Hy Hn.
  destruct (buf_shape_line d y Hshape Hy) as (line & Hline & Hlen).
  rewrite (rgbBit_pixel _ x y n black); [now rewrite pixel_bits_black | | exact Hn].
  unfold pixel, ClearDisplay. cbn [buf set_buf].
  destruct (Z.ltb_spec x 0); [lia |]. destruct (Z.ltb_spec y 0); [lia |].
  cbn [orb].
  change (map (map (fun _ : RGBA => mkRGBA 0 0 0 0)) (buf d))
    with (map (fun _ : RGBA => mkRGBA 0 0 0 0) <$> buf d).
  rewrite list_lookup_fmap, Hline. cbn [fmap option_fmap option_map mbind option_bind].
  rewrite clear_line. apply lookup_replicate_2. lia.
Qed.

(** X4 after a white pixel has been written at (1, 3) of a 2x4 panel. *)
Lemma ClearDisplay_reads_black_witness :
  rgbBit (ClearDisplay (after_SetPixel panel_2x4 1 3 (mkRGBA 255 255 255 255)))
    1 3 7
  = Done (false, false, false).
Proof.
  apply ClearDisplay_reads_black.
  - split; vm_compute; [reflexivity | repeat constructor].
  - vm_compute. split; [discriminate | reflexivity].
  - vm_compute. split; [discriminate | reflexivity].
  - lia.
Defined.

(** X5.  Clearing is idempotent and absorbs pixel writes: clearing twice is
    clearing once, and clearing after any pixel write gives the device that
    clearing alone gives. *)
Theorem ClearDisplay_absorbs (d : Device) :
  ClearDisplay (ClearDisplay d) = ClearDisplay d /\
  forall x y c d', SetPixel d x y c = Done d' -> ClearDisplay d' = ClearDisplay d.
Proof.
  split.
  - unfold ClearDisplay, set_buf. cbn. f_equal.
    rewrite map_map. apply map_ext. intros line. now rewrite map_map.
  - intros x y c d' Hset.
    destruct (SetPixel_cases d x y c) as [H | (line & _ & _ & Hline & _ & H)];
      rewrite H in Hset; injection Hset as <-; [reflexivity |].
    unfold ClearDisplay, set_buf. cbn. f_equal.
    rewrite !clear_by_lengths. apply f_equal. now apply lengths_insert.
Qed.

(** X5 on a 2x4 panel. *)
Lemma ClearDisplay_absorbs_witness :
  ClearDisplay (after_SetPixel panel_2x4 1 3 (mkRGBA 255 255 255 255))
  = ClearDisplay panel_2x4.
Proof.
  apply (proj2 (ClearDisplay_absorbs panel_2x4) 1 3 (mkRGBA 255 255 255 255)).
  vm_compute. reflexivity.
Defined.

Lemma byte_high_bits (c n : Z) : 0 <= c < 2 ^ 8 -> 8 <= n -> Z.testbit c n = false.
Proof.
  intros Hc Hn. rewrite <- (Z.mod_small c (2 ^ 8)) by lia.
  apply Z.mod_pow2_bits_high. lia.
Qed.

Lemma channel_repeated_bit (c n : Z) :
  0 <= c < 2 ^ 8 -> 8 <= n < 16 ->
  negb (0 =? Z.land (widen c) (shl_u32 1 n)) = Z.testbit c (n - 8).
Proof.
  intros Hc Hn. rewrite shl_u32_one by lia.
  rewrite Z.eqb_sym, land_pow2_nonzero by lia.
  unfold widen, wrap_u32.
  rewrite Z.lor_spec, Z.mod_pow2_bits_low, Z.shiftl_spec by lia.
  rewrite byte_high_bits by lia. reflexivity.
Qed.

Lemma channel_dark_bit (c n : Z) :
  0 <= c < 2 ^ 8 -> 16 <= n ->
  negb (0 =? Z.land (widen c) (shl_u32 1 n)) = false.
Proof.
  intros Hc Hn. destruct (Z_lt_le_dec n 32) as [Hlt | Hge].
  - rewrite shl_u32_one by lia.
    rewrite Z.eqb_sym, land_pow2_nonzero by lia.
    unfold widen, wrap_u32.
    rewrite Z.lor_spec, Z.mod_pow2_bits_low, Z.shiftl_spec by lia.
    rewrite !byte_high_bits by lia. reflexivity.
  - unfold shl_u32. destruct (Z.leb_spec 32 n); [| lia].
    now rewrite Z.land_0_r.
Qed.

(** X6.  The bitplanes above the stored byte: for a colour whose channels
    are bytes, written at an in-range coordinate, [rgbBit] at bit index
    [n] in [8, 16) returns bit [n - 8] of each channel again (the 16-bit
    widening of [RGBA] repeats the byte), and at every bit index from 16 on
    it returns (false, false, false). *)
Theorem rgbBit_high_bitplanes (d : Device) (x y n : Z) (c : RGBA) :
  buf_shape d ->
  0 <= x < Width (cfg d) -> 0 <= y < Height (cfg d) ->
  u8_range (R c) -> u8_range (G c) -> u8_range (B c) ->
  exists d',
    SetPixel d x y c = Done d' /\
    (8 <= n < 16 ->
     rgbBit d' x y n
     = Done (Z.testbit (R c) (n - 8), Z.testbit (G c) (n - 8),
             Z.testbit (B c) (n - 8))) /\
    (16 <= n -> rgbBit d' x y n = Done (false, false, false)).
Proof.
  intros Hshape Hx Hy HR HG HB. unfold u8_range in *.
  destruct (SetPixel_inside d x y c Hshape Hx Hy) as (line & Hline & Hlen & Hset).
  eexists. split; [exact Hset |].
  assert (Hpx : pixel (set_buf (<[Z.to_nat y := <[Z.to_nat x := c]> line]> (buf d)) d)
                  x y = Some c).
  { unfold pixel. cbn [buf set_buf].
    destruct (Z.ltb_spec x 0); [lia |]. destruct (Z.ltb_spec y 0); [lia |].
    cbn [orb]. rewrite list_lookup_insert_eq
      by (eapply lookup_lt_Some; exact Hline).
    cbn [mbind option_bind]. apply list_lookup_insert_eq. lia. }
  split; intros Hn; rewrite (rgbBit_pixel _ x y n c Hpx) by lia; f_equal;
    unfold pixel_bits, RGBA_RGBA.
  - now rewrite !channel_repeated_bit by lia.
  - now rewrite !channel_dark_bit by lia.
Qed.

(** X6 on a 2x4 panel: bit 15 repeats bit 7, bit 16 is dark. *)
Lemma rgbBit_high_bitplanes_witness :
  exists d',
    SetPixel panel_2x4 1 3 (mkRGBA 200 100 50 255) = Done d' /\
    rgbBit d' 1 3 15 = Done (true, false, false) /\
    rgbBit d' 1 3 16 = Done (false, false, false).
Proof.
  destruct (rgbBit_high_bitplanes panel_2x4 1 3 15 (mkRGBA 200 100 50 255))
    as (d' & Hset & H15 & _).
  1: split; vm_compute; [reflexivity | repeat constructor].
  1-2: vm_compute; split; [discriminate | reflexivity].
  1-3: unfold u8_range; cbn; lia.
  destruct (rgbBit_high_bitplanes panel_2x4 1 3 16 (mkRGBA 200 100 50 255))
    as (d'' & Hset' & _ & H16).
  1: split; vm_compute; [reflexivity | repeat constructor].
  1-2: vm_compute; split; [discriminate | reflexivity].
  1-3: unfold u8_range; cbn; lia.
  rewrite Hset in Hset'. injection Hset' as <-.
  exists d'. split; [exact Hset |]. split; [apply H15; lia | apply H16; lia].
Defined.

(** X7.  [rgbBit] is unchecked: on a framebuffer of [Height] lines of
    [Width] pixels it faults for every coordinate outside
    [0, Width) x [0, Height) and for every negative bit index. *)
Theorem rgbBit_faults_outside (d : Device) (x y n : Z) :
  buf_shape d ->
  ~ (0 <= x < Width (cfg d) /\ 0 <= y < Height (cfg d)) \/ n < 0 ->
  rgbBit d x y n = Panic.
Proof.
  intros Hshape Hbad. unfold rgbBit, index.
  destruct (Z.ltb_spec y 0); [reflexivity |].
  destruct (buf d !! Z.to_nat y) as [line |] eqn:Hline; [| reflexivity].
  cbn [mbind result_bind].
  destruct (Z.ltb_spec x 0); [reflexivity |].
  destruct (line !! Z.to_nat x) as [px |] eqn:Hpx; [| reflexivity].
  cbn [mbind result_bind].
  destruct (RGBA_RGBA px) as [[[cr cg] cb] ca].
  destruct (Z.ltb_spec n 0); [reflexivity |].
  exfalso. destruct Hbad as [Hout | Hneg]; [apply Hout | lia].
  destruct Hshape as [Hrows Hcols].
  pose proof (lookup_lt_Some _ _ _ Hline).
  pose proof (lookup_lt_Some _ _ _ Hpx).
  rewrite Forall_forall in Hcols.
  pose proof (Hcols line (list_elem_of_lookup_2 _ _ _ Hline)). lia.
Qed.

(** X7 on a 2x4 panel: column 2 does not exist, bit -1 neither. *)
Lemma rgbBit_faults_outside_witness :
  rgbBit panel_2x4 2 0 0 = Panic /\ rgbBit panel_2x4 0 0 (-1) = Panic.
Proof.
  split; apply rgbBit_faults_outside.
  1,3: split; vm_compute; [reflexivity | repeat constructor].
  - left. vm_compute. intros [[_ H] _]. discriminate H.
  - right. lia.
Defined.

Lemma wrap_i16_le (z : Z) : 0 <= z -> wrap_i16 z <= z.
Proof.
  intros Hz. unfold wrap_i16.
  pose proof (Z.mod_le z (2 ^ 16) Hz ltac:(lia)).
  destruct (z mod 2 ^ 16 <? 2 ^ 15); lia.
Qed.

Lemma wrap_i16_id (z : Z) : 0 <= z < 2 ^ 15 -> wrap_i16 z = z.
Proof.
  intros Hz. unfold wrap_i16. rewrite Z.mod_small by lia.
  destruct (Z.ltb_spec z (2 ^ 15)); lia.
Qed.

(** X8.  [Size] never reports more than the framebuffer holds: on a
    framebuffer of [Height] lines of [Width] pixels, every coordinate
    inside the reported size lies inside the framebuffer, so that a write
    there is stored; the reported size is exactly (Width, Height) when both
    fit an [int16], as [SetPixel] needs for its coordinates. *)
Theorem Size_within_framebuffer (d : Device) (x y : Z) (c : RGBA) :
  buf_shape d -> 0 <= Width (cfg d) -> 0 <= Height (cfg d) ->
  (Width (cfg d) < 2 ^ 15 -> Height (cfg d) < 2 ^ 15 ->
   Size d = (Width (cfg d), Height (cfg d))) /\
  (0 <= x < fst (Size d) -> 0 <= y < snd (Size d) ->
   0 <= x < Width (cfg d) /\ 0 <= y < Height (cfg d) /\
   pixel (after_SetPixel d x y c) x y = Some c).
Proof.
  intros Hshape HW HH. split.
  - intros Hw Hh. unfold Size. now rewrite !wrap_i16_id by lia.
  - unfold Size. cbn [fst snd]. intros Hx Hy.
    pose proof (wrap_i16_le _ HW). pose proof (wrap_i16_le _ HH).
    assert (Hx' : 0 <= x < Width (cfg d)) by lia.
    assert (Hy' : 0 <= y < Height (cfg d)) by lia.
    split; [exact Hx' |]. split; [exact Hy' |].
    destruct (SetPixel_inside d x y c Hshape Hx' Hy')
      as (line & Hline & Hlen & Hset).
    unfold after_SetPixel. rewrite Hset. unfold pixel. cbn [buf set_buf].
    destruct (Z.ltb_spec x 0); [lia |]. destruct (Z.ltb_spec y 0); [lia |].
    cbn [orb]. rewrite list_lookup_insert_eq
      by (eapply lookup_lt_Some; exact Hline).
    cbn [mbind option_bind]. apply list_lookup_insert_eq. lia.
Qed.

(** X8 on the 64x32 panel. *)
Lemma Size_within_framebuffer_witness :
  Size panel_64x32 = (64, 32) /\
  pixel (after_SetPixel panel_64x32 63 31 (mkRGBA 1 2 3 4)) 63 31
  = Some (mkRGBA 1 2 3 4).
Proof.
  destruct (Size_within_framebuffer panel_64x32 63 31 (mkRGBA 1 2 3 4))
    as (Hsize & Hin).
  - split; vm_compute; [reflexivity | repeat constructor].
  - vm_compute. discriminate.
  - vm_compute. discriminate.
  - split.
    + apply Hsize; vm_compute; reflexivity.
    + apply Hin; vm_compute; split; (discriminate || reflexivity).
Defined.

End ClearAndRead.

(** ** The interrupt and the application *)

Section Activities.

Lemma handleRow_state (d d1 : Device) (ev : list Event) :
  handleRow d = Done (d1, ev) ->
  d1 = increment (fst (selectRow d (yUp (pos d)))).
Proof.
  unfold handleRow.
  destruct (selectRow d (yUp (pos d))) as [ds ev_row]. cbn [fst].
  destruct (shiftColumns (increment ds) _); cbn [mbind result_bind];
    [| discriminate].
  now intros [= <- _].
Qed.

(** X9.  Redundant address writes are skipped: a second [selectRow] of the
    same row changes nothing and touches no address line, whatever the
    first one did. *)
Theorem selectRow_idempotent (d : Device) (r : Z) :
  selectRow (fst (selectRow d r)) r = (fst (selectRow d r), []).
Proof.
  unfold selectRow at 2 3.
  destruct (Height (cfg d) <=? r) eqn:Hh; cbn [fst].
  { unfold selectRow. now rewrite Hh. }
  set (n := if numAddrRows (cfg d) <=? r
            then wrap_int (r - numAddrRows (cfg d)) else r).
  destruct (n =? yPr (pos d)) eqn:Hn; cbn [fst].
  { unfold selectRow. rewrite Hh. fold n. now rewrite Hn. }
  assert (Hd : fst (if oneAddrPort (cfg (set_pos (set_yPr n (pos d)) d))
                    then (set_pos (set_yPr n (pos d)) d, [EvSetRow n])
                    else (set_pos (set_yPr n (pos d)) d,
                          imap (fun i p =>
                                  EvPinSet p
                                    (negb (Z.land n (shl_int 1 (Z.of_nat i)) =? 0)))
                            (row (set_pos (set_yPr n (pos d)) d))))
               = set_pos (set_yPr n (pos d)) d)
    by (destruct (oneAddrPort _); reflexivity).
  rewrite Hd. unfold selectRow. cbn [cfg set_pos pos set_yPr yPr].
  rewrite Hh. fold n. now rewrite Z.eqb_refl.
Qed.

(** X10.  The row address is written once per row pair.  After an interrupt
    entered inside a frame, [yPr] is the upper row of the state the
    interrupt was entered with; the next interrupt therefore writes the
    address lines exactly when the upper row has changed, and writes
    nothing while the bitplanes of one row pair follow each other. *)
Theorem handleRow_address_on_row_change (d : Device) :
  configured d -> scan_inv32 d ->
  exists d1 ev,
    handleRow d = Done (d1, ev) /\
    yPr (pos d1) = yUp (pos d) /\
    snd (selectRow d1 (yUp (pos d1)))
    = (if yUp (pos d1) =? yUp (pos d) then []
       else address_writes d1 (yUp (pos d1))) /\
    (bit (pos d) + 1 < ColorDepth (cfg d) ->
     snd (selectRow d1 (yUp (pos d1))) = []).
Proof.
  intros Hconf Hinv.
  pose proof (configured_typed d Hconf) as Htyped.
  pose proof (increment_inv32 d Htyped Hinv) as Hinv1.
  pose proof (increment_in_frame d Htyped Hinv) as Hpos1.
  destruct (handleRow_Done d Hconf Hinv1)
    as (d1 & ev & Hrow & _ & Hcfg & _ & _ & Hup & _).
  exists d1, ev. split; [exact Hrow |].
  pose proof (typed_rows_bound _ Htyped) as Hrows.
  destruct Hinv as (Iup & _ & Ibit & _). specialize (Hrows ltac:(lia)).
  assert (Hnorm : normalized_row d (yUp (pos d)) = yUp (pos d)).
  { unfold normalized_row.
    destruct (Z.leb_spec (numAddrRows (cfg d)) (yUp (pos d))); lia. }
  assert (Hpr : yPr (pos d1) = yUp (pos d)).
  { rewrite (handleRow_state d d1 ev Hrow), increment_yPr.
    rewrite selectRow_eq by (unfold int_range; lia). rewrite Hnorm.
    destruct (Z.eqb_spec (yUp (pos d)) (yPr (pos d))) as [E | E];
      cbn [fst]; [now rewrite E | reflexivity]. }
  destruct Hinv1 as (Jup & _). rewrite <- Hup in Jup.
  destruct (increment_frame_data d) as (Icfg & _). rewrite Icfg in Jup.
  assert (Hnorm1 : normalized_row d1 (yUp (pos d1)) = yUp (pos d1)).
  { unfold normalized_row. rewrite Hcfg.
    destruct (Z.leb_spec (numAddrRows (cfg d)) (yUp (pos d1))); lia. }
  assert (Hsel : snd (selectRow d1 (yUp (pos d1)))
                 = (if yUp (pos d1) =? yUp (pos d) then []
                    else address_writes d1 (yUp (pos d1)))).
  { rewrite selectRow_eq by (rewrite ?Hcfg; unfold int_range; lia).
    rewrite Hnorm1, Hpr.
    destruct (yUp (pos d1) =? yUp (pos d)); reflexivity. }
  split; [exact Hpr |]. split; [exact Hsel |].
  intros Hk. rewrite Hsel, Hup, Hpos1.
  destruct (Z.ltb_spec (bit (pos d) + 1) (ColorDepth (cfg d))); [| lia].
  cbn [yUp]. now rewrite Z.eqb_refl.
Qed.

(** X10 on a 2x4 panel after its first interrupt (row pair 0, bitplane 0). *)
Lemma handleRow_address_on_row_change_witness :
  exists d1 ev,
    handleRow (after_run 1 panel_2x4) = Done (d1, ev) /\
    yPr (pos d1) = 0 /\
    snd (selectRow d1 (yUp (pos d1))) = [].
Proof.
  destruct (handleRow_address_on_row_change (after_run 1 panel_2x4))
    as (d1 & ev & H1 & H2 & _ & H4).
  - constructor.
    + vm_compute. split; [discriminate | reflexivity].
    + reflexivity.
    + vm_compute. split; discriminate.
    + split; vm_compute; [reflexivity | repeat constructor].
  - unfold scan_inv32. vm_compute.
    repeat split; (discriminate || reflexivity).
  - exists d1, ev. split; [exact H1 |]. split; [exact H2 |].
    apply H4. vm_compute. reflexivity.
Defined.

Lemma perform1_keeps (a : Activity) (d : Device) :
  configured d -> scan_inv32 d \/ rolls_over d ->
  exists d1,
    perform1 a d = Done d1 /\ configured d1 /\
    (scan_inv32 d1 \/ rolls_over d1) /\ cfg d1 = cfg d.
Proof.
  intros Hconf Hstate. destruct a as [| x y c | | elapsed |]; cbn [perform1].
  - assert (Hinv1 : scan_inv32 (increment d))
      by (destruct Hstate as [Hinv | Hroll];
          [apply increment_inv32; [apply configured_typed |]; assumption
          | apply rolls_over_inv32; assumption]).
    destruct (handleRow_Done d Hconf Hinv1)
      as (d1 & ev & Hrow & _ & Hcfg & Hbuf & _ & Hup & Hlo & Hbit & Hcyc).
    exists d1. rewrite Hrow. cbn [mbind result_bind].
    split; [reflexivity |].
    split; [exact (configured_step d d1 Hconf Hcfg Hbuf) |].
    split; [| exact Hcfg]. left.
    destruct (increment_frame_data d) as (Icfg & _).
    unfold scan_inv32 in *. rewrite Hup, Hlo, Hbit, Hcyc, Hcfg.
    rewrite Icfg in Hinv1. exact Hinv1.
  - destruct (SetPixel_cases d x y c) as [H | (line & _ & _ & _ & _ & H)];
      rewrite H; eexists; (split; [reflexivity |]).
    + auto.
    + destruct (SetPixel_shape d _ x y c (conf_shape d Hconf) H)
        as (Hshape & Hcfg & Hpos).
      destruct Hconf as [Hh Hr Hd _].
      split; [constructor; rewrite ?Hcfg; assumption |].
      split; [| exact Hcfg].
      unfold scan_inv32, rolls_over in *. rewrite Hcfg, Hpos. exact Hstate.
  - eexists. split; [reflexivity |].
    destruct Hconf as [Hh Hr Hd Hshape].
    split; [constructor; try assumption; now apply ClearDisplay_shape |].
    split; [exact Hstate | reflexivity].
  - eexists. split; [reflexivity |].
    destruct Hconf as [Hh Hr Hd Hshape].
    split; [constructor; assumption |]. split; [exact Hstate | reflexivity].
  - eexists. split; [reflexivity |]. auto.
Qed.

(** X11.  The engine never faults once configured.  From a freshly
    configured device with at least one row pair (or from any state inside
    a frame), every sequence of timer interrupts and application calls
    ([SetPixel] with any coordinates, [ClearDisplay], [Pause], [Resume])
    runs to the end: no interrupt indexes the framebuffer out of range, the
    configuration stays as it is and the scan state stays inside a frame. *)
Theorem activity_never_faults (acts : list Activity) :
  forall d : Device,
    configured d -> scan_inv32 d \/ rolls_over d ->
    exists d',
      perform acts d = Done d' /\ configured d' /\
      (scan_inv32 d' \/ rolls_over d') /\ cfg d' = cfg d.
Proof.
  induction acts as [| a acts IH]; intros d Hconf Hstate.
  - exists d. auto.
  - destruct (perform1_keeps a d Hconf Hstate) as (d1 & H1 & Hconf1 & Hst1 & Hcfg1).
    destruct (IH d1 Hconf1 Hst1) as (d' & H' & Hconf' & Hst' & Hcfg').
    exists d'. cbn [perform]. rewrite H1. cbn [mbind result_bind].
    split; [exact H' |]. split; [exact Hconf' |]. split; [exact Hst' |].
    congruence.
Qed.

(** X11 on a freshly configured 2x4 panel. *)
Lemma activity_never_faults_witness :
  exists d',
    perform [DoInterrupt; DoSetPixel 5 (-1) (mkRGBA 1 2 3 4); DoInterrupt;
             DoSetPixel 1 3 (mkRGBA 255 0 0 0); DoPause 7; DoResume;
             DoInterrupt; DoClearDisplay; DoInterrupt; DoInterrupt]
      panel_2x4 = Done d' /\
    cfg d' = cfg panel_2x4.
Proof.
  destruct (activity_never_faults
              [DoInterrupt; DoSetPixel 5 (-1) (mkRGBA 1 2 3 4); DoInterrupt;
               DoSetPixel 1 3 (mkRGBA 255 0 0 0); DoPause 7; DoResume;
               DoInterrupt; DoClearDisplay; DoInterrupt; DoInterrupt]
              panel_2x4)
    as (d' & H & _ & _ & Hcfg).
  - constructor.
    + vm_compute. split; [discriminate | reflexivity].
    + reflexivity.
    + vm_compute. split; discriminate.
    + split; vm_compute; [reflexivity | repeat constructor].
  - right. unfold rolls_over. vm_compute. split; discriminate.
  - exists d'. split; assumption.
Defined.

Lemma shiftColumns_slots (d : Device) (xs : list Z) :
  0 <= bit (pos d) ->
  Forall (fun x => is_Some (pixel d x (yUp (pos d))) /\
                   is_Some (pixel d x (yLo (pos d)))) xs ->
  shiftColumns d xs
  = Done (flat_map (fun x =>
                      column_events d
                        (slot_bits d x (yUp (pos d)) (bit (pos d)))
                        (slot_bits d x (yLo (pos d)) (bit (pos d)))) xs).
Proof.
  intros Hbit Hxs. induction Hxs as [| x xs [[p1 H1] [p2 H2]] _ IH];
    [reflexivity |].
  cbn [shiftColumns flat_map]. rewrite IH. unfold shiftColumn.
  rewrite (rgbBit_pixel d x _ _ p1 H1 Hbit), (rgbBit_pixel d x _ _ p2 H2 Hbit).
  unfold slot_bits. rewrite H1, H2.
  change (default black (Some p1)) with p1.
  change (default black (Some p2)) with p2.
  destruct (pixel_bits p1 (bit (pos d))) as [[r1 g1] b1].
  destruct (pixel_bits p2 (bit (pos d))) as [[r2 g2] b2].
  cbn [mbind result_bind column_events].
  destruct (clkDataPort (cfg d)); reflexivity.
Qed.

(** X12.  What one interrupt shifts out.  On a configured device, inside a
    frame or at its boundary, the interrupt returns without touching the
    framebuffer, and after the timer, latch and address accesses it
    serves the columns 0 .. Width-1 in order: for each column the bits of
    the pixels of the new upper and lower row at the new bitplane, as one
    [ClkRgb] access when data and clock share a port, and otherwise as
    [SetRgb], a clock pulse and [SetRgbMask 0]. *)
Theorem handleRow_shift_out (d : Device) :
  configured d -> scan_inv32 d \/ rolls_over d ->
  exists d1 ev,
    handleRow d = Done (d1, ev) /\
    buf d1 = buf d /\
    yLo (pos d1) = yUp (pos d1) + numAddrRows (cfg d) /\
    ev = [EvPauseTimer; EvResumeTimer 0 (cyc (pos d));
          EvPinSet (oen d) true; EvPinSet (lat d) true]
         ++ snd (selectRow d (yUp (pos d)))
         ++ [EvPinSet (lat d) false; EvPinSet (oen d) false]
         ++ flat_map (fun x =>
                        column_events d1
                          (slot_bits d1 x (yUp (pos d1)) (bit (pos d1)))
                          (slot_bits d1 x (yLo (pos d1)) (bit (pos d1))))
              (seqZ 0 (Width (cfg d))).
Proof.
  intros Hconf Hstate.
  assert (Hinv1 : scan_inv32 (increment d))
    by (destruct Hstate as [Hinv | Hroll];
        [apply increment_inv32; [apply configured_typed |]; assumption
        | apply rolls_over_inv32; assumption]).
  destruct (handleRow_Done d Hconf Hinv1)
    as (d1 & ev & Hrow & _ & Hcfg & Hbuf & _ & Hup & Hlo & Hbit & _).
  exists d1, ev. split; [exact Hrow |]. split; [exact Hbuf |].
  destruct (increment_frame_data d) as (Icfg & _).
  destruct Hinv1 as (Jup & Jlo & Jbit & _).
  rewrite Icfg in Jup, Jlo, Jbit.
  rewrite <- Hup in Jup, Jlo. rewrite <- Hlo in Jlo. rewrite <- Hbit in Jbit.
  split; [exact Jlo |].
  destruct (handleRow_sequence d d1 ev Hrow) as (data & Hev & Hdata).
  rewrite Hev. do 3 f_equal.
  pose proof (typed_rows_bound _ (configured_typed d Hconf) ltac:(lia)) as Hrows.
  pose proof (configured_step d d1 Hconf Hcfg Hbuf) as Hconf1.
  rewrite shiftColumns_slots in Hdata.
  - rewrite Hcfg in Hdata. now injection Hdata as <-.
  - lia.
  - apply Forall_forall. intros x Hx. apply elem_of_seqZ in Hx.
    rewrite Hcfg in Hx.
    split; apply (pixel_in_range d1 x); try apply (conf_shape d1 Hconf1);
      rewrite Hcfg; lia.
Qed.

(** X12 on a freshly configured 2x4 panel (two columns, fast path). *)
Lemma handleRow_shift_out_witness :
  exists d1 ev,
    handleRow panel_2x4 = Done (d1, ev) /\
    ev = [EvPauseTimer; EvResumeTimer 0 2000; EvPinSet 1 true; EvPinSet 2 true;
          EvSetRow 0; EvPinSet 2 false; EvPinSet 1 false;
          EvClkRgb false false false false false false;
          EvClkRgb false false false false false false].
Proof.
  destruct (handleRow_shift_out panel_2x4) as (d1 & ev & H1 & Hbuf & _ & Hev).
  - constructor.
    + vm_compute. split; [discriminate | reflexivity].
    + reflexivity.
    + vm_compute. split; discriminate.
    + split; vm_compute; [reflexivity | repeat constructor].
  - right. unfold rolls_over. vm_compute. split; discriminate.
  - exists d1, ev. split; [exact H1 |]. rewrite Hev.
    assert (Hd1 : d1 = after_run 1 panel_2x4).
    { unfold after_run. cbn [run]. rewrite H1. reflexivity. }
    rewrite Hd1. vm_compute. reflexivity.
Defined.

(** X13.  [Resume] programs the period of the scan position as it is now.
    An interrupt entered at bitplane [k] of a frame programs the period of
    bitplane [k] as the [uint32] field holds it, [bitPeriod * 2^k] modulo
    2^32 (which is [bitPeriod * 2^k] for [k < 22]), and then advances the
    scan state; a [Pause] and [Resume] before the next interrupt restart the
    timer at the paused count, with the period of the position after the
    advance (that of bitplane [k+1] while the row pair lasts), and leave the
    scan state and the framebuffer as they are. *)
Theorem Pause_Resume_period (d : Device) (elapsed : Z) :
  configured d -> scan_inv32 d ->
  exists d1 ev,
    handleRow d = Done (d1, ev) /\
    timer_period ev = Some (bcm_period (bit (pos d))) /\
    snd (Pause d1 elapsed) = [EvPauseTimer] /\
    Resume (fst (Pause d1 elapsed))
    = (fst (Pause d1 elapsed),
       [EvResumeTimer elapsed (bcm_period (bit (pos d1)))]) /\
    pos (fst (Pause d1 elapsed)) = pos d1 /\
    buf (fst (Pause d1 elapsed)) = buf d1 /\
    (bit (pos d) + 1 < ColorDepth (cfg d) ->
     bit (pos d1) = bit (pos d) + 1) /\
    bcm_period (bit (pos d)) = bitPeriod * 2 ^ bit (pos d) mod 2 ^ 32 /\
    (bit (pos d) < 22 ->
     bcm_period (bit (pos d)) = bitPeriod * 2 ^ bit (pos d)).
Proof.
  intros Hconf Hinv.
  pose proof (configured_typed d Hconf) as Htyped.
  pose proof (increment_inv32 d Htyped Hinv) as Hinv1.
  pose proof (increment_in_frame d Htyped Hinv) as Hpos1.
  destruct (handleRow_Done d Hconf Hinv1)
    as (d1 & ev & Hrow & Htp & _ & _ & _ & _ & _ & Hbit & Hcyc).
  exists d1, ev. split; [exact Hrow |].
  destruct Hinv as (_ & _ & Ibit & Icyc).
  split; [rewrite Htp, Icyc; reflexivity |].
  split; [reflexivity |].
  destruct Hinv1 as (_ & _ & _ & Jcyc).
  split.
  { unfold Resume, Pause. cbn [fst val set_val pos].
    rewrite Hcyc, Jcyc, <- Hbit. reflexivity. }
  split; [reflexivity |]. split; [reflexivity |].
  split.
  { intros Hk. rewrite Hbit, Hpos1.
    destruct (Z.ltb_spec (bit (pos d) + 1) (ColorDepth (cfg d))); [| lia].
    reflexivity. }
  split; [reflexivity |].
  intros Hk. unfold bcm_period. apply period_exact. lia.
Qed.

(** X13 on a 2x4 panel: the interrupt programs 2000 ticks for bitplane 0, a
    pause at count 500 resumes with the 4000 ticks of bitplane 1. *)
Lemma Pause_Resume_period_witness :
  exists d1 ev,
    handleRow (after_run 1 panel_2x4) = Done (d1, ev) /\
    timer_period ev = Some 2000 /\
    snd (Resume (fst (Pause d1 500))) = [EvResumeTimer 500 4000].
Proof.
  destruct (Pause_Resume_period (after_run 1 panel_2x4) 500)
    as (d1 & ev & H1 & H2 & _ & H4 & _ & _ & H7 & _).
  - constructor.
    + vm_compute. split; [discriminate | reflexivity].
    + reflexivity.
    + vm_compute. split; discriminate.
    + split; vm_compute; [reflexivity | repeat constructor].
  - unfold scan_inv32. vm_compute.
    repeat split; (discriminate || reflexivity).
  - exists d1, ev. split; [exact H1 |]. split; [exact H2 |].
    rewrite H4. cbn [snd]. rewrite H7 by (vm_compute; reflexivity).
    reflexivity.
Defined.

End Activities.

(** ** More on configuration *)

Section Reconfiguration.




(** X15.  A successful [Configure] forgets everything but the wiring.  Two
    devices with the same pins, hub, timer position and height limit are
    configured to the same device with the same hardware accesses, whatever
    their framebuffers, scan states and previous settings were; the
    wiring itself is kept, so that configuring the result once more with
    the same configuration gives the same device again. *)
Theorem Configure_forgets_state
    (d e : Device) (c : Config) (d' : Device) (ev : list Event) :
  same_wiring d e ->
  Configure d c = Done (d', None, ev) ->
  Configure e c = Done (d', None, ev) /\
  same_wiring d d' /\
  Configure d' c = Done (d', None, ev).
Proof.
  assert (Hsame : forall a b : Device,
             same_wiring a b ->
             Configure a c = Done (d', None, ev) ->
             Configure b c = Done (d', None, ev)).
  { intros [ca ha oa la ka ra wa ba pa va] [cb hb ob lb kb rb wb bb pb vb].
    unfold same_wiring. cbn [cfg hub oen lat clk rgb row val].
    intros (<- & <- & <- & <- & <- & <- & <- & Hmax).
    rewrite !Configure_eq.
    unfold chosen_config, chosen_Height, rgb_pins.
    cbn [cfg hub oen lat clk rgb row val buf pos]. rewrite <- Hmax.
    destruct (negb (Height c =? 0) && (maxHeight ca <? Height c));
      [discriminate |].
    destruct (negb (fst (GetPinGroupAlignment ha _)) || _); [discriminate |].
    cbv zeta. destruct (rows ← make [] _ _; makeRows rows _) as [b |];
      cbn [mbind result_bind]; [| discriminate].
    intros H. exact H. }
  assert (Hkeep : forall a : Device,
             Configure a c = Done (d', None, ev) -> same_wiring a d').
  { intros a. rewrite Configure_eq.
    destruct (negb (Height c =? 0) && (maxHeight (cfg a) <? Height c));
      [discriminate |].
    destruct (negb (fst (GetPinGroupAlignment (hub a) _)) || _);
      [discriminate |].
    cbv zeta. destruct (rows ← make [] _ _; makeRows rows _) as [b |];
      cbn [mbind result_bind]; [| discriminate].
    intros [= <- _]. unfold same_wiring. cbn. tauto. }
  intros Hde Hd. split; [exact (Hsame d e Hde Hd) |].
  split; [exact (Hkeep d Hd) |].
  exact (Hsame d d' (Hkeep d Hd) Hd).
Qed.

(** X15: configuring the 2x4 panel again after a pixel write and three
    interrupts gives the freshly configured panel. *)
Lemma Configure_forgets_state_witness :
  after_Configure
    (after_run 3 (after_SetPixel panel_2x4 1 3 (mkRGBA 255 0 0 0)))
    (user_config 2 4 2)
  = panel_2x4.
Proof.
  assert (Hconf : exists ev, Configure (board hub_aligned) (user_config 2 4 2)
                             = Done (panel_2x4, None, ev))
    by (eexists; vm_compute; reflexivity).
  destruct Hconf as [ev Hconf].
  destruct (Configure_forgets_state (board hub_aligned)
              (after_run 3 (after_SetPixel panel_2x4 1 3 (mkRGBA 255 0 0 0)))
              (user_config 2 4 2) panel_2x4 ev)
    as (H & _).
  - unfold same_wiring. vm_compute. repeat split.
  - exact Hconf.
  - unfold after_Configure at 1. rewrite H. reflexivity.
Defined.

End Reconfiguration.

(** ** Order of pixel writes *)

Section WriteOrder.

Lemma SetPixel_skipped (d : Device) (x y : Z) (c : RGBA) :
  (forall line, 0 <= x -> 0 <= y -> buf d !! Z.to_nat y = Some line ->
                (length line <= Z.to_nat x)%nat) ->
  SetPixel d x y c = Done d.
Proof.
  intros Hskip.
  destruct (SetPixel_cases d x y c) as [H | (line & Hx & Hy & Hline & Hlen & _)];
    [exact H |].
  specialize (Hskip line Hx Hy Hline). lia.
Qed.

Lemma SetPixel_dec (d : Device) (x y : Z) :
  (exists line, 0 <= x /\ 0 <= y /\ buf d !! Z.to_nat y = Some line /\
                (Z.to_nat x < length line)%nat) \/
  (forall line, 0 <= x -> 0 <= y -> buf d !! Z.to_nat y = Some line ->
                (length line <= Z.to_nat x)%nat).
Proof.
  destruct (Z_lt_le_dec x 0); [right; intros; lia |].
  destruct (Z_lt_le_dec y 0); [right; intros; lia |].
  destruct (buf d !! Z.to_nat y) as [line |] eqn:Hline;
    [| right; intros; discriminate].
  destruct (le_lt_dec (length line) (Z.to_nat x)).
  - right. intros line' _ _ [= <-]. assumption.
  - left. exists line. auto.
Qed.

Lemma SetPixel_then_skipped (d d1 : Device) (x1 y1 x2 y2 : Z) (c1 c2 : RGBA) :
  SetPixel d x1 y1 c1 = Done d1 ->
  (forall line, 0 <= x2 -> 0 <= y2 -> buf d !! Z.to_nat y2 = Some line ->
                (length line <= Z.to_nat x2)%nat) ->
  SetPixel d1 x2 y2 c2 = Done d1.
Proof.
  intros Hset Hskip.
  destruct (SetPixel_cases d x1 y1 c1)
    as [H | (l1 & Hx & Hy & Hl1 & Hlen & H)];
    rewrite H in Hset; injection Hset as <-;
    [now apply SetPixel_skipped |].
  apply SetPixel_skipped. cbn [buf set_buf]. intros line Hx2 Hy2 Hline.
  destruct (Nat.eq_dec (Z.to_nat y2) (Z.to_nat y1)) as [E | E].
  - rewrite E, list_lookup_insert_eq in Hline
      by (eapply lookup_lt_Some; exact Hl1).
    injection Hline as <-. rewrite length_insert.
    apply (Hskip l1 Hx2 Hy2). now rewrite E.
  - rewrite list_lookup_insert_ne in Hline by congruence.
    now apply Hskip.
Qed.

(** X16.  Writes to different pixels commute: two pixel writes to distinct
    coordinates leave the same device in either order, in range or not. *)
Theorem SetPixel_commutes (d : Device) (x1 y1 x2 y2 : Z) (c1 c2 : RGBA) :
  (x1, y1) <> (x2, y2) ->
  (d1 ← SetPixel d x1 y1 c1; SetPixel d1 x2 y2 c2)
  = (d2 ← SetPixel d x2 y2 c2; SetPixel d2 x1 y1 c1).
Proof.
  intros Hne.
  destruct (SetPixel_dec d x1 y1) as [(l1 & Hx1 & Hy1 & Hl1 & Hn1) | Hs1];
    destruct (SetPixel_dec d x2 y2) as [(l2 & Hx2 & Hy2 & Hl2 & Hn2) | Hs2].
  - rewrite (SetPixel_written d x1 y1 c1 l1), (SetPixel_written d x2 y2 c2 l2)
      by assumption.
    cbn [mbind result_bind].
    pose proof (lookup_lt_Some _ _ _ Hl1). pose proof (lookup_lt_Some _ _ _ Hl2).
    destruct (Nat.eq_dec (Z.to_nat y1) (Z.to_nat y2)) as [E | E].
    + assert (l2 = l1) by congruence. subst l2.
      assert (Hxx : Z.to_nat x1 <> Z.to_nat x2)
        by (intros Hxx; apply Hne; f_equal; lia).
      rewrite (SetPixel_written _ x2 y2 c2 (<[Z.to_nat x1 := c1]> l1)),
        (SetPixel_written _ x1 y1 c1 (<[Z.to_nat x2 := c2]> l1));
        try assumption; cbn [buf set_buf];
        rewrite ?length_insert; try assumption.
      * rewrite E, !list_insert_insert_eq.
        rewrite (list_insert_insert_ne l1) by (symmetry; exact Hxx). reflexivity.
      * rewrite E. now apply list_lookup_insert_eq.
      * rewrite <- E. apply list_lookup_insert_eq. lia.
    + rewrite (SetPixel_written _ x2 y2 c2 l2), (SetPixel_written _ x1 y1 c1 l1);
        try assumption; cbn [buf set_buf].
      * rewrite (list_insert_insert_ne (buf d)) by (symmetry; exact E). reflexivity.
      * rewrite list_lookup_insert_ne by congruence. exact Hl1.
      * rewrite list_lookup_insert_ne by congruence. exact Hl2.
  - rewrite (SetPixel_skipped d x2 y2 c2 Hs2).
    rewrite (SetPixel_written d x1 y1 c1 l1) by assumption.
    cbn [mbind result_bind].
    rewrite (SetPixel_written d x1 y1 c1 l1) by assumption.
    eapply SetPixel_then_skipped; [| exact Hs2].
    now apply SetPixel_written.
  - rewrite (SetPixel_skipped d x1 y1 c1 Hs1).
    rewrite (SetPixel_written d x2 y2 c2 l2) by assumption.
    cbn [mbind result_bind].
    rewrite (SetPixel_written d x2 y2 c2 l2) by assumption.
    symmetry. eapply SetPixel_then_skipped; [| exact Hs1].
    now apply SetPixel_written.
  - rewrite (SetPixel_skipped d x1 y1 c1 Hs1), (SetPixel_skipped d x2 y2 c2 Hs2).
    cbn [mbind result_bind].
    now rewrite (SetPixel_skipped d x1 y1 c1 Hs1), (SetPixel_skipped d x2 y2 c2 Hs2).
Qed.

(** X16 on a 2x4 panel, for two pixels of one line. *)
Lemma SetPixel_commutes_witness :
  SetPixel (after_SetPixel panel_2x4 0 3 (mkRGBA 255 0 0 0)) 1 3
    (mkRGBA 0 0 255 0)
  = SetPixel (after_SetPixel panel_2x4 1 3 (mkRGBA 0 0 255 0)) 0 3
      (mkRGBA 255 0 0 0).
Proof.
  exact (SetPixel_commutes panel_2x4 0 3 1 3 (mkRGBA 255 0 0 0)
           (mkRGBA 0 0 255 0) ltac:(discriminate)).
Defined.

End WriteOrder.

(** * The SPI transport of the flash driver *)

Section FlashTransport.

Import Flash.

Context {Bus E : Type}.
Variable Transfer : Bus -> Z -> Bus * Z * option E.
Variables cmdRead cmdPageProgram : Z.

Lemma address_byte (addr k : Z) :
  0 <= k -> Z.land (Z.shiftr addr k) 255 = addr / 2 ^ k mod 2 ^ 8.
Proof.
  intros Hk. rewrite Z.shiftr_div_pow2 by assumption.
  change 255 with (Z.ones 8). now rewrite Z.land_ones.
Qed.

Lemma exchange_app (ws1 ws2 : list Z) :
  forall s,
    exchange Transfer s (ws1 ++ ws2)
    = let '(s1, sent1, got1, err1) := exchange Transfer s ws1 in
      match err1 with
      | Some _ => (s1, sent1, got1, err1)
      | None =>
          let '(s2, sent2, got2, err2) := exchange Transfer s1 ws2 in
          (s2, sent1 ++ sent2, got1 ++ got2, err2)
      end.
Proof.
  induction ws1 as [| w ws1 IH]; intros s; cbn [exchange app].
  - now destruct (exchange Transfer s ws2) as [[[s2 sent2] got2] err2].
  - destruct (Transfer s w) as [[s1 r] [e |]]; [reflexivity |].
    rewrite IH.
    destruct (exchange Transfer s1 ws1) as [[[s2 sent1] got1] [e1 |]];
      [reflexivity |].
    now destruct (exchange Transfer s2 ws2) as [[[s3 sent2] got2] err2].
Qed.

(** The bytes sent are the bytes offered, up to the first failure; each of
    them was answered; without an error all of them were sent. *)
Lemma exchange_sent (ws : list Z) :
  forall s s' sent got err,
    exchange Transfer s ws = (s', sent, got, err) ->
    sent `prefix_of` ws /\ length got = length sent /\
    (err = None -> sent = ws).
Proof.
  induction ws as [| w ws IH]; intros s s' sent got err; cbn [exchange].
  - intros [= <- <- <- <-]. repeat split; reflexivity.
  - destruct (Transfer s w) as [[s1 r] [e |]].
    + intros [= <- <- <- <-]. repeat split; [| discriminate].
      exists ws. reflexivity.
    + destruct (exchange Transfer s1 ws) as [[[s2 sent2] got2] err2] eqn:Hx.
      intros [= <- <- <- <-].
      destruct (IH _ _ _ _ _ Hx) as (Hpre & Hlen & Hall).
      repeat split.
      * now apply prefix_cons.
      * cbn [length]. now rewrite Hlen.
      * intros Herr. now rewrite (Hall Herr).
Qed.

Lemma send4_exchange (w0 w1 w2 w3 : Z) (s : Bus) :
  ('(_, err) ← spi_Transfer Transfer w0;
   err ← transfer_if_nil Transfer err w1;
   err ← transfer_if_nil Transfer err w2;
   err ← transfer_if_nil Transfer err w3;
   mret err) s
  = let '(s', sent, _, err) := exchange Transfer s [w0; w1; w2; w3] in
    (err, s', map BusTransfer sent).
Proof.
  unfold transfer_if_nil, spi_Transfer, mbind, io_bind, mret, io_ret.
  cbn [exchange].
  destruct (Transfer s w0) as [[s0 r0] [e0 |]]; [reflexivity |].
  destruct (Transfer s0 w1) as [[s1 r1] [e1 |]]; [reflexivity |].
  destruct (Transfer s1 w2) as [[s2 r2] [e2 |]]; [reflexivity |].
  destruct (Transfer s2 w3) as [[s3 r3] [e3 |]]; reflexivity.
Qed.

Lemma sendAddress_exchange (cmd addr : Z) (s : Bus) :
  sendAddress Transfer cmd addr s
  = let '(s', sent, _, err) :=
      exchange Transfer s (cmd :: address_bytes addr) in
    (err, s', map BusTransfer sent).
Proof.
  unfold sendAddress, address_bytes.
  rewrite !address_byte by lia.
  replace (Z.land addr 255) with (addr mod 2 ^ 8)
    by (change 255 with (Z.ones 8); now rewrite Z.land_ones).
  apply send4_exchange.
Qed.

Lemma writeFrom_loop_failed (n i : nat) (data : list Z) (e : E) (s : Bus) :
  writeFrom_loop Transfer n i data (Some e) s = (Some e, s, []).
Proof. destruct n; cbn; [| destruct (data !! i)]; reflexivity. Qed.

Lemma writeFrom_loop_exchange (n : nat) :
  forall (i : nat) (data : list Z) (s : Bus),
    (length data <= n + i)%nat ->
    writeFrom_loop Transfer n i data None s
    = let '(s', sent, _, err) := exchange Transfer s (drop i data) in
      (err, s', map BusTransfer sent).
Proof.
  induction n as [| n IH]; intros i data s Hlen.
  - rewrite drop_ge by lia. reflexivity.
  - cbn [writeFrom_loop].
    destruct (data !! i) as [w |] eqn:Hw.
    + rewrite (drop_S _ _ _ Hw). cbn [exchange].
      unfold mbind, io_bind, spi_Transfer.
      destruct (Transfer s w) as [[s1 r] [e |]].
      * now rewrite writeFrom_loop_failed.
      * rewrite IH by lia.
        now destruct (exchange Transfer s1 (drop (S i) data))
          as [[[s2 sent] got] err].
    + rewrite drop_ge by (now apply lookup_ge_None). reflexivity.
Qed.

Lemma writeFrom_exchange (data : list Z) (s : Bus) :
  writeFrom Transfer data s
  = let '(s', sent, _, err) := exchange Transfer s data in
    (err, s', map BusTransfer sent).
Proof.
  unfold writeFrom. rewrite writeFrom_loop_exchange by lia.
  now rewrite drop_0.
Qed.

Lemma readInto_loop_failed (n i : nat) (rsp : list Z) (e : E) (s : Bus) :
  readInto_loop Transfer n i rsp (Some e) s = ((rsp, Some e), s, []).
Proof.
  destruct n; cbn; [| destruct (bool_decide (i < length rsp)%nat)];
    reflexivity.
Qed.

Lemma readInto_loop_exchange (n : nat) :
  forall (i : nat) (rsp : list Z) (s : Bus),
    (i <= length rsp)%nat -> (length rsp <= n + i)%nat ->
    readInto_loop Transfer n i rsp None s
    = let '(s', sent, got, err) :=
        exchange Transfer s (replicate (length rsp - i) 255) in
      ((take i rsp ++ got ++ drop (i + length got) rsp, err),
       s', map BusTransfer sent).
Proof.
  induction n as [| n IH]; intros i rsp s Hi Hlen.
  - replace (length rsp - i)%nat with 0%nat by lia.
    cbn. rewrite Nat.add_0_r, take_drop. reflexivity.
  - cbn [readInto_loop].
    destruct (bool_decide_reflect (i < length rsp)%nat) as [Hlt | Hge].
    + replace (length rsp - i)%nat with (S (length rsp - S i)) by lia.
      cbn [replicate exchange].
      unfold mbind, io_bind, spi_Transfer.
      destruct (Transfer s 255) as [[s1 r] [e |]].
      * rewrite readInto_loop_failed. cbn [length app].
        rewrite (insert_take_drop rsp i r Hlt).
        now replace (i + 1)%nat with (S i) by lia.
      * rewrite IH by (rewrite length_insert; lia).
        rewrite length_insert.
        destruct (exchange Transfer s1 (replicate (length rsp - S i) 255))
          as [[[s2 sent] got] err].
        cbn [length app map]. do 3 f_equal.
        rewrite (take_S_r _ _ r) by (now apply list_lookup_insert_eq).
        rewrite take_insert_ge by lia.
        rewrite drop_insert_lt by lia.
        rewrite <- app_assoc. cbn [app].
        now replace (i + S (length got))%nat with (S i + length got)%nat
          by lia.
    + replace (length rsp - i)%nat with 0%nat by lia.
      cbn. rewrite Nat.add_0_r, take_drop. reflexivity.
Qed.

Lemma readInto_exchange (rsp : list Z) (s : Bus) :
  readInto Transfer rsp s
  = let '(s', sent, got, err) :=
      exchange Transfer s (replicate (length rsp) 255) in
    ((got ++ drop (length got) rsp, err), s', map BusTransfer sent).
Proof.
  unfold readInto. rewrite readInto_loop_exchange by lia.
  now rewrite Nat.sub_0_r.
Qed.

Lemma eraseCommand_eq (cmd addr : Z) (s : Bus) :
  eraseCommand Transfer cmd addr s
  = let '(s', sent, _, err) :=
      exchange Transfer s (cmd :: address_bytes addr) in
    (err, s', selected sent).
Proof.
  unfold eraseCommand, mbind, io_bind, ss_Low, ss_High, mret, io_ret.
  rewrite sendAddress_exchange.
  destruct (exchange Transfer s (cmd :: address_bytes addr))
    as [[[s' sent] got] err].
  unfold selected. now rewrite app_nil_r.
Qed.

Lemma writeMemory_eq (addr : Z) (data : list Z) (s : Bus) :
  writeMemory Transfer cmdPageProgram addr data s
  = let '(s', sent, _, err) :=
      exchange Transfer s (cmdPageProgram :: address_bytes addr ++ data) in
    (err, s', selected sent).
Proof.
  unfold writeMemory, mbind, io_bind, ss_Low, ss_High, mret, io_ret.
  rewrite sendAddress_exchange.
  change (cmdPageProgram :: address_bytes addr ++ data)
    with ((cmdPageProgram :: address_bytes addr) ++ data).
  rewrite exchange_app.
  destruct (exchange Transfer s (cmdPageProgram :: address_bytes addr))
    as [[[s1 sent1] got1] [e1 |]].
  - unfold selected. now rewrite !app_nil_r.
  - rewrite writeFrom_exchange.
    destruct (exchange Transfer s1 data) as [[[s2 sent2] got2] err2].
    unfold selected. now rewrite map_app, !app_nil_r, <- app_assoc.
Qed.

Lemma readMemory_eq (addr : Z) (rsp : list Z) (s : Bus) :
  readMemory Transfer cmdRead addr rsp s
  = let '(s', sent, got, err) :=
      exchange Transfer s
        (cmdRead :: address_bytes addr ++ replicate (length rsp) 255) in
    ((drop 4 got ++ drop (length got - 4) rsp, err), s', selected sent).
Proof.
  unfold readMemory, mbind, io_bind, ss_Low, ss_High, mret, io_ret.
  rewrite sendAddress_exchange.
  change (cmdRead :: address_bytes addr ++ replicate (length rsp) 255)
    with ((cmdRead :: address_bytes addr) ++ replicate (length rsp) 255).
  rewrite exchange_app.
  destruct (exchange Transfer s (cmdRead :: address_bytes addr))
    as [[[s1 sent1] got1] err1] eqn:Hx.
  destruct (exchange_sent _ _ _ _ _ _ Hx) as (Hpre & Hlen & Hall).
  destruct err1 as [e1 |].
  - assert (length got1 <= 4)%nat
      by (rewrite Hlen; apply (prefix_length _ _ Hpre)).
    rewrite drop_ge by assumption.
    replace (length got1 - 4)%nat with 0%nat by lia.
    unfold selected. now rewrite !app_nil_r.
  - rewrite (Hall eq_refl) in Hlen. cbn [length address_bytes] in Hlen.
    rewrite readInto_exchange.
    destruct (exchange Transfer s1 (replicate (length rsp) 255))
      as [[[s2 sent2] got2] err2].
    rewrite drop_app_length' by (symmetry; exact Hlen).
    rewrite length_app, Hlen.
    replace (4 + length got2 - 4)%nat with (length got2) by lia.
    unfold selected. now rewrite map_app, !app_nil_r, <- app_assoc.
Qed.

Lemma runCommand_eq (cmd : Z) (s : Bus) :
  runCommand Transfer cmd s
  = let '(s', sent, _, err) := exchange Transfer s [cmd] in
    (err, s', selected sent).
Proof.
  unfold runCommand, mbind, io_bind, ss_Low, ss_High, mret, io_ret,
    spi_Transfer.
  cbn [exchange].
  destruct (Transfer s cmd) as [[s1 r] [e |]]; reflexivity.
Qed.

Lemma writeCommand_eq (cmd : Z) (data : list Z) (s : Bus) :
  writeCommand Transfer cmd data s
  = let '(s', sent, _, _) := exchange Transfer s (cmd :: data) in
    (None, s', selected sent).
Proof.
  unfold writeCommand, mbind, io_bind, ss_Low, ss_High, mret, io_ret,
    spi_Transfer.
  cbn [exchange].
  destruct (Transfer s cmd) as [[s1 r] [e |]]; [reflexivity |].
  rewrite writeFrom_exchange.
  destruct (exchange Transfer s1 data) as [[[s2 sent] got] err].
  unfold selected. cbn [map app]. now rewrite ?app_nil_r.
Qed.

Lemma readCommand_eq (cmd : Z) (rsp : list Z) (s : Bus) :
  readCommand Transfer cmd rsp s
  = let '(s', sent, got, _) :=
      exchange Transfer s (cmd :: replicate (length rsp) 255) in
    ((drop 1 got ++ drop (length got - 1) rsp, None), s', selected sent).
Proof.
  unfold readCommand, mbind, io_bind, ss_Low, ss_High, mret, io_ret,
    spi_Transfer.
  cbn [exchange].
  destruct (Transfer s cmd) as [[s1 r] [e |]]; [reflexivity |].
  rewrite readInto_exchange.
  destruct (exchange Transfer s1 (replicate (length rsp) 255))
    as [[[s2 sent] got] err].
  unfold selected. cbn [map app length drop].
  rewrite drop_0.
  now replace (S (length got) - 1)%nat with (length got) by lia.
Qed.

Lemma readCommandByte_eq (cmd : Z) (s : Bus) :
  readCommandByte Transfer cmd s
  = let '(s', sent, got, _) := exchange Transfer s [cmd; 255] in
    ((default 0 (got !! 1%nat), None), s', selected sent).
Proof.
  unfold readCommandByte, mbind, io_bind, ss_Low, ss_High, mret, io_ret,
    spi_Transfer.
  cbn [exchange].
  destruct (Transfer s cmd) as [[s1 r] [e |]]; [reflexivity |].
  destruct (Transfer s1 255) as [[s2 r2] [e2 |]]; reflexivity.
Qed.

Lemma address_bytes_value (addr : Z) :
  address_value (address_bytes addr) = addr mod 2 ^ 24.
Proof.
  unfold address_value, address_bytes. cbn [foldl].
  pose proof (Z.div_mod addr (2 ^ 8) ltac:(lia)) as H0.
  pose proof (Z.div_mod (addr / 2 ^ 8) (2 ^ 8) ltac:(lia)) as H1.
  pose proof (Z.div_mod (addr / 2 ^ 8 / 2 ^ 8) (2 ^ 8) ltac:(lia)) as H2.
  pose proof (Z.mod_pos_bound addr (2 ^ 8) ltac:(lia)).
  pose proof (Z.mod_pos_bound (addr / 2 ^ 8) (2 ^ 8) ltac:(lia)).
  pose proof (Z.mod_pos_bound (addr / 2 ^ 8 / 2 ^ 8) (2 ^ 8) ltac:(lia)).
  replace (addr / 2 ^ 16) with (addr / 2 ^ 8 / 2 ^ 8)
    by (rewrite Z.div_div by lia; reflexivity).
  apply Z.mod_unique with (q := addr / 2 ^ 8 / 2 ^ 8 / 2 ^ 8); lia.
Qed.

Lemma address_byte_mod (addr k : Z) :
  0 <= k <= 16 ->
  (addr mod 2 ^ 24) / 2 ^ k mod 2 ^ 8 = addr / 2 ^ k mod 2 ^ 8.
Proof.
  intros Hk.
  rewrite <- !address_byte by lia.
  change 255 with (Z.ones 8).
  apply Z.bits_inj'. intros i Hi.
  rewrite !Z.land_spec, !Z.shiftr_spec by assumption.
  destruct (Z_lt_le_dec i 8) as [Hlt | Hge].
  - rewrite Z.mod_pow2_bits_low by lia. reflexivity.
  - rewrite Z.ones_spec_high by lia. now rewrite !andb_false_r.
Qed.

Lemma address_bytes_mod (addr : Z) :
  address_bytes (addr mod 2 ^ 24) = address_bytes addr.
Proof.
  unfold address_bytes.
  rewrite (address_byte_mod addr 16), (address_byte_mod addr 8) by lia.
  pose proof (address_byte_mod addr 0 ltac:(lia)) as H0.
  rewrite !Z.pow_0_r, !Z.div_1_r in H0. now rewrite H0.
Qed.

Lemma exchange_reliable (ws : list Z) :
  (forall s w, snd (Transfer s w) = None) ->
  forall s, exists s' got,
    exchange Transfer s ws = (s', ws, got, None) /\ length got = length ws.
Proof.
  intros Hok. induction ws as [| w ws IH]; intros s; cbn [exchange].
  - exists s, []. split; reflexivity.
  - specialize (Hok s w).
    destruct (Transfer s w) as [[s1 r] e]. cbn [snd] in Hok. subst e.
    destruct (IH s1) as (s' & got & -> & Hlen).
    exists s', (r :: got). split; [reflexivity |].
    cbn [length]. now rewrite Hlen.
Qed.

(** X17.  [eraseCommand] selects the chip, sends the command byte and then
    the address as three bytes, most significant first (their value is the
    address modulo 2^24); it stops after the first transfer that fails,
    deselects the chip in every case and returns the error of the last
    transfer, so that nil means that all four bytes were sent. *)
Theorem eraseCommand_sends_address (cmd addr : Z) (s : Bus) :
  exists s' sent got err,
    exchange Transfer s (cmd :: address_bytes addr) = (s', sent, got, err) /\
    eraseCommand Transfer cmd addr s = (err, s', selected sent) /\
    sent `prefix_of` cmd :: address_bytes addr /\
    (err = None -> sent = cmd :: address_bytes addr) /\
    address_value (address_bytes addr) = addr mod 2 ^ 24.
Proof.
  destruct (exchange Transfer s (cmd :: address_bytes addr))
    as [[[s' sent] got] err] eqn:Hx.
  exists s', sent, got, err.
  destruct (exchange_sent _ _ _ _ _ _ Hx) as (Hpre & _ & Hall).
  rewrite eraseCommand_eq, Hx.
  auto using address_bytes_value.
Qed.

(** X18.  [writeMemory] selects the chip, sends the page-program command,
    the three address bytes and the data bytes in order, stops after the
    first transfer that fails and deselects the chip in every case.  It
    returns the error of the last transfer: nil means that every data byte
    was sent. *)
Theorem writeMemory_sends_data (addr : Z) (data : list Z) (s : Bus) :
  exists s' sent got err,
    exchange Transfer s (cmdPageProgram :: address_bytes addr ++ data)
    = (s', sent, got, err) /\
    writeMemory Transfer cmdPageProgram addr data s
    = (err, s', selected sent) /\
    sent `prefix_of` cmdPageProgram :: address_bytes addr ++ data /\
    (err = None -> sent = cmdPageProgram :: address_bytes addr ++ data).
Proof.
  destruct (exchange Transfer s (cmdPageProgram :: address_bytes addr ++ data))
    as [[[s' sent] got] err] eqn:Hx.
  exists s', sent, got, err.
  destruct (exchange_sent _ _ _ _ _ _ Hx) as (Hpre & _ & Hall).
  rewrite writeMemory_eq, Hx. auto.
Qed.

(** X19.  [readMemory] selects the chip, sends the read command and the
    three address bytes, and then one 0xFF per element of [rsp], storing
    each byte received in turn; it stops after the first transfer that
    fails (the byte of the failed transfer is stored too), leaves the rest
    of [rsp] as it was and never changes its length, deselects the chip in
    every case and returns the error of the last transfer. *)
Theorem readMemory_fills_buffer (addr : Z) (rsp : list Z) (s : Bus) :
  exists s' sent got err rsp',
    exchange Transfer s
      (cmdRead :: address_bytes addr ++ replicate (length rsp) 255)
    = (s', sent, got, err) /\
    readMemory Transfer cmdRead addr rsp s = ((rsp', err), s', selected sent) /\
    rsp' = drop 4 got ++ drop (length got - 4) rsp /\
    length rsp' = length rsp /\
    (err = None -> rsp' = drop 4 got).
Proof.
  destruct (exchange Transfer s
              (cmdRead :: address_bytes addr ++ replicate (length rsp) 255))
    as [[[s' sent] got] err] eqn:Hx.
  exists s', sent, got, err, (drop 4 got ++ drop (length got - 4) rsp).
  destruct (exchange_sent _ _ _ _ _ _ Hx) as (Hpre & Hlen & Hall).
  rewrite readMemory_eq, Hx.
  pose proof (prefix_length _ _ Hpre) as Hle.
  cbn [length address_bytes] in Hle.
  rewrite length_app, length_replicate in Hle.
  change (length (address_bytes addr)) with 3%nat in Hle.
  repeat split.
  - rewrite length_app, !length_drop. lia.
  - intros Herr. rewrite (Hall Herr) in Hlen.
    cbn [length address_bytes] in Hlen.
    rewrite length_app, length_replicate in Hlen.
    change (length (address_bytes addr)) with 3%nat in Hlen.
    rewrite (drop_ge rsp) by lia. apply app_nil_r.
Qed.

(** X20.  Which commands report a bus error.  [runCommand] returns the
    error of its transfer.  [readCommand], [readCommandByte] and
    [writeCommand] make the same transfers as the corresponding sequence of
    bytes offered to the bus, stopping after the first failure, but return
    nil whatever the bus reported: the [err] they test and assign is local
    to the [if] statement. *)
Theorem command_errors_dropped (cmd : Z) (data rsp : list Z) (s : Bus) :
  (exists s' sent got err,
     exchange Transfer s [cmd] = (s', sent, got, err) /\
     runCommand Transfer cmd s = (err, s', selected sent)) /\
  (exists s' sent got err,
     exchange Transfer s (cmd :: data) = (s', sent, got, err) /\
     writeCommand Transfer cmd data s = (None, s', selected sent)) /\
  (exists s' sent got err,
     exchange Transfer s (cmd :: replicate (length rsp) 255)
     = (s', sent, got, err) /\
     readCommand Transfer cmd rsp s
     = ((drop 1 got ++ drop (length got - 1) rsp, None), s', selected sent)) /\
  (exists s' sent got err,
     exchange Transfer s [cmd; 255] = (s', sent, got, err) /\
     readCommandByte Transfer cmd s
     = ((default 0 (got !! 1%nat), None), s', selected sent)).
Proof.
  rewrite runCommand_eq, writeCommand_eq, readCommand_eq, readCommandByte_eq.
  repeat split.
  - destruct (exchange Transfer s [cmd]) as [[[s' sent] got] err]; eauto 6.
  - destruct (exchange Transfer s (cmd :: data)) as [[[s' sent] got] err];
      eauto 6.
  - destruct (exchange Transfer s (cmd :: replicate (length rsp) 255))
      as [[[s' sent] got] err]; eauto 6.
  - destruct (exchange Transfer s [cmd; 255]) as [[[s' sent] got] err];
      eauto 6.
Qed.

(** X21.  Addresses are 24 bits wide on the wire: two addresses that agree
    modulo 2^24 give the same erase, read and write, transfer for
    transfer. *)
Theorem address_is_24_bit (addr addr' : Z) :
  addr mod 2 ^ 24 = addr' mod 2 ^ 24 ->
  (forall cmd s,
     eraseCommand Transfer cmd addr s = eraseCommand Transfer cmd addr' s) /\
  (forall rsp s,
     readMemory Transfer cmdRead addr rsp s
     = readMemory Transfer cmdRead addr' rsp s) /\
  (forall data s,
     writeMemory Transfer cmdPageProgram addr data s
     = writeMemory Transfer cmdPageProgram addr' data s).
Proof.
  intros Hmod.
  assert (Hbytes : address_bytes addr = address_bytes addr')
    by (rewrite <- (address_bytes_mod addr), Hmod; apply address_bytes_mod).
  repeat split; intros.
  - now rewrite !eraseCommand_eq, Hbytes.
  - now rewrite !readMemory_eq, Hbytes.
  - now rewrite !writeMemory_eq, Hbytes.
Qed.

(** X22.  On a bus that reports no error, [readMemory] makes exactly
    [4 + len(rsp)] transfers, returns nil, and leaves in [rsp] the bytes
    received after the four bytes of command and address. *)
Theorem readMemory_reliable_bus (addr : Z) (rsp : list Z) (s : Bus) :
  (forall s w, snd (Transfer s w) = None) ->
  exists s' got,
    exchange Transfer s
      (cmdRead :: address_bytes addr ++ replicate (length rsp) 255)
    = (s', cmdRead :: address_bytes addr ++ replicate (length rsp) 255,
       got, None) /\
    readMemory Transfer cmdRead addr rsp s
    = ((drop 4 got, None), s',
       selected (cmdRead :: address_bytes addr ++ replicate (length rsp) 255)) /\
    length (drop 4 got) = length rsp.
Proof.
  intros Hok.
  destruct (exchange_reliable
              (cmdRead :: address_bytes addr ++ replicate (length rsp) 255)
              Hok s) as (s' & got & Hx & Hlen).
  exists s', got.
  cbn [length address_bytes] in Hlen.
  rewrite length_app, length_replicate in Hlen.
  change (length (address_bytes addr)) with 3%nat in Hlen.
  rewrite readMemory_eq, Hx.
  rewrite (drop_ge rsp) by lia. rewrite app_nil_r.
  repeat split. rewrite length_drop. lia.
Qed.

End FlashTransport.

(** X21 for a chip that fails its seventh transfer: address 0x1000100 reads
    as address 0x100. *)
Lemma address_is_24_bit_witness :
  Flash.readMemory (Flash.failing_chip 7) 3 (2 ^ 24 + 256) [0; 0; 0; 0] 0
  = Flash.readMemory (Flash.failing_chip 7) 3 256 [0; 0; 0; 0] 0.
Proof.
  apply (address_is_24_bit (Flash.failing_chip 7) 3 2 (2 ^ 24 + 256) 256).
  vm_compute. reflexivity.
Defined.

(** X22 for the chip that counts: four bytes read at address 0x100. *)
Lemma readMemory_reliable_bus_witness :
  Flash.readMemory Flash.counting_chip 3 256 [0; 0; 0; 0] 0
  = (([4; 5; 6; 7], None), 8,
     Flash.selected [3; 0; 1; 0; 255; 255; 255; 255]).
Proof.
  destruct (readMemory_reliable_bus Flash.counting_chip 3 256 [0; 0; 0; 0] 0)
    as (s' & got & Hx & Hread & _); [intros; reflexivity |].
  vm_compute in Hx. injection Hx as <- <-.
  exact Hread.
Defined.

(** * Coordinates of the gravity example *)

Section GravityCoordinates.

Import Gravity.

Lemma wrap_i32_id (z : Z) : int_range z -> wrap_i32 z = z.
Proof. apply wrap_int_id. Qed.

Lemma positionMax_value : positionMax = 8388352.
Proof. reflexivity. Qed.

(** X23.  Pixel to particle coordinates and back.  For every [Dimension]
    (a [uint16]) the [Position] is 256 times the pixel coordinate, without
    overflow, and converting it back gives the pixel coordinate again; up to
    [dimensionMax] the position lies within [0, positionMax]. *)
Theorem Dimension_Position_roundtrip (d : Z) :
  0 <= d < 2 ^ 16 ->
  Dimension_Position d = d * velocityMax /\
  Position_Dimension (Dimension_Position d) = d /\
  (d <= dimensionMax -> 0 <= Dimension_Position d <= positionMax).
Proof.
  intros Hd. unfold Dimension_Position, Position_Dimension, velocityMax.
  rewrite positionMax_value. unfold dimensionMax.
  rewrite (wrap_int_id (d * 256)) by (unfold int_range; lia).
  rewrite wrap_i32_id by (unfold int_range; lia).
  rewrite Z.quot_mul by lia.
  unfold wrap_u16. rewrite Z.mod_small by lia.
  repeat split; lia.
Qed.

(** X23 at the largest pixel coordinate. *)
Lemma Dimension_Position_roundtrip_witness :
  Dimension_Position 32767 = 32767 * velocityMax /\
  Position_Dimension (Dimension_Position 32767) = 32767 /\
  (32767 <= dimensionMax -> 0 <= Dimension_Position 32767 <= positionMax).
Proof. apply (Dimension_Position_roundtrip 32767). lia. Defined.

(** X24.  A particle within its speed limit moves by at most one pixel.
    From a position in [0, positionMax] and with a velocity in
    [-velocityMax, velocityMax], [Move] returns the sum without overflow,
    and, unless that sum is negative, a pixel coordinate that differs from
    the one of the old position by at most one. *)
Theorem Position_Move_one_pixel (p v : Z) :
  0 <= p <= positionMax -> - velocityMax <= v <= velocityMax ->
  fst (Position_Move p v) = p + v /\
  (0 <= p + v ->
   snd (Position_Move p v) = (p + v) / velocityMax /\
   Position_Dimension p - 1 <= snd (Position_Move p v)
                            <= Position_Dimension p + 1).
Proof.
  rewrite positionMax_value. unfold velocityMax. intros Hp Hv.
  unfold Position_Move, Position_Dimension, velocityMax. cbn [fst snd].
  rewrite (wrap_int_id (p + v)) by (unfold int_range; lia).
  rewrite wrap_i32_id by (unfold int_range; lia).
  split; [reflexivity |]. intros Hpos.
  rewrite !Z.quot_div_nonneg by lia.
  unfold wrap_u16.
  assert (0 <= p / 256 < 2 ^ 16)
    by (split; [apply Z.div_pos; lia | apply Z.div_lt_upper_bound; lia]).
  assert (0 <= (p + v) / 256 < 2 ^ 16)
    by (split; [apply Z.div_pos; lia | apply Z.div_lt_upper_bound; lia]).
  rewrite !Z.mod_small by lia.
  split; [reflexivity |].
  pose proof (Z.div_mod p 256 ltac:(lia)).
  pose proof (Z.div_mod (p + v) 256 ltac:(lia)).
  pose proof (Z.mod_pos_bound p 256 ltac:(lia)).
  pose proof (Z.mod_pos_bound (p + v) 256 ltac:(lia)).
  lia.
Qed.

(** X24 for a particle one step left of the border of pixel 1. *)
Lemma Position_Move_one_pixel_witness :
  fst (Position_Move 255 1) = 255 + 1 /\
  (0 <= 255 + 1 ->
   snd (Position_Move 255 1) = (255 + 1) / velocityMax /\
   Position_Dimension 255 - 1 <= snd (Position_Move 255 1)
                              <= Position_Dimension 255 + 1).
Proof.
  apply (Position_Move_one_pixel 255 1).
  - rewrite positionMax_value. lia.
  - unfold velocityMax. lia.
Defined.

(** X25.  A bounce never speeds a particle up.  For a velocity within
    [-velocityMax, velocityMax] and an elasticity in [0, velocityMax],
    [Reverse] returns a velocity of the opposite direction (or zero) that is
    no faster than the one given; the full elasticity [velocityMax] gives
    the exact opposite, the elasticity 0 gives rest. *)
Theorem Velocity_Reverse_damps (v elasticity : Z) :
  - velocityMax <= v <= velocityMax -> 0 <= elasticity <= velocityMax ->
  Velocity_Abs (Velocity_Reverse v elasticity) <= Velocity_Abs v /\
  (0 <= v -> Velocity_Reverse v elasticity <= 0) /\
  (v <= 0 -> 0 <= Velocity_Reverse v elasticity) /\
  (elasticity = velocityMax -> Velocity_Reverse v elasticity = - v) /\
  (elasticity = 0 -> Velocity_Reverse v elasticity = 0).
Proof.
  unfold velocityMax. intros Hv He.
  assert (Hprod : - (256 * 256) <= - v * elasticity <= 256 * 256) by nia.
  assert (Hq : Velocity_Reverse v elasticity = Z.quot (- v * elasticity) 256).
  { unfold Velocity_Reverse, velocityMax.
    rewrite (wrap_i32_id (- v)) by (unfold int_range; lia).
    rewrite (wrap_int_id (- v * elasticity)) by (unfold int_range; lia).
    pose proof (Z.quot_rem (- v * elasticity) 256 ltac:(lia)).
    pose proof (Z.rem_bound_abs (- v * elasticity) 256 ltac:(lia)).
    apply wrap_i32_id. unfold int_range. lia. }
  rewrite Hq.
  pose proof (Z.quot_rem (- v * elasticity) 256 ltac:(lia)) as Hqr.
  pose proof (Z.rem_bound_abs (- v * elasticity) 256 ltac:(lia)) as Hr.
  assert (Hsign : 0 <= - v * elasticity -> 0 <= Z.rem (- v * elasticity) 256)
    by (intros; apply Z.rem_nonneg; lia).
  assert (Hsign' : - v * elasticity <= 0 -> Z.rem (- v * elasticity) 256 <= 0)
    by (intros; apply Z.rem_nonpos; lia).
  set (q := Z.quot (- v * elasticity) 256) in *.
  set (r := Z.rem (- v * elasticity) 256) in *.
  assert (Hbound : - Z.abs v <= q <= Z.abs v) by nia.
  unfold Velocity_Abs.
  rewrite !wrap_i32_id by (unfold int_range; lia).
  repeat split.
  - destruct (Z.ltb_spec q 0), (Z.ltb_spec v 0); lia.
  - intros. nia.
  - intros. nia.
  - intros ->. nia.
  - intros ->. nia.
Qed.

(** X25 for half the elasticity: 200 becomes -100. *)
Lemma Velocity_Reverse_damps_witness :
  Velocity_Reverse 200 128 = - 100 /\
  Velocity_Abs (Velocity_Reverse 200 128) <= Velocity_Abs 200.
Proof.
  split; [reflexivity |].
  apply (Velocity_Reverse_damps 200 128); unfold velocityMax; lia.
Defined.

End GravityCoordinates.

(** * The SPI driver of the ILI9341 display *)

Section Ili9341Driver.

Import Ili9341.

Context {Hw : Type}.
Variable SR_HasBits : Hw -> Z -> Hw * bool.
Variable CR1_HasBits : Hw -> Z -> Hw * bool.
Variable reg_write : Hw -> RegWrite -> Hw.
Variables SPI_CR1_SPE SPI_SR_TXE SPI_SR_BSY : Z.

Local Abbreviation act := (@hw Hw).
Local Abbreviation poll_TXE fuel i can :=
  (poll fuel i can (sr_HasBits SR_HasBits SPI_SR_TXE)).
Local Abbreviation idle := (sr_idle SR_HasBits SPI_SR_BSY).
Local Abbreviation setWord_ :=
  (setWord SR_HasBits reg_write SPI_SR_TXE SPI_SR_BSY).
Local Abbreviation enable_ := (enable CR1_HasBits reg_write SPI_CR1_SPE).
Local Abbreviation disable_ := (disable reg_write SPI_CR1_SPE).
Local Abbreviation enabling_ := (enabling CR1_HasBits SPI_CR1_SPE).
Local Abbreviation ready := (always_ready SR_HasBits SPI_SR_TXE SPI_SR_BSY).
Local Abbreviation stuck := (never_ready SR_HasBits SPI_SR_TXE).

Lemma tryMax_fuel : exists fuel, Z.to_nat tryMax = S fuel.
Proof. exists (Z.to_nat (tryMax - 1)). unfold tryMax. lia. Qed.

Lemma poll_done (fuel : nat) (i : Z) (test : act bool) (h : Hw) :
  poll fuel i true test h = (true, h, []).
Proof. destruct fuel; reflexivity. Qed.

Lemma poll_first_try (fuel : nat) (test : act bool) (h h1 : Hw) :
  test h = (true, h1, []) ->
  poll (S fuel) 0 false test h = (true, h1, []).
Proof.
  intros Htest. cbn [poll negb andb].
  change (0 <? tryMax) with true. cbv iota.
  unfold mbind, hw_bind. rewrite Htest, poll_done. reflexivity.
Qed.

Lemma poll_silent (test : act bool) :
  (forall h, exists b h', test h = (b, h', [])) ->
  forall fuel i can h, exists b h', poll fuel i can test h = (b, h', []).
Proof.
  intros Htest. induction fuel as [| fuel IH]; intros i can h.
  - exists can, h. reflexivity.
  - cbn [poll]. destruct (negb can && (i <? tryMax)).
    + unfold mbind, hw_bind.
      destruct (Htest h) as (b & h1 & ->).
      destruct (IH (i + 1) b h1) as (b' & h2 & ->).
      exists b', h2. reflexivity.
    + exists can, h. reflexivity.
Qed.

Lemma sr_HasBits_silent (mask : Z) (h : Hw) :
  exists b h', sr_HasBits SR_HasBits mask h = (b, h', []).
Proof.
  unfold sr_HasBits. destruct (SR_HasBits h mask) as [h1 b].
  exists b, h1. reflexivity.
Qed.

Lemma idle_silent (h : Hw) :
  exists b h', idle h = (b, h', []).
Proof.
  unfold sr_idle, mbind, hw_bind, mret, hw_ret, sr_HasBits.
  destruct (SR_HasBits h SPI_SR_BSY) as [h1 b].
  exists (negb b), h1. reflexivity.
Qed.

(** One call of [setWord] writes its word to the data register once, or
    not at all. *)
Lemma setWord_writes (w : Z) (first last : bool) (h : Hw) :
  exists r h' ev,
    setWord_ w first last h = (r, h', ev) /\ (ev = [] \/ ev = [DR_Set w]).
Proof.
  unfold setWord, mbind, hw_bind.
  destruct (poll_silent _ (sr_HasBits_silent SPI_SR_TXE)
              (Z.to_nat tryMax) 0 first h) as (b & h1 & ->).
  destruct b; cbn [negb].
  - unfold write. destruct last.
    + destruct (poll_silent _ (sr_HasBits_silent SPI_SR_TXE)
                  (Z.to_nat tryMax) 0 false (reg_write h1 (DR_Set w)))
        as (b2 & h2 & ->).
      destruct b2; cbn [negb].
      * destruct (poll_silent _ idle_silent
                    (Z.to_nat tryMax) 0 false h2) as (b3 & h3 & ->).
        destruct b3; cbn [negb]; eauto 8.
      * eauto 8.
    + eauto 8.
  - eauto 8.
Qed.

Lemma setWord_ready (w : Z) (first last : bool) (h : Hw) :
  ready ->
  exists h', setWord_ w first last h = (true, h', [DR_Set w]).
Proof.
  intros Hready. destruct tryMax_fuel as [fuel Hfuel].
  assert (Htxe : forall h0, exists h1,
             sr_HasBits SR_HasBits SPI_SR_TXE h0 = (true, h1, [])).
  { intros h0. unfold sr_HasBits. destruct (Hready h0) as [H _].
    destruct (SR_HasBits h0 SPI_SR_TXE) as [h1 b]. cbn [snd] in H. subst b.
    exists h1. reflexivity. }
  assert (Hidle : forall h0, exists h1, idle h0 = (true, h1, [])).
  { intros h0. unfold sr_idle, mbind, hw_bind, mret, hw_ret, sr_HasBits.
    destruct (Hready h0) as [_ H].
    destruct (SR_HasBits h0 SPI_SR_BSY) as [h1 b]. cbn [snd] in H. subst b.
    exists h1. reflexivity. }
  assert (Hfirst : exists h1, poll_TXE (Z.to_nat tryMax) 0 first h
                              = (true, h1, [])).
  { destruct first.
    - exists h. apply poll_done.
    - destruct (Htxe h) as [h1 H1]. exists h1. rewrite Hfuel.
      now apply poll_first_try. }
  destruct Hfirst as [h1 H1].
  unfold setWord, mbind, hw_bind. rewrite H1. cbn [negb]. unfold write.
  destruct last; [| eauto].
  destruct (Htxe (reg_write h1 (DR_Set w))) as [h2 H2].
  rewrite Hfuel, (poll_first_try _ _ _ _ H2). cbn [negb].
  destruct (Hidle h2) as [h3 H3].
  rewrite (poll_first_try _ _ _ _ H3). cbn [negb].
  exists h3. reflexivity.
Qed.

Lemma poll_stuck (fuel : nat) :
  stuck ->
  forall i h, exists h', poll_TXE fuel i false h = (false, h', []).
Proof.
  intros Hstuck. induction fuel as [| fuel IH]; intros i h.
  - exists h. reflexivity.
  - cbn [poll negb andb]. destruct (i <? tryMax); [| exists h; reflexivity].
    unfold mbind, hw_bind, sr_HasBits at 1.
    specialize (Hstuck h).
    destruct (SR_HasBits h SPI_SR_TXE) as [h1 b]. cbn [snd] in Hstuck. subst b.
    destruct (IH (i + 1) h1) as [h2 ->]. exists h2. reflexivity.
Qed.

Lemma enable_eq (h : Hw) :
  exists h', enable_ h = (tt, h', enabling_ h).
Proof.
  unfold enable, enabling, mbind, hw_bind, cr1_HasBits, write, mret, hw_ret.
  destruct (CR1_HasBits h SPI_CR1_SPE) as [h1 on]. cbn [snd].
  destruct on; cbn [negb]; eauto.
Qed.

Lemma for_each_events {A : Type} (f : A -> list RegWrite)
    (body : A -> act unit) (l : list A) :
  (forall a h, exists h', body a h = (tt, h', f a)) ->
  forall h, exists h', for_each l body h = (tt, h', flat_map f l).
Proof.
  intros Hbody. induction l as [| a l IH]; intros h; cbn [for_each flat_map].
  - exists h. reflexivity.
  - unfold mbind, hw_bind.
    destruct (Hbody a h) as [h1 ->]. destruct (IH h1) as [h2 ->].
    exists h2. reflexivity.
Qed.

Lemma for_each_some (w : RegWrite) {A : Type} (body : A -> act unit)
    (l : list A) :
  (forall a h, exists h' ev,
      body a h = (tt, h', ev) /\ (ev = [] \/ ev = [w])) ->
  forall h, exists h' k,
    for_each l body h = (tt, h', replicate k w) /\ (k <= length l)%nat.
Proof.
  intros Hbody. induction l as [| a l IH]; intros h; cbn [for_each].
  - exists h, 0%nat. split; [reflexivity | cbn; lia].
  - unfold mbind, hw_bind.
    destruct (Hbody a h) as (h1 & ev & -> & Hev).
    destruct (IH h1) as (h2 & k & -> & Hk).
    destruct Hev as [-> | ->].
    + exists h2, k. split; [reflexivity | cbn [length]; lia].
    + exists h2, (S k). split; [reflexivity | cbn [length]; lia].
Qed.

(** A write function: enable, the body, disable. *)
Lemma framed (body : act unit) (ev : list RegWrite) (h : Hw) :
  (forall h0, exists h', body h0 = (tt, h', ev)) ->
  exists h',
    (enable_;; body;; disable_) h
    = (tt, h', enabling_ h ++ ev ++ [CR1_ClearBits SPI_CR1_SPE]).
Proof.
  intros Hbody. unfold mbind, hw_bind.
  destruct (enable_eq h) as [h1 ->].
  destruct (Hbody h1) as [h2 ->].
  unfold disable, write. eauto.
Qed.

Lemma indexed_words {A B : Type} (f : A -> list B) (l : list A) :
  forall g : nat -> Z,
    flat_map (fun '(_, w) => f w) (imap (fun i w => (g i, w)) l)
    = flat_map f l.
Proof.
  induction l as [| a l IH]; intros g; [reflexivity |].
  cbn [imap flat_map]. f_equal.
  apply (IH (fun i => g (S i))).
Qed.

Lemma repeated_words {B : Type} (ws : list B) (n : Z) :
  flat_map (fun _ : Z => ws) (seqZ 0 n) = concat (replicate (Z.to_nat n) ws).
Proof.
  unfold seqZ. generalize (Z.to_nat n) as k. intros k.
  generalize 0%nat as m.
  induction k as [| k IH]; intros m; [reflexivity |].
  cbn [seq fmap list_fmap flat_map replicate concat]. f_equal. apply IH.
Qed.

(** X26.  On a peripheral that is always ready, the slice writes send every
    word: [write8sl] enables the interface if it is not enabled, puts the
    bytes of the slice into the data register in order, and disables the
    interface; [write16sl] does so with the two bytes of every element,
    high byte first. *)
Theorem write_slices_send_all (b data : list Z) (h : Hw) :
  ready ->
  (exists h',
     write8sl SR_HasBits CR1_HasBits reg_write
       SPI_CR1_SPE SPI_SR_TXE SPI_SR_BSY b h
     = (tt, h', enabling_ h ++ map DR_Set b ++ [CR1_ClearBits SPI_CR1_SPE])) /\
  (exists h',
     write16sl SR_HasBits CR1_HasBits reg_write
       SPI_CR1_SPE SPI_SR_TXE SPI_SR_BSY data h
     = (tt, h', enabling_ h ++ map DR_Set (flat_map bytes16 data)
                ++ [CR1_ClearBits SPI_CR1_SPE])).
Proof.
  intros Hready. split.
  - unfold write8sl.
    replace (map DR_Set b) with (flat_map (fun w => [DR_Set w]) b)
      by (induction b; cbn; congruence).
    rewrite <- (indexed_words (fun w => [DR_Set w]) b Z.of_nat).
    apply framed. apply for_each_events. intros [i w] h0.
    unfold mbind, hw_bind, mret, hw_ret.
    destruct (setWord_ready w (i =? 0)
                (wrap_int (i + 1) =? Z.of_nat (length b)) h0 Hready)
      as [h1 ->].
    exists h1. reflexivity.
  - unfold write16sl.
    replace (map DR_Set (flat_map bytes16 data))
      with (flat_map (fun w => map DR_Set (bytes16 w)) data)
      by (induction data as [| w l IH];
          [reflexivity | cbn [flat_map]; rewrite map_app, IH; reflexivity]).
    rewrite <- (indexed_words (fun w => map DR_Set (bytes16 w)) data Z.of_nat).
    apply framed. apply for_each_events. intros [i w] h0.
    unfold mbind, hw_bind, mret, hw_ret.
    destruct (setWord_ready (uint8 (Z.shiftr w 8)) (i =? 0) false h0 Hready)
      as [h1 ->].
    destruct (setWord_ready (uint8 w) false
                (wrap_int (i + 1) =? Z.of_nat (length data)) h1 Hready)
      as [h2 ->].
    exists h2. reflexivity.
Qed.

(** X27.  On a peripheral that is always ready, [write16] puts the high and
    then the low byte of its word into the data register, and [write16n]
    does so [n] times (not at all for [n <= 0]), between enabling and
    disabling the interface. *)
Theorem write16n_sends_all (data n : Z) (h : Hw) :
  ready ->
  (exists h',
     write16 SR_HasBits CR1_HasBits reg_write
       SPI_CR1_SPE SPI_SR_TXE SPI_SR_BSY data h
     = (tt, h', enabling_ h ++ map DR_Set (bytes16 data)
                ++ [CR1_ClearBits SPI_CR1_SPE])) /\
  (exists h',
     write16n SR_HasBits CR1_HasBits reg_write
       SPI_CR1_SPE SPI_SR_TXE SPI_SR_BSY data n h
     = (tt, h', enabling_ h
                ++ concat (replicate (Z.to_nat n) (map DR_Set (bytes16 data)))
                ++ [CR1_ClearBits SPI_CR1_SPE])).
Proof.
  intros Hready. split.
  - unfold write16, mbind, hw_bind.
    destruct (enable_eq h) as [h1 ->].
    destruct (setWord_ready (uint8 (Z.shiftr data 8)) true false h1 Hready)
      as [h2 ->].
    destruct (setWord_ready (uint8 data) false true h2 Hready) as [h3 ->].
    unfold disable, write. eauto.
  - unfold write16n. rewrite <- repeated_words.
    apply framed. apply for_each_events. intros i h0.
    unfold mbind, hw_bind, mret, hw_ret.
    destruct (setWord_ready (uint8 (Z.shiftr data 8)) (i =? 0) false h0 Hready)
      as [h1 ->].
    destruct (setWord_ready (uint8 data) false (wrap_int (i + 1) =? n)
                h1 Hready) as [h2 ->].
    exists h2. reflexivity.
Qed.

(** X28.  [write8n] is one word short.  Asked for [n >= 1] copies of a byte,
    it puts fewer than [n] copies into the data register on every
    peripheral, and exactly [n - 1] on one that is always ready: its loop
    runs while [i < n-1]. *)
Theorem write8n_one_short (b n : Z) (h : Hw) :
  1 <= n < 2 ^ 31 ->
  exists h' k,
    write8n SR_HasBits CR1_HasBits reg_write
      SPI_CR1_SPE SPI_SR_TXE SPI_SR_BSY b n h
    = (tt, h', enabling_ h ++ replicate k (DR_Set b)
               ++ [CR1_ClearBits SPI_CR1_SPE]) /\
    (k < Z.to_nat n)%nat /\
    (ready -> k = Z.to_nat (n - 1)).
Proof.
  intros Hn. unfold write8n.
  rewrite (wrap_int_id (n - 1)) by (unfold int_range; lia).
  set (body := fun i : Z =>
                 setWord_ b (i =? 0) (wrap_int (i + 1) =? n);; mret tt).
  assert (Hsome : forall i h0, exists h' ev,
             body i h0 = (tt, h', ev) /\ (ev = [] \/ ev = [DR_Set b])).
  { intros i h0. unfold body, mbind, hw_bind, mret, hw_ret.
    destruct (setWord_writes b (i =? 0) (wrap_int (i + 1) =? n) h0)
      as (r & h1 & ev & -> & Hev).
    exists h1, ev. rewrite app_nil_r. auto. }
  unfold mbind at 1 2, hw_bind at 1 2.
  destruct (enable_eq h) as [h1 ->].
  destruct (for_each_some (DR_Set b) body (seqZ 0 (n - 1)) Hsome h1)
    as (h2 & k & Hk & Hle).
  rewrite length_seqZ in Hle.
  fold body. rewrite Hk. unfold disable, write.
  exists (reg_write h2 (CR1_ClearBits SPI_CR1_SPE)), k.
  split; [reflexivity |]. split; [lia |].
  intros Hready.
  assert (Hall : forall i h0, exists h',
             body i h0 = (tt, h', (fun _ => [DR_Set b]) i)).
  { intros i h0. unfold body, mbind, hw_bind, mret, hw_ret.
    destruct (setWord_ready b (i =? 0) (wrap_int (i + 1) =? n) h0 Hready)
      as [h3 ->].
    exists h3. reflexivity. }
  destruct (for_each_events _ body (seqZ 0 (n - 1)) Hall h1) as [h3 Hk'].
  rewrite Hk in Hk'. injection Hk' as _ Hev.
  apply (f_equal length) in Hev.
  rewrite length_replicate, repeated_words in Hev.
  rewrite Hev. clear.
  induction (Z.to_nat (n - 1)) as [| m IH]; [reflexivity |].
  cbn [replicate concat app length]. now rewrite IH.
Qed.

(** X29.  A time-out is silent.  On a peripheral whose transmit buffer is
    never found empty, [setWord] gives up on every word but a first one:
    it returns false and leaves the data register alone.  [write16]
    ignores that result: it puts the high byte only and disables the
    interface. *)
Theorem setWord_timeout_skips (data : Z) (h : Hw) :
  stuck ->
  (forall w last h0, exists h',
      setWord_ w false last h0 = (false, h', [])) /\
  (exists h',
     write16 SR_HasBits CR1_HasBits reg_write
       SPI_CR1_SPE SPI_SR_TXE SPI_SR_BSY data h
     = (tt, h', enabling_ h ++ [DR_Set (uint8 (Z.shiftr data 8));
                                CR1_ClearBits SPI_CR1_SPE])).
Proof.
  intros Hstuck.
  assert (Hskip : forall w last h0, exists h',
             setWord_ w false last h0 = (false, h', [])).
  { intros w last h0. unfold setWord, mbind, hw_bind.
    destruct (poll_stuck (Z.to_nat tryMax) Hstuck 0 h0) as [h1 ->].
    exists h1. reflexivity. }
  split; [exact Hskip |].
  unfold write16, mbind, hw_bind.
  destruct (enable_eq h) as [h1 ->].
  unfold setWord at 1, mbind, hw_bind. rewrite poll_done. cbn [negb].
  unfold write at 1, mret, hw_ret.
  destruct (Hskip (uint8 data) true (reg_write h1 (DR_Set (uint8 (Z.shiftr data 8)))))
    as [h2 ->].
  unfold disable, write. eauto.
Qed.

End Ili9341Driver.

(** X26 on the peripheral that is always ready. *)
Lemma write_slices_send_all_witness :
  exists h',
    Ili9341.write8sl Ili9341.ready_SR Ili9341.plain_CR1 Ili9341.plain_write
      64 2 128 [10; 20; 30] 0
    = (tt, h', [Ili9341.CR1_SetBits 64; Ili9341.DR_Set 10; Ili9341.DR_Set 20;
                Ili9341.DR_Set 30; Ili9341.CR1_ClearBits 64]).
Proof.
  apply (write_slices_send_all Ili9341.ready_SR Ili9341.plain_CR1
           Ili9341.plain_write 64 2 128 [10; 20; 30] [] 0).
  intros; split; reflexivity.
Defined.

(** X27 on the peripheral that is always ready: the word 0x1234 twice. *)
Lemma write16n_sends_all_witness :
  exists h',
    Ili9341.write16n Ili9341.ready_SR Ili9341.plain_CR1 Ili9341.plain_write
      64 2 128 4660 2 0
    = (tt, h', [Ili9341.CR1_SetBits 64; Ili9341.DR_Set 18; Ili9341.DR_Set 52;
                Ili9341.DR_Set 18; Ili9341.DR_Set 52;
                Ili9341.CR1_ClearBits 64]).
Proof.
  apply (write16n_sends_all Ili9341.ready_SR Ili9341.plain_CR1
           Ili9341.plain_write 64 2 128 4660 2 0).
  intros; split; reflexivity.
Defined.

(** X28 on the peripheral that is always ready: three copies asked for. *)
Lemma write8n_one_short_witness :
  exists h' k,
    Ili9341.write8n Ili9341.ready_SR Ili9341.plain_CR1 Ili9341.plain_write
      64 2 128 7 3 0
    = (tt, h', Ili9341.enabling Ili9341.plain_CR1 64 0
               ++ replicate k (Ili9341.DR_Set 7)
               ++ [Ili9341.CR1_ClearBits 64]) /\
    (k < Z.to_nat 3)%nat /\
    (Ili9341.always_ready Ili9341.ready_SR 2 128 -> k = Z.to_nat (3 - 1)).
Proof.
  apply (write8n_one_short Ili9341.ready_SR Ili9341.plain_CR1
           Ili9341.plain_write 64 2 128 7 3 0).
  lia.
Defined.

(** X29 on the peripheral that is never ready. *)
Lemma setWord_timeout_skips_witness :
  exists h',
    Ili9341.write16 Ili9341.stuck_SR Ili9341.plain_CR1 Ili9341.plain_write
      64 2 128 4660 0
    = (tt, h', [Ili9341.CR1_SetBits 64; Ili9341.DR_Set 18;
                Ili9341.CR1_ClearBits 64]).
Proof.
  apply (setWord_timeout_skips Ili9341.stuck_SR Ili9341.plain_CR1
           Ili9341.plain_write 64 2 128 4660 0).
  intros h. reflexivity.
Defined.
